(** * dmm2bm.config: configuration merge and calibration lookup

    A shallow embedding of [dmm2bm/config.py].  The module reads an INI
    file into command-line style tokens ([config_to_list]), merges them
    with [sys.argv] ([get_config_name], [parse_known_args]), writes a
    parameter set back to an INI file ([write], [save_params_to_config],
    [save_current_positions_to_config]), reports it ([log_values]) and
    looks motor positions up in a calibration table
    ([set_default_config]).

    The Python standard library pieces the module calls ([configparser],
    [argparse], [os.path], [open], name resolution) are modelled next to
    the code, each with the part of its documented behaviour the module
    relies on.  What the interpreter and the operating system provide
    (floating point conversions, the home directory) is collected in the
    class [Runtime]. *)

From Stdlib Require Import String Ascii ZArith List Bool Lia DecimalString.
From stdpp Require Import base option gmap strings list.

Open Scope string_scope.
Open Scope list_scope.

(** ** Python strings *)

Module PyStr.

(** [s.startswith(p)] *)
Definition startswith (s p : string) : bool := String.prefix p s.

Fixpoint map_chars (f : ascii → ascii) (s : string) : string :=
  match s with
  | EmptyString => EmptyString
  | String c s' => String (f c) (map_chars f s')
  end.

(** [s.replace(a, b)] for one-character [a] and [b] *)
Definition replace_char (a b : ascii) (s : string) : string :=
  map_chars (λ c, if Ascii.eqb c a then b else c) s.

Definition lower_char (c : ascii) : ascii :=
  let n := nat_of_ascii c in
  if (65 <=? n)%nat && (n <=? 90)%nat then ascii_of_nat (n + 32) else c.

(** [s.lower()] on ASCII text *)
Definition lower (s : string) : string := map_chars lower_char s.

(** [c in s] for a character [c] *)
Fixpoint contains (c : ascii) (s : string) : bool :=
  match s with
  | EmptyString => false
  | String c' s' => Ascii.eqb c c' || contains c s'
  end.

(** [s.split(c, 1)] when [c] occurs in [s]: the text before and after the
    first occurrence of [c]. *)
Fixpoint split_once (c : ascii) (s : string) : option (string * string) :=
  match s with
  | EmptyString => None
  | String c' s' =>
      if Ascii.eqb c c' then Some (EmptyString, s')
      else match split_once c s' with
           | Some (a, b) => Some (String c' a, b)
           | None => None
           end
  end.

(** [s.split(c)] for a one-character separator *)
Fixpoint split_char (c : ascii) (s : string) : list string :=
  match s with
  | EmptyString => [EmptyString]
  | String c' s' =>
      if Ascii.eqb c c' then EmptyString :: split_char c s'
      else match split_char c s' with
           | w :: ws => String c' w :: ws
           | [] => [String c' EmptyString]
           end
  end.

(** The prefix of [s] that ends where [sep] first occurs ([s] itself when
    [sep] does not occur): the first element of [s.split(sep)]. *)
Fixpoint before_sub (sep s : string) : string :=
  match s with
  | EmptyString => EmptyString
  | String c s' =>
      if String.prefix sep s then EmptyString else String c (before_sub sep s')
  end.

Fixpoint drop (n : nat) (s : string) : string :=
  match n, s with
  | O, _ => s
  | S n', String _ s' => drop n' s'
  | S _, EmptyString => EmptyString
  end.

Definition is_space (c : ascii) : bool :=
  let n := nat_of_ascii c in
  ((9 <=? n)%nat && (n <=? 13)%nat) || (n =? 32)%nat
  || ((28 <=? n)%nat && (n <=? 31)%nat).

Fixpoint lstrip (s : string) : string :=
  match s with
  | String c s' => if is_space c then lstrip s' else s
  | EmptyString => EmptyString
  end.

Fixpoint rstrip (s : string) : string :=
  match s with
  | EmptyString => EmptyString
  | String c s' =>
      match rstrip s' with
      | EmptyString => if is_space c then EmptyString else String c EmptyString
      | r => String c r
      end
  end.

(** [s.strip()] *)
Definition strip (s : string) : string := rstrip (lstrip s).

(** [sep.join(l)] *)
Fixpoint join (sep : string) (l : list string) : string :=
  match l with
  | [] => EmptyString
  | [x] => x
  | x :: l' => x +:+ sep +:+ join sep l'
  end.

(** ['{:<16}'.format(s)] *)
Fixpoint ljust (n : nat) (s : string) : string :=
  match n, s with
  | O, _ => s
  | S n', EmptyString => String " " (ljust n' EmptyString)
  | S n', String c s' => String c (ljust n' s')
  end.

Fixpoint insert_sorted (x : string) (l : list string) : list string :=
  match l with
  | [] => [x]
  | y :: l' => if String.leb x y then x :: l else y :: insert_sorted x l'
  end.

(** [sorted(l)] on strings *)
Definition sorted (l : list string) : list string :=
  foldr insert_sorted [] l.

(** [os.path.join(a, b)] on POSIX paths *)
Definition path_join (a b : string) : string :=
  if startswith b "/" then b
  else if String.eqb a "" then b
  else if String.eqb (drop (String.length a - 1) a) "/" then a +:+ b
  else a +:+ "/" +:+ b.

(** [str(n)] for an integer [n] *)
Definition of_int (n : Z) : string := NilZero.string_of_int (Z.to_int n).

End PyStr.

(** ** Exceptions and results *)

Inductive exn : Type :=
  | NameError            (* a global name that is not bound *)
  | AttributeError
  | IndexError
  | KeyError
  | TypeError
  | ValueError
  | FileNotFoundError    (* [open] on a file that cannot be opened *)
  | ParsingError         (* [configparser.Error] raised while reading a file *)
  | DuplicateSectionError
  | DuplicateOptionError
  | NoSectionError
  | NoOptionError
  | InterpolationSyntaxError
  | InterpolationMissingOptionError
  | InterpolationDepthError
  | ArgumentError        (* [argparse.ArgumentError] from [add_argument] *)
  | JSONDecodeError
  | SystemExit.          (* [parser.error] or [--help] *)

Inductive result (A : Type) : Type :=
  | Ok (a : A)
  | Raise (e : exn).
Arguments Ok {A} a.
Arguments Raise {A} e.

#[global] Instance result_ret : MRet result := λ A a, Ok a.
#[global] Instance result_bind : MBind result := λ A B f r,
  match r with
  | Ok a => f a
  | Raise e => Raise e
  end.

Definition is_ok {A} (r : result A) : bool :=
  match r with Ok _ => true | Raise _ => false end.

(** ** What the interpreter provides

    Floating point numbers, their conversions and their printing are left
    abstract.  The one fact of [float] that is used is that it does not
    read the separator [--] of [argparse] as a number. *)

Class Runtime : Type := {
  pyfloat : Type;                              (* Python [float] *)
  float_of_str : string → option pyfloat;      (* [float(s)], [None]: ValueError *)
  float_of_Z : Z → pyfloat;                    (* [float(n)] *)
  float_eqb : pyfloat → pyfloat → bool;        (* [x == y] *)
  str_of_float : pyfloat → string;             (* [str(x)] *)
  repr_str : string → string;                  (* [repr(s)] *)
  array_str : list string → string;            (* [str(numpy.array(l))] *)
  home : string;                               (* [str(pathlib.Path.home())] *)
  float_of_separator : float_of_str "--" = None;  (* [float('--')]: ValueError *)
}.

(** ** Python values held by a namespace *)

Inductive pyvalue `{Runtime} : Type :=
  | PyNone
  | PyBool (b : bool)
  | PyInt (n : Z)
  | PyFloat (x : pyfloat)
  | PyStr (s : string)
  | PyList (l : list string).

Section Values.
Context `{Runtime}.

(** [str(v)] *)
Definition py_str (v : pyvalue) : string :=
  match v with
  | PyNone => "None"
  | PyBool true => "True"
  | PyBool false => "False"
  | PyInt n => PyStr.of_int n
  | PyFloat x => str_of_float x
  | PyStr s => s
  | PyList l => "[" +:+ PyStr.join ", " (map repr_str l) +:+ "]"
  end.

(** [v == s] for a string literal [s] *)
Definition py_eq_str (v : pyvalue) (s : string) : bool :=
  match v with
  | PyStr s' => String.eqb s' s
  | _ => false
  end.

(** [v is False] *)
Definition is_False (v : pyvalue) : bool :=
  match v with
  | PyBool false => true
  | _ => false
  end.

(** [float(v)] *)
Definition py_float (v : pyvalue) : result pyfloat :=
  match v with
  | PyNone => Raise TypeError
  | PyBool b => Ok (float_of_Z (if b then 1 else 0))
  | PyInt n => Ok (float_of_Z n)
  | PyFloat x => Ok x
  | PyStr s => match float_of_str s with Some x => Ok x | None => Raise ValueError end
  | PyList _ => Raise TypeError
  end.

End Values.

(** The attribute dictionary of an [argparse.Namespace]. *)
Abbreviation namespace := (gmap string pyvalue).

(** ** The [configparser] model

    A [ConfigParser] is represented by the table it holds: the options of
    the [DEFAULT] section and, per section, the options read or set.
    Option names are passed through [optionxform] (lower-casing) by every
    operation that takes one, as the library does.  [get] expands the
    percent syntax of [BasicInterpolation] and [set] checks it, as
    [ConfigParser] (not [RawConfigParser]) does. *)

Module ConfigParser.

Record t : Type := {
  defaults : gmap string string;
  sections : gmap string (gmap string string);
}.

(** [configparser.ConfigParser()] *)
Definition empty : t := {| defaults := ∅; sections := ∅ |}.

Definition optionxform (option : string) : string := PyStr.lower option.

(** [configparser.MAX_INTERPOLATION_DEPTH] *)
Definition MAX_INTERPOLATION_DEPTH : nat := 10.

(** [BasicInterpolation._KEYCRE.match(rest)], the pattern being
    [%\(([^)]+)\)s]: the name between the parentheses and the text after
    the reference. *)
Definition key_reference (rest : string) : option (string * string) :=
  match rest with
  | String "%" (String "(" body) =>
      match PyStr.split_once ")" body with
      | Some (String c name, String "s" rest') => Some (String c name, rest')
      | _ => None
      end
  | _ => None
  end.

(** [BasicInterpolation._interpolate_some]: the text [value] expands to.
    [depth_left] counts the nested expansions still allowed; [lookup] is
    the chain of the section and of the defaults. *)
Fixpoint interpolate_some (depth_left : nat) (lookup : string → option string)
    (value : string) : result string :=
  match depth_left with
  | O => Raise InterpolationDepthError
  | S depth_left' =>
      (fix loop (turns : nat) (rest : string) {struct turns} : result string :=
         match turns, rest with
         | O, _ | _, EmptyString => Ok EmptyString
         | S turns', String "%" (String "%" rest') =>
             tail ← loop turns' rest';
             Ok (String "%" tail)
         | S turns', String "%" (String "(" _) =>
             match key_reference rest with
             | None => Raise InterpolationSyntaxError
             | Some (name, rest') =>
                 match lookup (optionxform name) with
                 | None => Raise InterpolationMissingOptionError
                 | Some v =>
                     head ← (if PyStr.contains "%" v
                             then interpolate_some depth_left' lookup v
                             else Ok v);
                     tail ← loop turns' rest';
                     Ok (head +:+ tail)
                 end
             end
         | S turns', String "%" _ => Raise InterpolationSyntaxError
         | S turns', String c rest' =>
             tail ← loop turns' rest';
             Ok (String c tail)
         end) (String.length value) value
  end.

(** [value.replace('%%', '')] *)
Fixpoint drop_escaped (value : string) : string :=
  match value with
  | String "%" (String "%" rest) => drop_escaped rest
  | String c rest => String c (drop_escaped rest)
  | EmptyString => EmptyString
  end.

(** [BasicInterpolation._KEYCRE.sub('', value)], in at most [turns] steps *)
Fixpoint drop_references (turns : nat) (value : string) : string :=
  match turns, value with
  | O, _ | _, EmptyString => value
  | S turns', String c rest =>
      match key_reference value with
      | Some (_, rest') => drop_references turns' rest'
      | None => String c (drop_references turns' rest)
      end
  end.

(** The check of [BasicInterpolation.before_set]: no percent sign is left
    once the escaped ones and the references are taken out. *)
Definition valid_syntax (value : string) : bool :=
  let tmp_value := drop_escaped value in
  negb (PyStr.contains "%" (drop_references (String.length tmp_value) tmp_value)).

(** [config.has_option(section, option)] *)
Definition has_option (config : t) (section option : string) : bool :=
  if String.eqb section "" || String.eqb section "DEFAULT" then
    bool_decide (is_Some (defaults config !! optionxform option))
  else
    match sections config !! section with
    | None => false
    | Some opts =>
        bool_decide (is_Some (opts !! optionxform option))
        || bool_decide (is_Some (defaults config !! optionxform option))
    end.

(** [config._unify_values(section, None)]: the options of the section,
    then the defaults. *)
Definition unify_values (config : t) (section : string)
  : result (string → option string) :=
  match sections config !! section with
  | Some opts =>
      Ok (λ option, match opts !! option with
                    | Some v => Some v
                    | None => defaults config !! option
                    end)
  | None =>
      if String.eqb section "DEFAULT" then Ok (λ option, defaults config !! option)
      else Raise NoSectionError
  end.

(** [config.get(section, option)] *)
Definition get (config : t) (section option : string) : result string :=
  d ← unify_values config section;
  match d (optionxform option) with
  | None => Raise NoOptionError
  | Some value => interpolate_some MAX_INTERPOLATION_DEPTH d value
  end.

(** [config.add_section(section)] *)
Definition add_section (config : t) (section : string) : result t :=
  if String.eqb section "DEFAULT" then Raise ValueError
  else match sections config !! section with
       | Some _ => Raise DuplicateSectionError
       | None => Ok {| defaults := defaults config;
                       sections := <[section := ∅]> (sections config) |}
       end.

(** [config.set(section, option, value)] *)
Definition set (config : t) (section option value : string) : result t :=
  if negb (valid_syntax value) then Raise ValueError
  else if String.eqb section "" || String.eqb section "DEFAULT" then
    Ok {| defaults := <[optionxform option := value]> (defaults config);
          sections := sections config |}
  else
    match sections config !! section with
    | None => Raise NoSectionError
    | Some opts =>
        Ok {| defaults := defaults config;
              sections := <[section := <[optionxform option := value]> opts]>
                            (sections config) |}
    end.

End ConfigParser.

(** ** Files

    A configuration file either does not parse as INI or is given by its
    [name = value] lines, grouped by section, with the names as they are
    spelled in the file.  A line whose name starts with a comment prefix
    is a comment.  A path that is not in the file system cannot be
    opened. *)

Inductive file : Type :=
  | Garbled
  | Ini (lines : ConfigParser.t).

Abbreviation filesystem := (gmap string file).

Definition is_comment (name : string) : bool :=
  PyStr.startswith name "#" || PyStr.startswith name ";".

Definition drop_comments (lines : gmap string string) : gmap string string :=
  filter (λ kv, is_comment kv.1 = false) lines.

(** The lines of one section as the parser names them: comments left out,
    names lower-cased. *)
Definition read_lines (lines : gmap string string) : list (string * string) :=
  (λ kv, (ConfigParser.optionxform kv.1, kv.2)) <$> map_to_list (drop_comments lines).

(** No two lines of the section come to the same name. *)
Definition distinct_options (lines : gmap string string) : Prop :=
  NoDup (read_lines lines).*1.

(** The options a parser holds after it has read the lines of a section. *)
Definition read_options (lines : gmap string string) : gmap string string :=
  list_to_map (read_lines lines).

(** [config.read([name])] on a fresh parser: the list of files read and the
    parser's table.  A file that cannot be opened is skipped; an error met
    while parsing is not caught, and an option given twice in a section is
    such an error. *)
Definition ConfigParser_read (fs : filesystem) (name : string)
  : result (list string * ConfigParser.t) :=
  match fs !! name with
  | None => Ok ([], ConfigParser.empty)
  | Some Garbled => Raise ParsingError
  | Some (Ini lines) =>
      if decide (distinct_options (ConfigParser.defaults lines)
                 ∧ map_Forall (λ _, distinct_options) (ConfigParser.sections lines))
      then Ok ([name],
               {| ConfigParser.defaults := read_options (ConfigParser.defaults lines);
                  ConfigParser.sections := read_options <$> ConfigParser.sections lines |})
      else Raise DuplicateOptionError
  end.

(** [with open(name, 'w') as f: config.write(f)] *)
Definition ConfigParser_write (fs : filesystem) (name : string)
    (config : ConfigParser.t) : filesystem :=
  <[name := Ini config]> fs.

(** ** The schema: [SECTIONS] *)

Inductive pytype : Type := Tstr | Tfloat.

Record opts `{Runtime} : Type := {
  opt_default : pyvalue;
  opt_type : option pytype;
  opt_help : string;
  opt_metavar : option string;
  opt_action : option string;
  opt_nargs : option string;
}.

Section Schema.
Context `{Runtime}.

Definition LOGS_HOME : string := PyStr.path_join home "logs".
Definition CONFIG_FILE_NAME : string := PyStr.path_join home "logs/dmm.conf".

Definition SECTIONS : list (string * list (string * opts)) :=
  [ ("general",
      [ ("config",
          {| opt_default := PyStr CONFIG_FILE_NAME; opt_type := Some Tstr;
             opt_help := "File name of configuration file";
             opt_metavar := Some "FILE"; opt_action := None; opt_nargs := None |});
        ("logs-home",
          {| opt_default := PyStr LOGS_HOME; opt_type := Some Tstr;
             opt_help := "Log file directory";
             opt_metavar := Some "FILE"; opt_action := None; opt_nargs := None |});
        ("verbose",
          {| opt_default := PyBool false; opt_type := None;
             opt_help := "Verbose output";
             opt_metavar := None; opt_action := Some "store_true"; opt_nargs := None |});
        ("testing",
          {| opt_default := PyBool false; opt_type := None;
             opt_help := "Enable test mode to show DMM new motor positions. The DMM motors will not move";
             opt_metavar := None; opt_action := Some "store_true"; opt_nargs := None |});
        ("force",
          {| opt_default := PyBool false; opt_type := None;
             opt_help := "When set the enegy change will occurs without a confirmation request";
             opt_metavar := None; opt_action := Some "store_true"; opt_nargs := None |}) ]);
    ("energy",
      [ ("energy",
          {| opt_default := PyInt (-1); opt_type := Some Tfloat;
             opt_help := "Desired double crystal multilayer (DMM) monochromator energy. Default (-1) = Pink beam";
             opt_metavar := None; opt_action := None; opt_nargs := None |}) ]);
    ("energyioc",
      [ ("energyioc-prefix",
          {| opt_default := PyStr "2bm:MCTOptics:"; opt_type := Some Tstr;
             opt_help := "The epics IOC hosting the Energy PV, i.e.'2bm:MCTOptics:' ";
             opt_metavar := None; opt_action := None; opt_nargs := None |}) ]) ].

Definition MONO_PARAMS : list string := ["energy"; "energyioc"].
Definition PINK_PARAMS : list string := ["energyioc"].
Definition NICE_NAMES : list string := ["General"; "DMM Energy"; "Energy IOC"].

(** [SECTIONS[section]] *)
Definition SECTIONS_get (section : string) : result (list (string * opts)) :=
  match list_find (λ kv, kv.1 = section) SECTIONS with
  | Some (_, (_, fields)) => Ok fields
  | None => Raise KeyError
  end.

(** ** [config_to_list] *)

(** The body of the inner loop: the tokens one stored option contributes. *)
Definition option_tokens (name : string) (o : opts) (value : string) : list string :=
  if negb (String.eqb value "") && negb (String.eqb value "None") then
    let action := opt_action o in
    (if bool_decide (action = Some "store_true") && String.eqb value "True"
     then ["--" +:+ name] else [])
    ++
    (if negb (bool_decide (action = Some "store_true")) then
       if bool_decide (opt_nargs o = Some "+") then
         ("--" +:+ name) :: map PyStr.strip (PyStr.split_char "," value)
       else ["--" +:+ name +:+ "=" +:+ value]
     else [])
  else [].

(** One turn of the inner loop, for a field of [SECTIONS[section]]; fields
    the file has no option for are filtered out by the generator. *)
Definition field_tokens (config : ConfigParser.t) (section : string)
    (field : string * opts) : result (list string) :=
  let '(name, o) := field in
  if ConfigParser.has_option config section name then
    value ← ConfigParser.get config section name;
    Ok (option_tokens name o value)
  else Ok [].

(** Run a loop body over a list and concatenate what the turns append to
    [result], stopping at the first exception. *)
Fixpoint extend_each {A} (body : A → result (list string)) (l : list A)
  : result (list string) :=
  match l with
  | [] => Ok []
  | x :: l' =>
      ts ← body x;
      rest ← extend_each body l';
      Ok (ts ++ rest)
  end.

Definition config_to_list (fs : filesystem) (config_name : string)
  : result (list string) :=
  '(read_ok, config) ← ConfigParser_read fs config_name;
  match read_ok with
  | [] => Ok []
  | _ =>
      extend_each
        (λ '(section, fields), extend_each (field_tokens config section) fields)
        SECTIONS
  end.

End Schema.

(** ** The [argparse] model

    A parser is the list of its registered actions.  Only what the module
    registers is modelled: long options with the actions [store] and
    [store_true], and the [-h/--help] action every [ArgumentParser()]
    starts with; no positional arguments and no sub-commands.  The
    classification of a token follows [_parse_optional] of CPython 3.11
    (exact names, [--name=value], unique prefixes, negative numbers, the
    [--] separator).  [parser.error] and [--help] both leave through
    [SystemExit]. *)

Module ArgParse.
Section WithRuntime.
Context `{Runtime}.

Inductive kind : Type :=
  | Store (type : option pytype)
  | StoreTrue
  | Help.

Record action : Type := {
  option_strings : list string;
  dest : string;
  act_kind : kind;
  act_default : option pyvalue;    (* [None]: [argparse.SUPPRESS] *)
}.

Definition parser : Type := list action.

(** [argparse.ArgumentParser()] *)
Definition ArgumentParser : parser :=
  [ {| option_strings := ["-h"; "--help"]; dest := "help";
       act_kind := Help; act_default := None |} ].

(** [self._option_string_actions.get(s)] *)
Definition option_string_action (p : parser) (s : string) : option action :=
  snd <$> list_find (λ a, s ∈ option_strings a) p.

(** [parser.add_argument('--name', **opts)] *)
Definition add_argument (p : parser) (flag : string) (o : opts) : result parser :=
  match option_string_action p flag with
  | Some _ => Raise ArgumentError
  | None =>
      let dest := PyStr.replace_char "-" "_" (PyStr.drop 2 flag) in
      match opt_action o, opt_nargs o with
      | None, None | Some "store", None =>
          Ok (p ++ [ {| option_strings := [flag]; dest := dest;
                        act_kind := Store (opt_type o);
                        act_default := Some (opt_default o) |} ])
      | Some "store_true", None =>
          match opt_type o, opt_metavar o with
          | None, None =>
              Ok (p ++ [ {| option_strings := [flag]; dest := dest;
                            act_kind := StoreTrue;
                            act_default := Some (opt_default o) |} ])
          | _, _ => Raise TypeError
          end
      | _, _ => Raise ValueError
      end
  end.

(** [self._get_value(action, arg_string)]: apply the [type] callable. *)
Definition get_value (type : option pytype) (s : string) : result pyvalue :=
  match type with
  | None | Some Tstr => Ok (PyStr s)
  | Some Tfloat =>
      match float_of_str s with
      | Some x => Ok (PyFloat x)
      | None => Raise SystemExit
      end
  end.

Definition is_digit (c : ascii) : bool :=
  let n := nat_of_ascii c in (48 <=? n)%nat && (n <=? 57)%nat.

Fixpoint all_digits (s : string) : bool :=
  match s with
  | EmptyString => true
  | String c s' => is_digit c && all_digits s'
  end.

Fixpoint skip_digits (s : string) : string :=
  match s with
  | String c s' => if is_digit c then skip_digits s' else s
  | EmptyString => EmptyString
  end.

(** [re.compile('^-\d+$|^-\d*\.\d+$').match(s)] *)
Definition negative_number (s : string) : bool :=
  match s with
  | String "-" s' =>
      (negb (String.eqb s' "") && all_digits s')
      || match skip_digits s' with
         | String "." f => negb (String.eqb f "") && all_digits f
         | _ => false
         end
  | _ => false
  end.

(** [self._get_option_tuples(arg)]: the registered options [arg]
    abbreviates, each with the explicit argument [arg] carries. *)
Definition get_option_tuples (p : parser) (arg : string)
  : list (action * option string) :=
  if PyStr.startswith arg "--" then
    let '(option_prefix, explicit_arg) :=
      match PyStr.split_once "=" arg with
      | Some (a, b) => (a, Some b)
      | None => (arg, None)
      end in
    a ← p;
    option_string ← option_strings a;
    if PyStr.startswith option_string option_prefix then [(a, explicit_arg)] else []
  else
    let short_option_prefix := String.substring 0 2 arg in
    let short_explicit_arg := PyStr.drop 2 arg in
    a ← p;
    option_string ← option_strings a;
    if String.eqb option_string short_option_prefix then [(a, Some short_explicit_arg)]
    else if PyStr.startswith option_string arg then [(a, None)]
    else [].

(** [self._parse_optional(arg)]: [None] for a positional argument,
    [Some (None, _)] for an option the parser does not know. *)
Definition parse_optional (p : parser) (arg : string)
  : result (option (option action * option string)) :=
  if String.eqb arg "" then Ok None
  else if negb (PyStr.startswith arg "-") then Ok None
  else match option_string_action p arg with
  | Some a => Ok (Some (Some a, None))
  | None =>
    if (String.length arg =? 1)%nat then Ok None
    else
      let exact :=
        match PyStr.split_once "=" arg with
        | Some (option_string, explicit_arg) =>
            match option_string_action p option_string with
            | Some a => Some (a, explicit_arg)
            | None => None
            end
        | None => None
        end in
      match exact with
      | Some (a, explicit_arg) => Ok (Some (Some a, Some explicit_arg))
      | None =>
          match get_option_tuples p arg with
          | _ :: _ :: _ => Raise SystemExit
          | [(a, explicit_arg)] => Ok (Some (Some a, explicit_arg))
          | [] =>
              if negative_number arg then Ok None
              else if PyStr.contains " " arg then Ok None
              else Ok (Some (None, None))
          end
      end
  end.

(** [self._get_values(action, [explicit_arg])] of a [store] action: the
    first [--] is taken out before the value is read, which leaves the
    empty list. *)
Definition get_values (type : option pytype) (explicit_arg : string)
  : result pyvalue :=
  if String.eqb explicit_arg "--" then Ok (PyList [])
  else get_value type explicit_arg.

(** The parsing loop of [_parse_known_args]: the attributes the recognised
    options store, in the order of the tokens.  Positional arguments and
    unknown options go to the extras, which the module discards.  A
    [store] option without an explicit argument takes the next token when
    that is an argument: neither an option nor the separator [--]. *)
Fixpoint stores (p : parser) (tokens : list string)
  : result (list (string * pyvalue)) :=
  match tokens with
  | [] => Ok []
  | arg :: rest =>
      if String.eqb arg "--" then Ok []
      else
        match parse_optional p arg with
        | Raise e => Raise e
        | Ok None | Ok (Some (None, _)) => stores p rest
        | Ok (Some (Some a, explicit_arg)) =>
            match act_kind a, explicit_arg with
            | Store type, Some s =>
                v ← get_values type s;
                l ← stores p rest;
                Ok ((dest a, v) :: l)
            | Store type, None =>
                match rest with
                | [] => Raise SystemExit
                | next :: rest' =>
                    if String.eqb next "--" then Raise SystemExit
                    else
                      match parse_optional p next with
                      | Ok None =>
                          v ← get_value type next;
                          l ← stores p rest';
                          Ok ((dest a, v) :: l)
                      | _ => Raise SystemExit
                      end
                end
            | StoreTrue, None =>
                l ← stores p rest;
                Ok ((dest a, PyBool true) :: l)
            | StoreTrue, Some _ => Raise SystemExit
            | Help, _ => Raise SystemExit
            end
        end
  end.

(** [setattr(namespace, dest, value)] for each store, in order. *)
Definition setattrs (l : list (string * pyvalue)) (ns : namespace) : namespace :=
  foldl (λ ns kv, <[kv.1 := kv.2]> ns) ns l.

(** The namespace after the parsing loop, started from [ns]. *)
Definition consume (p : parser) (tokens : list string) (ns : namespace)
  : result namespace :=
  l ← stores p tokens;
  Ok (setattrs l ns).

(** The namespace before any token is read: every action's default. *)
Definition defaults (p : parser) : namespace :=
  foldl (λ ns a,
           match act_default a, ns !! dest a with
           | Some v, None => <[dest a := v]> ns
           | _, _ => ns
           end) ∅ p.

(** After the loop a default that is still a string is passed through the
    action's [type]. *)
Fixpoint convert_defaults (p : parser) (ns : namespace) : result namespace :=
  match p with
  | [] => Ok ns
  | a :: p' =>
      match act_kind a, act_default a, ns !! dest a with
      | Store type, Some (PyStr d), Some (PyStr s) =>
          if String.eqb d s then
            match get_value type d with
            | Ok v => convert_defaults p' (<[dest a := v]> ns)
            | Raise e => Raise e
            end
          else convert_defaults p' ns
      | _, _, _ => convert_defaults p' ns
      end
  end.

(** [parser.parse_known_args(tokens)[0]] *)
Definition parse_known_args (p : parser) (tokens : list string)
  : result namespace :=
  match consume p tokens (defaults p) with
  | Ok ns => convert_defaults p ns
  | Raise e => Raise e
  end.

End WithRuntime.
End ArgParse.

(** ** The argument merger: [get_config_name], [parse_known_args], [Params] *)

Section Merger.
Context `{Runtime}.

(** The loop of [get_config_name] over the rest of [sys.argv]; when the
    argument is [--config] itself, [rest] starts with [sys.argv[i + 1]]. *)
Fixpoint get_config_name_loop (args : list string) : result string :=
  match args with
  | [] => Ok CONFIG_FILE_NAME
  | arg :: rest =>
      if PyStr.startswith arg "--config" then
        if String.eqb arg "--config" then
          match rest with
          | next :: _ => Ok next
          | [] => Raise IndexError
          end
        else
          (* [arg.split('--config')[1]]: [arg] starts with the separator *)
          let name := PyStr.before_sub "--config" (PyStr.drop 8 arg) in
          match name with
          | EmptyString => Raise IndexError
          | String c name' => if Ascii.eqb c "=" then Ok name' else Ok name
          end
      else get_config_name_loop rest
  end.

Definition get_config_name (argv : list string) : result string :=
  get_config_name_loop argv.

(** The token sequence [values] handed to the parser. *)
Definition merged_values (subparser : bool) (argv : list string) (fs : filesystem)
  : result (list string) :=
  if (1 <? length argv)%nat then
    let subparser_value := if subparser then take 1 (tail argv) else [] in
    name ← get_config_name argv;
    config_values ← config_to_list fs name;
    Ok (subparser_value ++ config_values ++ tail argv)
  else Ok [].    (* [values = ""], which the parser reads as no token *)

Definition parse_known_args (parser : ArgParse.parser) (subparser : bool)
    (argv : list string) (fs : filesystem) : result namespace :=
  values ← merged_values subparser argv fs;
  ArgParse.parse_known_args parser values.

Record Params : Type := { sections : list string }.

(** [Params(sections)] *)
Definition Params_init (sections : list string) : Params :=
  {| sections := sections ++ ["general"] |}.

Fixpoint add_names (section_fields : list (string * opts)) (names : list string)
    (parser : ArgParse.parser) : result ArgParse.parser :=
  match names with
  | [] => Ok parser
  | name :: names' =>
      match list_find (λ kv, kv.1 = name) section_fields with
      | None => Raise KeyError
      | Some (_, (_, o)) =>
          parser' ← ArgParse.add_argument parser ("--" +:+ name) o;
          add_names section_fields names' parser'
      end
  end.

Fixpoint add_sections (l : list string) (parser : ArgParse.parser)
  : result ArgParse.parser :=
  match l with
  | [] => Ok parser
  | section :: l' =>
      fields ← SECTIONS_get section;
      parser' ← add_names fields (PyStr.sorted (fields.*1)) parser;
      add_sections l' parser'
  end.

Definition add_parser_args (self : Params) (parser : ArgParse.parser)
  : result ArgParse.parser :=
  add_sections (sections self) parser.

Definition add_arguments (self : Params) (parser : ArgParse.parser)
  : result ArgParse.parser :=
  add_parser_args self parser.

Definition get_defaults (self : Params) : result namespace :=
  parser ← add_arguments self ArgParse.ArgumentParser;
  ArgParse.parse_known_args parser [].

End Merger.

(** ** The config writer: [write] *)

Section Writer.
Context `{Runtime}.

(** The value [write] stores for a field: the attribute of [args] when
    [args] and [sections] are given and select the section, the schema
    default otherwise. *)
Definition written_value (args : option namespace) (sections : option (list string))
    (section name : string) (o : opts) : pyvalue :=
  let attr := PyStr.replace_char "-" "_" name in
  let from_args :=
    match args, sections with
    | Some a, Some ((_ :: _) as secs) =>
        if bool_decide (section ∈ secs) then a !! attr else None
    | _, _ => None
    end in
  match from_args with
  | Some (PyList l) => PyStr (PyStr.join ", " l)
  | Some value => value
  | None =>
      match opt_default o with
      | PyNone => PyStr ""
      | d => d
      end
  end.

(** The body of the inner loop. *)
Definition write_field (args : option namespace) (sections : option (list string))
    (section : string) (config : ConfigParser.t) (field : string * opts)
  : result ConfigParser.t :=
  let '(name, o) := field in
  let value := written_value args sections section name o in
  let prefix := if py_eq_str value "" then "# " else "" in
  if negb (String.eqb name "config") then
    ConfigParser.set config section (prefix +:+ name) (py_str value)
  else Ok config.

Fixpoint write_fields (args : option namespace) (sections : option (list string))
    (section : string) (config : ConfigParser.t) (fields : list (string * opts))
  : result ConfigParser.t :=
  match fields with
  | [] => Ok config
  | field :: fields' =>
      config' ← write_field args sections section config field;
      write_fields args sections section config' fields'
  end.

(** The outer loop over a part of the schema. *)
Fixpoint write_sections (args : option namespace) (sections : option (list string))
    (config : ConfigParser.t) (schema : list (string * list (string * opts)))
  : result ConfigParser.t :=
  match schema with
  | [] => Ok config
  | (section, fields) :: schema' =>
      config1 ← ConfigParser.add_section config section;
      config2 ← write_fields args sections section config1 fields;
      write_sections args sections config2 schema'
  end.

(** The parser table [write] builds before it opens the file. *)
Definition written_config (args : option namespace) (sections : option (list string))
  : result ConfigParser.t :=
  write_sections args sections ConfigParser.empty SECTIONS.

Definition write (config_file : string) (args : option namespace)
    (sections : option (list string)) (fs : filesystem) : result filesystem :=
  config ← written_config args sections;
  Ok (ConfigParser_write fs config_file config).

End Writer.

(** ** Functions that act on a namespace and on the log

    [log_values] and [set_default_config] receive the namespace object and
    call the logger; both are run over a state made of the attribute
    dictionary of that object and of the records logged so far.  A raised
    exception keeps the state reached. *)

Inductive level : Type := INFO | WARNING.

Record state `{Runtime} : Type := {
  st_dict : namespace;
  st_log : list (level * string);
}.

Section Effects.
Context `{Runtime}.

Definition M (A : Type) : Type := state → result A * state.

#[global] Instance M_ret : MRet M := λ A a st, (Ok a, st).
#[global] Instance M_bind : MBind M := λ A B f m st,
  match m st with
  | (Ok a, st') => f a st'
  | (Raise e, st') => (Raise e, st')
  end.

Definition raise {A} (e : exn) : M A := λ st, (Raise e, st).

Definition lift {A} (r : result A) : M A := λ st, (r, st).

(** [args.__dict__] *)
Definition get_dict : M namespace := λ st, (Ok (st_dict st), st).

(** [getattr(params, name)] *)
Definition getattr (name : string) : M pyvalue := λ st,
  match st_dict st !! name with
  | Some v => (Ok v, st)
  | None => (Raise AttributeError, st)
  end.

(** [setattr(params, name, v)] *)
Definition setattr (name : string) (v : pyvalue) : M unit := λ st,
  (Ok tt, {| st_dict := <[name := v]> (st_dict st); st_log := st_log st |}).

Definition log_record (l : level) (msg : string) : M unit := λ st,
  (Ok tt, {| st_dict := st_dict st; st_log := st_log st ++ [(l, msg)] |}).

(** [log.info(msg)] and [log.warning(msg)] *)
Definition log_info : string → M unit := log_record INFO.
Definition log_warning : string → M unit := log_record WARNING.

(** [for x in l: body(x)] *)
Fixpoint for_each {A} (l : list A) (body : A → M unit) : M unit :=
  match l with
  | [] => mret tt
  | x :: l' => _ ← body x; for_each l' body
  end.

(** *** [log_values] *)

(** The [if]/[elif] chain that logs one entry. *)
Definition log_entry (args : namespace) (entry : string) : M unit :=
  match args !! entry with
  | None => raise KeyError
  | Some v =>
      let value := match v with PyNone => PyStr "-" | _ => v end in
      let line := "  " +:+ PyStr.ljust 16 entry +:+ " " +:+ py_str value in
      if py_eq_str value "none" then log_warning line
      else if negb (is_False value) then log_info line
      else if is_False value then log_warning line
      else mret tt
  end.

Definition log_section (args : namespace) (sn : string * string) : M unit :=
  let '(section, name) := sn in
  fields ← lift (SECTIONS_get section);
  let entries :=
    PyStr.sorted
      (filter (λ k, PyStr.replace_char "_" "-" k ∈ fields.*1)
              (map_to_list args).*1) in
  match entries with
  | [] => mret tt
  | _ => _ ← log_info name; for_each entries (log_entry args)
  end.

Definition log_values : M unit :=
  args ← get_dict;
  _ ← log_warning "energy status start";
  _ ← for_each (zip (SECTIONS.*1) NICE_NAMES) (log_section args);
  log_warning "energy status end".

(** *** [set_default_config] *)

(** The names bound at module level by the [import] statements of
    [config.py] and by its own definitions. *)
Definition module_globals : list string :=
  [ "os"; "sys"; "shutil"; "pathlib"; "argparse"; "configparser"; "np";
    "Path"; "OrderedDict"; "datetime"; "log"; "util"; "epics"; "__version__";
    "LOGS_HOME"; "CONFIG_FILE_NAME"; "data_path"; "SECTIONS"; "MONO_PARAMS";
    "PINK_PARAMS"; "NICE_NAMES"; "get_config_name"; "parse_known_args";
    "config_to_list"; "Params"; "write"; "log_values"; "save_params_to_config";
    "save_current_positions_to_config"; "set_default_config" ].

(** Evaluating a global name. *)
Definition global (globals : list string) (name : string) : M unit :=
  if bool_decide (name ∈ globals) then mret tt else raise NameError.

(** The calibration table: mode, then energy key, then motor name. *)
Definition table : Type := list (string * list (string * list (string * pyvalue))).

(** The file [data/dmm.json] when it can be opened: JSON text that does not
    decode, or the dictionary it decodes to. *)
Inductive json_file : Type :=
  | BadJson
  | Json (lookup : table).

(** [d[k]] on a dictionary with string keys *)
Definition getitem {A} (d : list (string * A)) (k : pyvalue) : M A :=
  match k with
  | PyStr s =>
      match list_find (λ kv, kv.1 = s) d with
      | Some (_, (_, v)) => mret v
      | None => raise KeyError
      end
  | PyList _ => raise TypeError
  | _ => raise KeyError
  end.

Fixpoint floats (keys : list string) : M (list pyfloat) :=
  match keys with
  | [] => mret []
  | k :: keys' =>
      x ← lift (py_float (PyStr k));
      xs ← floats keys';
      mret (x :: xs)
  end.

Section SetDefaultConfig.
(** The names the module binds, the helper [util.find_nearest], which
    is not part of this code base, and the state of [data/dmm.json]. *)
Variable globals : list string.
Variable find_nearest : list pyfloat → pyvalue → result pyvalue.
Variable dmm_json : option json_file.

(** [params.<name> = lookup[params.mode][energy_calibrated]["<name>"]] *)
Definition assign (lookup : table) (energy_calibrated : pyvalue) (name : string)
  : M unit :=
  mode ← getattr "mode";
  by_energy ← getitem lookup mode;
  positions ← getitem by_energy energy_calibrated;
  v ← getitem positions (PyStr name);
  setattr name v.

Definition set_default_config : M Z :=
  _ ← log_info "set default motor values";
  json_file ← match dmm_json with
              | Some f => mret f
              | None => raise FileNotFoundError
              end;
  _ ← global globals "json";
  lookup ← match json_file with
           | Json t => mret t
           | BadJson => raise JSONDecodeError
           end;
  mode ← getattr "mode";
  by_energy ← getitem lookup mode;
  let energies_str := by_energy.*1 in
  energies_flt ← floats energies_str;
  energy_value ← getattr "energy_value";
  energy_calibrated ← lift (find_nearest energies_flt energy_value);
  energy_value ← getattr "energy_value";
  requested ← lift (py_float energy_value);
  calibrated ← lift (py_float energy_calibrated);
  _ ← (if negb (float_eqb requested calibrated) then
         _ ← log_warning ("   *** Energy requested is " +:+ py_str energy_value
                          +:+ " keV, the closest calibrated energy is "
                          +:+ py_str energy_calibrated);
         _ ← log_info ("   *** Options are " +:+ array_str energies_str +:+ " keV");
         _ ← log_info ("   *** Energy is set at " +:+ py_str energy_value +:+ " keV");
         log_info ("   *** Move to " +:+ py_str energy_calibrated +:+ " keV instead of "
                   +:+ py_str energy_value +:+ "?")
       else mret tt);
  mode ← getattr "mode";
  _ ← log_info ("   *** Change Energy for " +:+ py_str mode +:+ " as "
                +:+ py_str energy_calibrated +:+ " *** ");
  _ ← setattr "energy_value" energy_calibrated;
  _ ← assign lookup energy_calibrated "mirror_angle";
  _ ← assign lookup energy_calibrated "mirror_vertical_position";
  _ ← assign lookup energy_calibrated "dmm_usy_ob";
  _ ← assign lookup energy_calibrated "dmm_usy_ib";
  _ ← assign lookup energy_calibrated "dmm_dsy";
  mode ← getattr "mode";
  _ ← (if py_eq_str mode "Mono" then
         _ ← assign lookup energy_calibrated "dmm_us_arm";
         _ ← assign lookup energy_calibrated "dmm_ds_arm";
         assign lookup energy_calibrated "dmm_m2y"
       else mret tt);
  _ ← assign lookup energy_calibrated "dmm_usx";
  _ ← assign lookup energy_calibrated "dmm_dsx";
  _ ← assign lookup energy_calibrated "filter";
  _ ← assign lookup energy_calibrated "table_y";
  _ ← assign lookup energy_calibrated "flag";
  mret 0%Z.

End SetDefaultConfig.

End Effects.

(** ** Saving the parameter set: [save_params_to_config] *)

Section Saving.
Context `{Runtime}.

(** The file system is threaded next to the state of the namespace and of
    the log. *)
Definition save_params_to_config (fs : filesystem) : M filesystem :=
  args ← get_dict;
  let sections := MONO_PARAMS in
  fs' ← lift (write CONFIG_FILE_NAME (Some args) (Some sections) fs);
  _ ← log_info ("  *** saved to " +:+ CONFIG_FILE_NAME +:+ " ");
  mret fs'.

End Saving.

(** ** [os.path.splitext] *)

Module OsPath.

(** [s.rfind(c)], scanning from position [i] with the last match so far *)
Fixpoint rfind_from (c : ascii) (s : string) (i : Z) (found : Z) : Z :=
  match s with
  | EmptyString => found
  | String c' s' => rfind_from c s' (i + 1) (if Ascii.eqb c c' then i else found)
  end.

Definition rfind (c : ascii) (s : string) : Z := rfind_from c s 0 (-1).

(** The loop of [genericpath._splitext] that skips the leading dots of the
    file name; [turns] is [dotIndex - filenameIndex]. *)
Fixpoint splitext_loop (p : string) (dotIndex filenameIndex turns : nat)
  : string * string :=
  match turns with
  | O => (p, "")
  | S turns' =>
      match String.get filenameIndex p with
      | Some "."%char => splitext_loop p dotIndex (S filenameIndex) turns'
      | _ => (String.substring 0 dotIndex p, PyStr.drop dotIndex p)
      end
  end.

(** [os.path.splitext(p)] on POSIX paths *)
Definition splitext (p : string) : string * string :=
  let sepIndex := rfind "/" p in
  let dotIndex := rfind "." p in
  if (sepIndex <? dotIndex)%Z then
    splitext_loop p (Z.to_nat dotIndex) (Z.to_nat (sepIndex + 1))
      (Z.to_nat (dotIndex - (sepIndex + 1)))
  else (p, "").

End OsPath.

(** ** Saving the beamline positions: [save_current_positions_to_config] *)

Section SavePositions.
Context `{Runtime}.

(** The module [epics] is not part of this code base.  Its function
    [init_energy_change_PVs] is taken as given: it receives the parameter
    set and returns a dictionary of process variables.  Reading a process
    variable ([pv.get()]) gives a value or raises; it does not touch the
    parameter set.  [now] is the time stamp
    [datetime.strftime(datetime.now(), ...)] of the call. *)
Variable PV : Type.
Variable init_energy_change_PVs : M (list (string * PV)).
Variable PV_get : PV → result pyvalue.
Variable now : string.

(** [args.<name> = energy_change_PVs['<name>'].get()] *)
Definition read_position (energy_change_PVs : list (string * PV)) (name : string)
  : M unit :=
  pv ← getitem energy_change_PVs (PyStr name);
  v ← lift (PV_get pv);
  setattr name v.

Definition save_current_positions_to_config (fs : filesystem) : M filesystem :=
  energy_change_PVs ← init_energy_change_PVs;
  _ ← log_warning "save current beamline positions to config";
  _ ← read_position energy_change_PVs "mirror_angle";
  _ ← read_position energy_change_PVs "mirror_vertical_position";
  _ ← read_position energy_change_PVs "dmm_usy_ob";
  _ ← read_position energy_change_PVs "dmm_usy_ib";
  _ ← read_position energy_change_PVs "dmm_dsy";
  _ ← read_position energy_change_PVs "dmm_us_arm";
  _ ← read_position energy_change_PVs "dmm_ds_arm";
  _ ← read_position energy_change_PVs "dmm_m2y";
  _ ← read_position energy_change_PVs "dmm_usx";
  _ ← read_position energy_change_PVs "dmm_dsx";
  _ ← read_position energy_change_PVs "filter";
  _ ← read_position energy_change_PVs "table_y";
  _ ← read_position energy_change_PVs "flag";
  let sections := MONO_PARAMS in
  config ← getattr "config";
  '(head, tail) ← match config with
                   | PyStr p => mret (OsPath.splitext p)
                   | _ => raise TypeError
                   end;
  mode ← getattr "mode";
  prefix ← match mode with
            | PyStr m => mret (head +:+ "_" +:+ m)
            | _ => raise TypeError
            end;
  energy_value ← getattr "energy_value";
  let config_name_energy :=
    prefix +:+ "_" +:+ py_str energy_value +:+ "_" +:+ now +:+ tail in
  args ← get_dict;
  fs' ← lift (write config_name_energy (Some args) (Some sections) fs);
  _ ← log_info ("  *** saved to " +:+ config_name_energy +:+ " ");
  mret fs'.

End SavePositions.

(** ** A runtime to run the functions on concrete inputs

    Floats are integers here: [float(s)] reads an optionally signed decimal
    integer literal. *)

Fixpoint digits_value (acc : Z) (s : string) : option Z :=
  match s with
  | EmptyString => Some acc
  | String c s' =>
      if ArgParse.is_digit c
      then digits_value (10 * acc + Z.of_nat (nat_of_ascii c - 48)) s'
      else None
  end.

Definition integer_literal (s : string) : option Z :=
  match s with
  | EmptyString => None
  | String "-" (String c s') => Z.opp <$> digits_value 0 (String c s')
  | String "-" EmptyString => None
  | _ => digits_value 0 s
  end.

#[global] Instance integer_runtime : Runtime := {|
  pyfloat := Z;
  float_of_str := integer_literal;
  float_of_Z := id;
  float_eqb := Z.eqb;
  str_of_float := λ x, PyStr.of_int x +:+ ".0";
  repr_str := λ s, "'" +:+ s +:+ "'";
  array_str := λ l, "[" +:+ PyStr.join " " (map (λ s, "'" +:+ s +:+ "'") l) +:+ "]";
  home := "/home/user";
  float_of_separator := eq_refl;
|}.

(** * The vocabulary of the properties *)

Section Vocabulary.
Context `{Runtime}.

(** The parser of a profile: a fresh parser with the profile's sections and
    [general] added. *)
Definition profile_parser (secs : list string) : result ArgParse.parser :=
  add_arguments (Params_init secs) ArgParse.ArgumentParser.

(** A computation that leaves the attribute dictionary alone. *)
Definition pure_on_dict {A} (m : M A) : Prop :=
  ∀ st r st', m st = (r, st') → st_dict st' = st_dict st.

Definition position_fields : list string :=
  [ "mirror_angle"; "mirror_vertical_position"; "dmm_usy_ob"; "dmm_usy_ib";
    "dmm_dsy"; "dmm_usx"; "dmm_dsx"; "filter"; "table_y"; "flag" ].

Definition mono_fields : list string := [ "dmm_us_arm"; "dmm_ds_arm"; "dmm_m2y" ].

(** The line [write] sets for a field: the option name, commented out when
    the value is the empty string, and the text of the value. *)
Definition written_line (args : option namespace) (sections : option (list string))
    (section : string) (field : string * opts) : string * string :=
  let value := written_value args sections section field.1 field.2 in
  (ConfigParser.optionxform ((if py_eq_str value "" then "# " else "") +:+ field.1),
   py_str value).

Definition written_lines (args : option namespace) (sections : option (list string))
    (section : string) (fields : list (string * opts)) : list (string * string) :=
  written_line args sections section
    <$> filter (λ field, field.1 ≠ "config") fields.

Definition set_lines (lines : list (string * string)) (m : gmap string string)
  : gmap string string :=
  foldl (λ m kv, <[kv.1 := kv.2]> m) m lines.

(** The lines of one schema section in the written file. *)
Definition section_lines (args : option namespace) (sections : option (list string))
    (sf : string * list (string * opts)) : gmap string string :=
  set_lines (written_lines args sections sf.1 sf.2) ∅.

(** The values [write] sets in a section all pass the check of
    [config.set]. *)
Definition writable_fields (args : option namespace) (sections : option (list string))
    (section : string) (fields : list (string * opts)) : bool :=
  forallb (λ kv, ConfigParser.valid_syntax kv.2)
          (written_lines args sections section fields).

Definition writable (args : option namespace) (sections : option (list string)) : bool :=
  forallb (λ sf, writable_fields args sections sf.1 sf.2) SECTIONS.

(** A computation that returns [None] without raising and leaves the
    attribute dictionary as it found it. *)
Definition observes (m : M unit) : Prop :=
  ∀ st, ∃ log', m st = (Ok tt, {| st_dict := st_dict st; st_log := log' |}).

(** An option string some action of the parser carries. *)
Definition registered (p : ArgParse.parser) (s : string) : Prop :=
  ∃ a, a ∈ p ∧ s ∈ ArgParse.option_strings a.

(** The option that tells a schema section has been added. *)
Definition section_flag (section : string) : string :=
  if String.eqb section "general" then "--config"
  else if String.eqb section "energy" then "--energy"
  else "--energyioc-prefix".

(** No string default is to be read by [float]. *)
Definition plain_defaults (p : ArgParse.parser) : Prop :=
  Forall (λ a, ∀ d, ArgParse.act_default a = Some (PyStr d) →
                    ArgParse.act_kind a ≠ ArgParse.Store (Some Tfloat)) p.

(** A token that is read alone: not the separator, and not a [store]
    option that goes on to take the next token as its argument. *)
Definition self_contained (p : ArgParse.parser) (t : string) : bool :=
  negb (String.eqb t "--")
  && match ArgParse.parse_optional p t with
     | Ok (Some (Some a, None)) =>
         match ArgParse.act_kind a with
         | ArgParse.Store _ => false
         | _ => true
         end
     | _ => true
     end.

(** The value the stores [l] leave in [dest], if any: the last one. *)
Fixpoint last_store (dest : string) (l : list (string * pyvalue)) : option pyvalue :=
  match l with
  | [] => None
  | (k, v) :: l' =>
      match last_store dest l' with
      | Some v' => Some v'
      | None => if decide (k = dest) then Some v else None
      end
  end.

(** No option string of the parser has an equals sign. *)
Definition plain_options (p : ArgParse.parser) : bool :=
  forallb (λ a, forallb (λ s, negb (PyStr.contains "=" s)) (ArgParse.option_strings a)) p.

(** The action [add_parser_args] registers for a schema field. *)
Definition schema_action (name : string) (o : opts) : ArgParse.action :=
  {| ArgParse.option_strings := ["--" +:+ name];
     ArgParse.dest := PyStr.replace_char "-" "_" name;
     ArgParse.act_kind :=
       if bool_decide (opt_action o = Some "store_true")
       then ArgParse.StoreTrue else ArgParse.Store (opt_type o);
     ArgParse.act_default := Some (opt_default o) |}.

(** The schema as one list of fields, each with its section. *)
Definition schema_fields : list (string * (string * opts)) :=
  '(section, fields) ← SECTIONS; (λ field, (section, field)) <$> fields.

(** The value the file stores for a field, as [config.get] gives it, if
    it has one. *)
Definition stored (config : ConfigParser.t) (section name : string) : option string :=
  if ConfigParser.has_option config section name then
    match ConfigParser.get config section name with
    | Ok value => Some value
    | Raise _ => None
    end
  else None.

(** A stored value that [config_to_list] passes over. *)
Definition skipped (value : string) : bool :=
  String.eqb value "" || String.eqb value "None".

(** The typed value a stored string stands for: a flag stored as [True]
    or [False], any other field read by its [type]. *)
Definition typed_value (o : opts) (value : string) : option pyvalue :=
  if bool_decide (opt_action o = Some "store_true") then
    if String.eqb value "True" then Some (PyBool true)
    else if String.eqb value "False" then Some (PyBool false)
    else None
  else
    match ArgParse.get_value (opt_type o) value with
    | Ok v => Some v
    | Raise _ => None
    end.

(** A valid file: every option it has for a schema field can be read
    ([get] expands it without error), and a value that is not passed over
    is of the field's type and is not the separator [--], which the parser
    would take out. *)
Definition valid_config (config : ConfigParser.t) : Prop :=
  ∀ section name o,
    (section, (name, o)) ∈ schema_fields →
    ConfigParser.has_option config section name = true →
    ∃ value,
      ConfigParser.get config section name = Ok value
      ∧ (skipped value = false → value ≠ "--" ∧ is_Some (typed_value o value)).

(** Every schema option the file stores can be got: [config.get] expands
    its value without raising. *)
Definition interpolates (config : ConfigParser.t) : Prop :=
  ∀ section name o,
    (section, (name, o)) ∈ schema_fields →
    ConfigParser.has_option config section name = true →
    is_ok (ConfigParser.get config section name) = true.

(** The tokens of a schema field. *)
Definition stored_tokens (config : ConfigParser.t) (sf : string * (string * opts))
  : list string :=
  match stored config sf.1 sf.2.1 with
  | Some value => option_tokens sf.2.1 sf.2.2 value
  | None => []
  end.

(** The stores the tokens of a schema field make. *)
Definition field_stores (config : ConfigParser.t) (sf : string * (string * opts))
  : list (string * pyvalue) :=
  let '(section, (name, o)) := sf in
  match stored config section name with
  | Some value =>
      if skipped value then []
      else if bool_decide (opt_action o = Some "store_true") then
        if String.eqb value "True"
        then [(PyStr.replace_char "-" "_" name, PyBool true)] else []
      else
        match ArgParse.get_values (opt_type o) value with
        | Ok v => [(PyStr.replace_char "-" "_" name, v)]
        | Raise _ => []
        end
  | None => []
  end.

(** What the proofs use of a schema field: a name that is not empty and
    has no equals sign, no [nargs], and [False] as the default of a
    flag. *)
Definition plain_field (sf : string * (string * opts)) : Prop :=
  sf.2.1 ≠ "" ∧ PyStr.contains "=" sf.2.1 = false ∧ opt_nargs sf.2.2 = None
  ∧ (opt_action sf.2.2 = Some "store_true" → opt_default sf.2.2 = PyBool false).

(** [sub in s] for strings *)
Fixpoint occurs (sub s : string) : bool :=
  String.prefix sub s
  || match s with
     | String _ s' => occurs sub s'
     | EmptyString => false
     end.

(** An argument [get_config_name] passes over. *)
Definition not_config (arg : string) : Prop := PyStr.startswith arg "--config" = false.

(** The attributes of the schema sections [secs]: each field's attribute
    name with its default. *)
Definition section_defaults (secs : list string) : list (string * pyvalue) :=
  '(section, fields) ← SECTIONS;
  if bool_decide (section ∈ secs)
  then (λ '(name, o), (PyStr.replace_char "-" "_" name, opt_default o)) <$> fields
  else [].

(** Text a file written by [configparser] gives back as it was set: no
    percent sign (the interpolation syntax), no line break and no blank at
    either end.  The file model holds the values as they are set, so the
    properties of files written and read again are stated for such
    texts. *)
Definition plain_text (s : string) : bool :=
  negb (PyStr.contains "%" s) && negb (PyStr.contains "010" s)
  && negb (PyStr.contains "013" s) && String.eqb (PyStr.strip s) s.

(** Every value [write] sets is plain text. *)
Definition plain_values (args : option namespace) (sections : option (list string))
  : Prop :=
  ∀ section name o,
    (section, (name, o)) ∈ schema_fields →
    plain_text (py_str (written_value args sections section name o)) = true.

(** No value [write] sets has a percent sign, the interpolation syntax
    of [configparser]. *)
Definition percent_free (args : option namespace) (sections : option (list string))
  : Prop :=
  ∀ section name o,
    (section, (name, o)) ∈ schema_fields → name ≠ "config" →
    PyStr.contains "%" (py_str (written_value args sections section name o)) = false.

(** What a parser reads from a file that holds the table [config]. *)
Definition read_back (config : ConfigParser.t) : ConfigParser.t :=
  {| ConfigParser.defaults := read_options (ConfigParser.defaults config);
     ConfigParser.sections := read_options <$> ConfigParser.sections config |}.


(** The tokens of the values [write] sets. *)
Definition saved_tokens (args : option namespace) (sections : option (list string))
  : list string :=
  '(section, (name, o)) ← schema_fields;
  if String.eqb name "config" then []
  else option_tokens name o (py_str (written_value args sections section name o)).

(** The attributes [save_current_positions_to_config] reads from the
    beamline, in the order of the assignments. *)
Definition saved_positions : list string :=
  [ "mirror_angle"; "mirror_vertical_position"; "dmm_usy_ob"; "dmm_usy_ib";
    "dmm_dsy"; "dmm_us_arm"; "dmm_ds_arm"; "dmm_m2y"; "dmm_usx"; "dmm_dsx";
    "filter"; "table_y"; "flag" ].

(** What [energy_change_PVs[name].get()] evaluates to. *)
Definition pv_value {PV : Type} (PV_get : PV → result pyvalue)
    (energy_change_PVs : list (string * PV)) (name : string) : result pyvalue :=
  match list_find (λ kv, kv.1 = name) energy_change_PVs with
  | Some (_, (_, pv)) => PV_get pv
  | None => Raise KeyError
  end.

(** The parameter set with the positions [values] assigned. *)
Definition set_positions (values : string → pyvalue) (args : namespace) : namespace :=
  foldl (λ a name, <[name := values name]> a) args saved_positions.

(** The name of the file the positions are saved to. *)
Definition positions_file (config mode : string) (energy_value : pyvalue) (now : string)
  : string :=
  (OsPath.splitext config).1 +:+ "_" +:+ mode +:+ "_" +:+ py_str energy_value
  +:+ "_" +:+ now +:+ (OsPath.splitext config).2.

(** A computation that returns [None], leaves the attributes alone and
    appends only records that satisfy [P] to the log. *)
Definition logs (P : level * string → Prop) (m : M unit) : Prop :=
  ∀ st, ∃ records,
    m st = (Ok tt, {| st_dict := st_dict st; st_log := st_log st ++ records |})
    ∧ Forall P records.

(** The line [log_values] logs for an attribute, with its level. *)
Definition entry_record (entry : string) (v : pyvalue) : level * string :=
  (if is_False v || py_eq_str v "none" then WARNING else INFO,
   "  " +:+ PyStr.ljust 16 entry +:+ " "
   +:+ py_str (match v with PyNone => PyStr "-" | _ => v end)).

(** The records of a status report on [args]: the two marks, a section
    title, or the line of an attribute of [args] that is a schema field. *)
Definition status_record (args : namespace) (r : level * string) : Prop :=
  r = (WARNING, "energy status start") ∨ r = (WARNING, "energy status end")
  ∨ (r.1 = INFO ∧ r.2 ∈ NICE_NAMES)
  ∨ ∃ entry v,
      args !! entry = Some v
      ∧ PyStr.replace_char "_" "-" entry ∈ schema_fields.*2.*1
      ∧ r = entry_record entry v.

End Vocabulary.

(** * Sample inputs *)

(** A parameter set asking for 20 keV in mode [Mono], a helper that answers
    with the key [20], and a table with that key. *)
Definition mono_request : state :=
  {| st_dict := {[ "mode" := PyStr "Mono"; "energy_value" := PyFloat 20%Z ]};
     st_log := [] |}.

Definition nearest_stub (energies : list pyfloat) (value : pyvalue) : result pyvalue :=
  Ok (PyStr "20").

Definition mono_table : table :=
  [ ("Mono",
      [ ("20",
          [ ("mirror_angle", PyFloat 2%Z); ("mirror_vertical_position", PyFloat 0%Z);
            ("dmm_usy_ob", PyFloat 1%Z); ("dmm_usy_ib", PyFloat 1%Z);
            ("dmm_dsy", PyFloat 1%Z); ("dmm_us_arm", PyFloat 3%Z);
            ("dmm_ds_arm", PyFloat 3%Z); ("dmm_m2y", PyFloat 4%Z);
            ("dmm_usx", PyFloat 5%Z); ("dmm_dsx", PyFloat 5%Z);
            ("filter", PyInt 0); ("table_y", PyFloat 6%Z); ("flag", PyInt 1) ]) ]) ].

(** The parser of the profile [MONO_PARAMS] on the integer runtime. *)
Definition mono_parser : ArgParse.parser :=
  Eval vm_compute in
    match profile_parser MONO_PARAMS with Ok p => p | Raise _ => [] end.


(** A config file that stores [energy = 20] and a command line that asks
    for 30. *)
Definition energy_file : filesystem :=
  {[ "/home/user/logs/dmm.conf" :=
       Ini {| ConfigParser.defaults := ∅;
              ConfigParser.sections := {[ "energy" := {[ "energy" := "20" ]} ]} |} ]}.

(** A file with a value for every kind of field. *)
Definition sample_file : filesystem :=
  {[ "/home/user/logs/dmm.conf" :=
       Ini {| ConfigParser.defaults := ∅;
              ConfigParser.sections :=
                {[ "general" := {[ "verbose" := "True"; "testing" := "False";
                                   "logs-home" := "/data/logs"; "# force" := "" ]};
                   "energy" := {[ "energy" := "20" ]};
                   "energyioc" := {[ "energyioc-prefix" := "None" ]} ]} |} ]}.

Definition sample_config : ConfigParser.t :=
  match ConfigParser_read sample_file "/home/user/logs/dmm.conf" with
  | Ok (_, config) => config
  | Raise _ => ConfigParser.empty
  end.

(** A file whose log directory ends in a percent sign, and one that
    names the log directory after another option. *)
Definition percent_file : filesystem :=
  {[ "/home/user/logs/dmm.conf" :=
       Ini {| ConfigParser.defaults := ∅;
              ConfigParser.sections :=
                {[ "general" := {[ "logs-home" := "/data/100%" ]} ]} |} ]}.

Definition reference_file : filesystem :=
  {[ "/home/user/logs/dmm.conf" :=
       Ini {| ConfigParser.defaults := {[ "base" := "/data" ]};
              ConfigParser.sections :=
                {[ "general" := {[ "Logs-Home" := "%(base)s/logs" ]} ]} |} ]}.


(** The file system after [write] has written the defaults to
    [new.conf]. *)
Definition default_file : filesystem :=
  match write "new.conf" None None ∅ with
  | Ok fs' => fs'
  | Raise _ => ∅
  end.

(** A runtime whose [float] reads back what [str] prints: an integer
    literal, or one followed by [.0]. *)
Definition decimal_literal (s : string) : option Z :=
  match PyStr.split_once "." s with
  | Some (digits, "0") => integer_literal digits
  | Some _ => None
  | None => integer_literal s
  end.

Definition decimal_runtime : Runtime := {|
  pyfloat := Z;
  float_of_str := decimal_literal;
  float_of_Z := id;
  float_eqb := Z.eqb;
  str_of_float := λ x, PyStr.of_int x +:+ ".0";
  repr_str := λ s, "'" +:+ s +:+ "'";
  array_str := λ l, "[" +:+ PyStr.join " " (map (λ s, "'" +:+ s +:+ "'") l) +:+ "]";
  home := "/home/user";
  float_of_separator := eq_refl;
|}.

Section DecimalSamples.
#[local] Existing Instance decimal_runtime | 0.

(** A parameter set that asks for 30 keV, verbosely. *)
Definition saved_request : state :=
  {| st_dict := {[ "energy" := PyFloat 30%Z; "energyioc_prefix" := PyStr "2bm:MCTOptics:";
                   "verbose" := PyBool true ]};
     st_log := [] |}.

(** The parser of the profile [MONO_PARAMS] on the decimal runtime. *)
Definition decimal_parser : ArgParse.parser :=
  match profile_parser MONO_PARAMS with Ok p => p | Raise _ => [] end.

End DecimalSamples.

(** A beamline whose process variables all read 1, and a parameter set in
    mode [Mono] at 20 keV. *)
Definition beamline : list (string * pyvalue) :=
  (λ name, (name, PyFloat 1%Z)) <$> saved_positions.

Definition all_ones : string → pyvalue := λ _, PyFloat 1%Z.

Definition connect : M (list (string * pyvalue)) := mret beamline.

Definition mono_energy : pyvalue := PyFloat 20%Z.

Definition mono_args : state :=
  {| st_dict := {[ "config" := PyStr "/home/user/logs/dmm.conf"; "mode" := PyStr "Mono";
                   "energy_value" := mono_energy; "energy" := mono_energy ]};
     st_log := [] |}.

Definition pink_args : state :=
  {| st_dict := {[ "config" := PyStr "/home/user/logs/dmm.conf" ]}; st_log := [] |}.

(** * Properties *)

(** ** Results *)

Lemma bind_Ok {A B} (r : result A) (f : A → result B) (b : B) :
  r ≫= f = Ok b ↔ ∃ a, r = Ok a ∧ f a = Ok b.
Proof.
  destruct r as [a|e]; simpl.
  - split; [eauto | intros (a' & [= <-] & ?); done].
  - split; [done | intros (a' & [=] & ?)].
Qed.

(** ** The profiles [Params] accepts *)

Section Profiles.
Context `{Runtime}.

Lemma SECTIONS_get_cases (s : string) :
  s = "general" ∨ s = "energy" ∨ s = "energyioc" ∨ SECTIONS_get s = Raise KeyError.
Proof.
  destruct (decide (s = "general")) as [->|]; [by left|].
  destruct (decide (s = "energy")) as [->|]; [by right; left|].
  destruct (decide (s = "energyioc")) as [->|]; [by right; right; left|].
  do 3 right. unfold SECTIONS_get, SECTIONS. simpl.
  repeat (rewrite decide_False by (simpl; congruence); simpl).
  done.
Qed.

End Profiles.

(** ** The config loader *)

Section Loader.
Context `{Runtime}.

(** C3 (as amended): when the config file cannot be opened,
    [config_to_list] returns the empty token list; when the file opens but
    does not parse as INI, the parser's error is raised to the caller. *)
Theorem config_to_list_unreadable (fs : filesystem) (config_name : string) :
  (fs !! config_name = None → config_to_list fs config_name = Ok [])
  ∧ (fs !! config_name = Some Garbled →
     config_to_list fs config_name = Raise ParsingError).
Proof.
  unfold config_to_list, ConfigParser_read.
  split; intros ->; reflexivity.
Qed.

End Loader.

(** A file that opens but is not INI text makes [config_to_list] raise. *)
Lemma config_to_list_garbled_raises :
  ({[ "/home/user/logs/dmm.conf" := Garbled ]} : filesystem)
    !! "/home/user/logs/dmm.conf" = Some Garbled
  ∧ config_to_list {[ "/home/user/logs/dmm.conf" := Garbled ]}
      "/home/user/logs/dmm.conf" ≠ Ok [].
Proof. split; [reflexivity|]. discriminate. Qed.

Lemma config_to_list_unreadable_witness :
  config_to_list ∅ "/home/user/logs/dmm.conf" = Ok []
  ∧ config_to_list {[ "/home/user/logs/dmm.conf" := Garbled ]}
      "/home/user/logs/dmm.conf" = Raise ParsingError.
Proof.
  split.
  - apply (config_to_list_unreadable ∅ "/home/user/logs/dmm.conf"). reflexivity.
  - apply (config_to_list_unreadable {[ "/home/user/logs/dmm.conf" := Garbled ]}
             "/home/user/logs/dmm.conf"). reflexivity.
Defined.

(** ** The calibration lookup *)

Section Calibration.
Context `{Runtime}.

(** C5 (as amended): whatever the mode and the requested energy, a call
    of [set_default_config] raises before any calibration data is read and
    before any attribute is assigned: [NameError] when [data/dmm.json] can
    be opened, because the module never binds the name [json], and the
    error of [open] when it cannot.  The call never returns normally. *)
Theorem set_default_config_never_returns
    (find_nearest : list pyfloat → pyvalue → result pyvalue)
    (dmm_json : option json_file) (st : state) :
  ∃ st',
    set_default_config module_globals find_nearest dmm_json st
    = (Raise (if dmm_json is Some _ then NameError else FileNotFoundError), st')
    ∧ st_dict st' = st_dict st.
Proof.
  destruct dmm_json as [f|]; eexists; split; reflexivity.
Qed.

End Calibration.

(** When [data/dmm.json] cannot be opened the exception is not [NameError]. *)
Lemma set_default_config_missing_table :
  (set_default_config module_globals nearest_stub None mono_request).1
  = Raise FileNotFoundError.
Proof. reflexivity. Qed.

(** C1 (the code at the failing input): for mode [Mono] and 20 keV, with a
    table that has the calibrated point, [set_default_config] raises
    [NameError] and leaves the parameter set as it was: none of the motor
    position attributes is assigned. *)
Theorem set_default_config_assigns_nothing :
  ∃ st',
    set_default_config module_globals nearest_stub (Some (Json mono_table)) mono_request
    = (Raise NameError, st')
    ∧ st_dict st' = st_dict mono_request.
Proof. eexists. split; reflexivity. Qed.

Section CalibrationRepaired.
Context `{Runtime}.

Lemma M_bind_Ok {A B} (m : M A) (f : A → M B) (st st' : state) (b : B) :
  (m ≫= f) st = (Ok b, st') ↔ ∃ a st1, m st = (Ok a, st1) ∧ f a st1 = (Ok b, st').
Proof.
  unfold mbind, M_bind. destruct (m st) as [[a|e] st1].
  - split; [eauto | intros (a' & st1' & [= <- <-] & ?); done].
  - split; [done | intros (a' & st1' & [=] & ?)].
Qed.

Lemma pure_log_record l msg : pure_on_dict (log_record l msg).
Proof. intros st r st' [= <- <-]. done. Qed.

Lemma pure_getattr name : pure_on_dict (getattr name).
Proof. intros st r st'. unfold getattr. destruct (_ !! _); intros [= <- <-]; done. Qed.

Lemma pure_raise {A} e : pure_on_dict (raise (A := A) e).
Proof. intros st r st' [= <- <-]. done. Qed.

Lemma pure_lift {A} (x : result A) : pure_on_dict (lift x).
Proof. intros st r st' [= <- <-]. done. Qed.

Lemma pure_mret {A} (a : A) : pure_on_dict (mret a : M A).
Proof. intros st r st' [= <- <-]. done. Qed.

Lemma pure_getitem {A} (d : list (string * A)) k : pure_on_dict (getitem d k).
Proof.
  unfold getitem. destruct k; try apply pure_raise.
  destruct (list_find _ _) as [[? [? ?]]|]; [apply pure_mret | apply pure_raise].
Qed.

Lemma pure_bind {A B} (m : M A) (f : A → M B) :
  pure_on_dict m → (∀ a, pure_on_dict (f a)) → pure_on_dict (m ≫= f).
Proof.
  intros Hm Hf st r st'. unfold mbind, M_bind.
  destruct (m st) as [[a|e] st1] eqn:E; intros E'.
  - rewrite (Hf _ _ _ _ E'). eauto.
  - injection E' as <- <-. eauto.
Qed.

Lemma pure_floats keys : pure_on_dict (floats keys).
Proof.
  induction keys as [|k keys IH]; simpl; [apply pure_mret|].
  apply pure_bind; [apply pure_lift|]. intros x.
  apply pure_bind; [done|]. intros xs. apply pure_mret.
Qed.

Lemma assign_Ok lookup e name st st' :
  assign lookup e name st = (Ok tt, st') →
  ∃ v, st_dict st' = <[name := v]> (st_dict st).
Proof.
  unfold assign. intros Hrun.
  apply M_bind_Ok in Hrun as (mode & st1 & H1 & Hrun). apply pure_getattr in H1.
  apply M_bind_Ok in Hrun as (be & st2 & H2 & Hrun). apply pure_getitem in H2.
  apply M_bind_Ok in Hrun as (pos & st3 & H3 & Hrun). apply pure_getitem in H3.
  apply M_bind_Ok in Hrun as (v & st4 & H4 & Hrun). apply pure_getitem in H4.
  injection Hrun as <-. exists v. simpl. congruence.
Qed.

End CalibrationRepaired.

Section CalibrationFields.
Context `{Runtime}.

Lemma getattr_Ok name st v st' :
  getattr name st = (Ok v, st') → st' = st ∧ st_dict st !! name = Some v.
Proof.
  unfold getattr. destruct (st_dict st !! name); intros [= <- <-]; done.
Qed.

(** Where the name [json] is bound, a call that returns has assigned the
    ten position attributes, and the three [Mono] attributes exactly when
    the mode is [Mono]. *)
Lemma set_default_config_fields (globals : list string)
    (find_nearest : list pyfloat → pyvalue → result pyvalue)
    (dmm_json : option json_file) (st st' : state) (r : Z) :
  set_default_config globals find_nearest dmm_json st = (Ok r, st') →
  r = 0%Z
  ∧ (∀ name, name ∈ position_fields → is_Some (st_dict st' !! name))
  ∧ ∃ mode, st_dict st !! "mode" = Some mode
     ∧ if py_eq_str mode "Mono"
       then ∀ name, name ∈ mono_fields → is_Some (st_dict st' !! name)
       else ∀ name, name ∈ mono_fields → st_dict st' !! name = st_dict st !! name.
Proof.
  unfold set_default_config. intros Hrun.
  apply M_bind_Ok in Hrun as (? & s1 & E1 & Hrun). apply pure_log_record in E1.
  apply M_bind_Ok in Hrun as (jf & s2 & E2 & Hrun).
  assert (st_dict s2 = st_dict s1) as E2'
    by (destruct dmm_json; [by injection E2 as <- <- | discriminate]).
  apply M_bind_Ok in Hrun as (? & s3 & E3 & Hrun).
  assert (st_dict s3 = st_dict s2) as E3'.
  { unfold global in E3. case_bool_decide; [by injection E3 as <- <- | discriminate]. }
  apply M_bind_Ok in Hrun as (lookup & s4 & E4 & Hrun).
  assert (st_dict s4 = st_dict s3) as E4'
    by (destruct jf; [discriminate | by injection E4 as <- <-]).
  apply M_bind_Ok in Hrun as (mode & s5 & E5 & Hrun).
  apply getattr_Ok in E5 as [-> Hmode].
  apply M_bind_Ok in Hrun as (by_energy & s6 & E6 & Hrun). apply pure_getitem in E6.
  apply M_bind_Ok in Hrun as (flt & s7 & E7 & Hrun). apply pure_floats in E7.
  apply M_bind_Ok in Hrun as (ev & s8 & E8 & Hrun). apply pure_getattr in E8.
  apply M_bind_Ok in Hrun as (ec & s9 & E9 & Hrun). apply pure_lift in E9.
  apply M_bind_Ok in Hrun as (ev' & s10 & E10 & Hrun). apply pure_getattr in E10.
  apply M_bind_Ok in Hrun as (rq & s11 & E11 & Hrun). apply pure_lift in E11.
  apply M_bind_Ok in Hrun as (cal & s12 & E12 & Hrun). apply pure_lift in E12.
  apply M_bind_Ok in Hrun as (? & s13 & E13 & Hrun).
  assert (st_dict s13 = st_dict s12) as E13'.
  { revert E13. destruct (negb _); [|by intros [= <- <-]].
    apply pure_bind; [apply pure_log_record|intros _].
    apply pure_bind; [apply pure_log_record|intros _].
    apply pure_bind; [apply pure_log_record|intros _].
    apply pure_log_record. }
  apply M_bind_Ok in Hrun as (mode' & s14 & E14 & Hrun). apply pure_getattr in E14.
  apply M_bind_Ok in Hrun as (? & s15 & E15 & Hrun). apply pure_log_record in E15.
  apply M_bind_Ok in Hrun as (? & s16 & E16 & Hrun).
  assert (st_dict s16 = <["energy_value" := ec]> (st_dict s15)) as E16'
    by (by injection E16 as _ <-).
  apply M_bind_Ok in Hrun as ([] & a1 & A1 & Hrun). apply assign_Ok in A1 as [v1 A1].
  apply M_bind_Ok in Hrun as ([] & a2 & A2 & Hrun). apply assign_Ok in A2 as [v2 A2].
  apply M_bind_Ok in Hrun as ([] & a3 & A3 & Hrun). apply assign_Ok in A3 as [v3 A3].
  apply M_bind_Ok in Hrun as ([] & a4 & A4 & Hrun). apply assign_Ok in A4 as [v4 A4].
  apply M_bind_Ok in Hrun as ([] & a5 & A5 & Hrun). apply assign_Ok in A5 as [v5 A5].
  apply M_bind_Ok in Hrun as (mode'' & a6 & A6 & Hrun).
  apply getattr_Ok in A6 as [-> Hmode''].
  apply M_bind_Ok in Hrun as ([] & b0 & B0 & Hrun).
  apply M_bind_Ok in Hrun as ([] & c1 & C1 & Hrun). apply assign_Ok in C1 as [w1 C1].
  apply M_bind_Ok in Hrun as ([] & c2 & C2 & Hrun). apply assign_Ok in C2 as [w2 C2].
  apply M_bind_Ok in Hrun as ([] & c3 & C3 & Hrun). apply assign_Ok in C3 as [w3 C3].
  apply M_bind_Ok in Hrun as ([] & c4 & C4 & Hrun). apply assign_Ok in C4 as [w4 C4].
  apply M_bind_Ok in Hrun as ([] & c5 & C5 & Hrun). apply assign_Ok in C5 as [w5 C5].
  injection Hrun as <- <-.
  assert (st_dict s16 = <["energy_value" := ec]> (st_dict st)) as Hs16 by congruence.
  assert (mode'' = mode) as ->.
  { rewrite A5, A4, A3, A2, A1, Hs16 in Hmode''.
    rewrite !lookup_insert_ne in Hmode'' by done. congruence. }
  split; [done|]. destruct (py_eq_str mode "Mono") eqn:Emono.
  - apply M_bind_Ok in B0 as ([] & m1 & M1 & B0). apply assign_Ok in M1 as [u1 M1].
    apply M_bind_Ok in B0 as ([] & m2 & M2 & B0). apply assign_Ok in M2 as [u2 M2].
    apply assign_Ok in B0 as [u3 M3].
    split.
    + intros name Hin. rewrite C5, C4, C3, C2, C1, M3, M2, M1, A5, A4, A3, A2, A1.
      unfold position_fields in Hin. set_unfold.
      destruct_or!; subst name; by simplify_map_eq.
    + exists mode. split; [congruence|]. rewrite Emono.
      intros name Hin. rewrite C5, C4, C3, C2, C1, M3, M2, M1.
      unfold mono_fields in Hin. set_unfold.
      destruct_or!; subst name; by simplify_map_eq.
  - injection B0 as <-.
    split.
    + intros name Hin. rewrite C5, C4, C3, C2, C1, A5, A4, A3, A2, A1.
      unfold position_fields in Hin. set_unfold.
      destruct_or!; subst name; by simplify_map_eq.
    + exists mode. split; [congruence|]. rewrite Emono.
      intros name Hin. rewrite C5, C4, C3, C2, C1, A5, A4, A3, A2, A1, Hs16.
      unfold mono_fields in Hin. set_unfold.
      destruct_or!; subst name; by simplify_map_eq.
Qed.

End CalibrationFields.

Example set_default_config_with_json :
  (set_default_config ("json" :: module_globals) nearest_stub
     (Some (Json mono_table)) mono_request).1 = Ok 0%Z.
Proof. reflexivity. Qed.

(** ** The config writer *)

Section WriterProperties.
Context `{Runtime}.

Lemma set_lines_not_in lines m k :
  k ∉ lines.*1 → set_lines lines m !! k = m !! k.
Proof.
  revert m. induction lines as [|[k' v'] lines IH]; simpl; intros m Hk; [done|].
  apply not_elem_of_cons in Hk as [Hne Hk].
  rewrite IH by done. by rewrite lookup_insert_ne.
Qed.

Lemma set_lines_in lines m k v :
  NoDup (lines.*1) → (k, v) ∈ lines → set_lines lines m !! k = Some v.
Proof.
  revert m. induction lines as [|[k' v'] lines IH]; simpl; intros m Hnd Hin.
  - by apply elem_of_nil in Hin.
  - apply NoDup_cons in Hnd as [Hk' Hnd].
    apply elem_of_cons in Hin as [[= -> ->]|Hin]; [|by apply IH].
    rewrite set_lines_not_in by done. apply lookup_insert_eq.
Qed.

Lemma write_fields_run args sections section config fields lines0 :
  section ≠ "" → section ≠ "DEFAULT" →
  ConfigParser.sections config !! section = Some lines0 →
  write_fields args sections section config fields
  = if writable_fields args sections section fields
    then Ok {| ConfigParser.defaults := ConfigParser.defaults config;
               ConfigParser.sections :=
                 <[section := set_lines (written_lines args sections section fields)
                                lines0]>
                   (ConfigParser.sections config) |}
    else Raise ValueError.
Proof.
  intros Hs1 Hs2. apply String.eqb_neq in Hs1, Hs2.
  revert config lines0. induction fields as [|[name o] fields IH]; intros config lines0 Hsec.
  - simpl. unfold written_lines. simpl. rewrite insert_id by done. by destruct config.
  - cbn [write_fields]. unfold writable_fields, written_lines in *.
    rewrite filter_cons. cbn [fst]. unfold write_field.
    destruct (String.eqb_spec name "config") as [->|Hne]; cbn [negb].
    + rewrite decide_False by (by intros []). cbn [mbind result_bind]. by apply IH.
    + rewrite decide_True by done. cbn [fmap list_fmap forallb set_lines foldl].
      unfold ConfigParser.set. unfold written_line at 1 3. cbn [fst snd].
      destruct (ConfigParser.valid_syntax _); cbn [negb andb]; [|done].
      rewrite Hs1, Hs2, Hsec. cbn [orb mbind result_bind].
      erewrite IH by (cbn; apply lookup_insert_eq). cbn [ConfigParser.sections].
      destruct (forallb _ _); [|done]. cbn. by rewrite insert_insert_eq.
Qed.

Lemma write_sections_run args sections schema config :
  NoDup (schema.*1) →
  (∀ s, s ∈ schema.*1 →
        s ≠ "" ∧ s ≠ "DEFAULT" ∧ ConfigParser.sections config !! s = None) →
  if forallb (λ sf, writable_fields args sections sf.1 sf.2) schema
  then ∃ config',
         write_sections args sections config schema = Ok config'
         ∧ ConfigParser.defaults config' = ConfigParser.defaults config
         ∧ (∀ sf, sf ∈ schema →
              ConfigParser.sections config' !! sf.1
              = Some (section_lines args sections sf))
         ∧ (∀ s, s ∉ schema.*1 →
              ConfigParser.sections config' !! s = ConfigParser.sections config !! s)
  else write_sections args sections config schema = Raise ValueError.
Proof.
  revert config. induction schema as [|[section fields] schema IH]; intros config Hnd Hfresh.
  - exists config. split_and!; [done|done| |done]. intros sf Hin. by apply elem_of_nil in Hin.
  - cbn [forallb fst snd write_sections] in *. cbn [fmap list_fmap fst] in Hnd, Hfresh.
    apply NoDup_cons in Hnd as [Hsec Hnd].
    destruct (Hfresh section) as (Hempty & Hdef & Hnone); [left|].
    unfold ConfigParser.add_section.
    destruct (String.eqb_spec section "DEFAULT") as [|_]; [done|].
    rewrite Hnone. cbn [mbind result_bind].
    erewrite write_fields_run by (done || cbn; apply lookup_insert_eq).
    destruct (writable_fields args sections section fields); cbn [andb]; [|done].
    cbn [mbind result_bind ConfigParser.sections ConfigParser.defaults].
    rewrite insert_insert_eq.
    match goal with |- context [write_sections _ _ ?c schema] => specialize (IH c) end.
    destruct (forallb _ schema).
    2:{ apply IH; [done|]. intros s Hs. cbn. destruct (Hfresh s) as (? & ? & ?); [by right|].
        split_and!; [done..|]. rewrite lookup_insert_ne; [done|]. by intros ->. }
    edestruct IH as (config' & Hrun & Hd & Hin & Hout); [done| |].
    2:{ exists config'. split; [exact Hrun|]. split; [exact Hd|]. split.
        - intros sf [->|Hsf]%elem_of_cons.
          + cbn. rewrite Hout by done. cbn. by rewrite lookup_insert_eq.
          + by apply Hin.
        - intros s [Hne Hs]%not_elem_of_cons. rewrite Hout by done. cbn.
          by rewrite lookup_insert_ne. }
    intros s Hs. cbn. destruct (Hfresh s) as (? & ? & ?); [by right|].
    split_and!; [done..|]. rewrite lookup_insert_ne; [done|]. by intros ->.
Qed.

(** [write] builds its table exactly when every value it sets passes the
    check of [config.set]; otherwise that [ValueError] comes out. *)
Lemma written_config_run args sections :
  if writable args sections
  then ∃ config,
         written_config args sections = Ok config
         ∧ ConfigParser.defaults config = ∅
         ∧ (∀ sf, sf ∈ SECTIONS →
              ConfigParser.sections config !! sf.1
              = Some (section_lines args sections sf))
         ∧ (∀ s, s ∉ SECTIONS.*1 → ConfigParser.sections config !! s = None)
  else written_config args sections = Raise ValueError.
Proof.
  unfold written_config, writable.
  pose proof (write_sections_run args sections SECTIONS ConfigParser.empty) as Hrun.
  destruct (forallb _ SECTIONS).
  - destruct Hrun as (config & Hrun & Hd & Hin & Hout).
    + cbn. apply (bool_decide_unpack _). by vm_compute.
    + intros s Hs. cbn in Hs. set_unfold. by destruct_or!; subst.
    + exists config. split_and!; try done.
  - apply Hrun.
    + cbn. apply (bool_decide_unpack _). by vm_compute.
    + intros s Hs. cbn in Hs. set_unfold. by destruct_or!; subst.
Qed.

Lemma written_config_Ok args sections :
  writable args sections = true →
  ∃ config,
    written_config args sections = Ok config
    ∧ ConfigParser.defaults config = ∅
    ∧ (∀ sf, sf ∈ SECTIONS →
         ConfigParser.sections config !! sf.1 = Some (section_lines args sections sf))
    ∧ (∀ s, s ∉ SECTIONS.*1 → ConfigParser.sections config !! s = None).
Proof.
  intros Hw. pose proof (written_config_run args sections) as Hrun. by rewrite Hw in Hrun.
Qed.

Lemma written_config_inv args sections config :
  written_config args sections = Ok config →
  writable args sections = true
  ∧ ConfigParser.defaults config = ∅
  ∧ (∀ sf, sf ∈ SECTIONS →
       ConfigParser.sections config !! sf.1 = Some (section_lines args sections sf))
  ∧ (∀ s, s ∉ SECTIONS.*1 → ConfigParser.sections config !! s = None).
Proof.
  intros Hconfig. pose proof (written_config_run args sections) as Hrun.
  destruct (writable args sections); [|congruence].
  destruct Hrun as (config' & Hrun & ?). by assert (config' = config) as -> by congruence.
Qed.

Lemma write_inv config_file args sections fs fs' :
  write config_file args sections fs = Ok fs' →
  ∃ config,
    written_config args sections = Ok config ∧ fs' = <[config_file := Ini config]> fs.
Proof.
  unfold write. destruct (written_config args sections) as [config|]; [|done].
  intros [= <-]. by exists config.
Qed.

Lemma written_lines_NoDup args sections sf :
  sf ∈ SECTIONS → NoDup (written_lines args sections sf.1 sf.2).*1.
Proof.
  intros Hsf. unfold SECTIONS in Hsf. set_unfold.
  destruct_or!; subst sf; unfold written_lines, written_line; simpl;
    repeat (match goal with |- context [py_eq_str ?v ""] => destruct (py_eq_str v "") end);
    apply (bool_decide_unpack _); by vm_compute.
Qed.

Lemma written_line_in args sections section fields name o :
  (name, o) ∈ fields → name ≠ "config" →
  written_line args sections section (name, o) ∈ written_lines args sections section fields.
Proof.
  intros Hin Hne. unfold written_lines. apply list_elem_of_fmap_2.
  apply list_elem_of_filter. done.
Qed.

Lemma schema_names_lower section fields name o b :
  (section, fields) ∈ SECTIONS → (name, o) ∈ fields →
  ConfigParser.optionxform ((if b : bool then "# " else "") +:+ name)
  = (if b then "# " else "") +:+ name.
Proof.
  intros Hsf Hin. unfold SECTIONS in Hsf. set_unfold.
  destruct_or!; simplify_eq; set_unfold; destruct_or!; simplify_eq; by destruct b.
Qed.


(** C9: whatever [args], [sections] and the value of the [config]
    attribute are, a file [write] produces has no line for [config], be it
    commented out or not. *)
Theorem write_never_writes_config (config_file : string) (args : option namespace)
    (sections : option (list string)) (fs fs' : filesystem) :
  write config_file args sections fs = Ok fs' →
  ∃ config,
    fs' = <[config_file := Ini config]> fs
    ∧ ConfigParser.defaults config !! "config" = None
    ∧ ∀ section lines,
        ConfigParser.sections config !! section = Some lines →
        lines !! "config" = None ∧ lines !! "# config" = None.
Proof.
  intros (config & Hrun & ->)%write_inv.
  apply written_config_inv in Hrun as (_ & Hd & Hin & Hout).
  exists config. split; [done|].
  split; [by rewrite Hd|].
  intros section lines Hsec.
  destruct (decide (section ∈ SECTIONS.*1)) as [Hs|Hs]; [|by rewrite Hout in Hsec].
  apply list_elem_of_fmap in Hs as ([section' fields] & -> & Hsf).
  rewrite (Hin _ Hsf) in Hsec. injection Hsec as <-.
  unfold section_lines. clear Hin Hout Hd.
  rewrite !set_lines_not_in; [done| |].
  all: unfold SECTIONS in Hsf; set_unfold in Hsf.
  all: destruct_or!; simplify_eq; unfold written_lines, written_line; simpl.
  all: repeat (match goal with |- context [py_eq_str ?v ""] => destruct (py_eq_str v "") end).
  all: apply (bool_decide_unpack _); by vm_compute.
Qed.

(** X20: [write] sets every value before it opens the file, and
    [config.set] checks each: [write] returns, with the one file written,
    when no value has a percent sign outside the pairs [%%] and the
    references [%(name)s]; otherwise it raises [ValueError] and no file is
    written. *)
Theorem write_checks_values (config_file : string) (args : option namespace)
    (sections : option (list string)) (fs : filesystem) :
  if writable args sections
  then ∃ config,
         write config_file args sections fs = Ok (<[config_file := Ini config]> fs)
  else write config_file args sections fs = Raise ValueError.
Proof.
  pose proof (written_config_run args sections) as Hrun. unfold write.
  destruct (writable args sections).
  - destruct Hrun as (config & -> & _). by exists config.
  - by rewrite Hrun.
Qed.

End WriterProperties.


Lemma write_never_writes_config_witness :
  ∃ config,
    default_file = <["new.conf" := Ini config]> ∅
    ∧ ConfigParser.defaults config !! "config" = None
    ∧ ∀ section lines,
        ConfigParser.sections config !! section = Some lines →
        lines !! "config" = None ∧ lines !! "# config" = None.
Proof.
  apply (write_never_writes_config "new.conf" None None ∅ default_file). reflexivity.
Defined.

Example write_lone_percent :
  write "new.conf" (Some {[ "energyioc_prefix" := PyStr "50%" ]}) (Some MONO_PARAMS) ∅
  = Raise ValueError
  ∧ (∃ config,
       write "new.conf" (Some {[ "energyioc_prefix" := PyStr "50%%" ]})
             (Some MONO_PARAMS) ∅
       = Ok {[ "new.conf" := Ini config ]}
       ∧ ConfigParser.sections config !! "energyioc"
         = Some {[ "energyioc-prefix" := "50%%" ]}).
Proof.
  split; [reflexivity|]. eexists. split; reflexivity.
Qed.

(** ** The status reporter *)

Section Reporter.
Context `{Runtime}.

Lemma observes_mret : observes (mret tt).
Proof. intros [d l]. by exists l. Qed.

Lemma observes_log_record lvl msg : observes (log_record lvl msg).
Proof. intros st. by eexists. Qed.

Lemma observes_bind (m : M unit) (f : unit → M unit) :
  observes m → observes (f tt) → observes (m ≫= f).
Proof.
  intros Hm Hf st. destruct (Hm st) as [l1 E1].
  unfold mbind, M_bind. rewrite E1.
  destruct (Hf {| st_dict := st_dict st; st_log := l1 |}) as [l2 E2].
  exists l2. by rewrite E2.
Qed.

Lemma observes_for_each {A} (l : list A) (body : A → M unit) :
  (∀ x, x ∈ l → observes (body x)) → observes (for_each l body).
Proof.
  induction l as [|x l IH]; intros Hbody; simpl.
  - apply observes_mret.
  - apply observes_bind; [apply Hbody; left|].
    apply IH. intros y Hy. apply Hbody. by right.
Qed.

Lemma elem_of_insert_sorted x y l : x ∈ PyStr.insert_sorted y l → x = y ∨ x ∈ l.
Proof.
  induction l as [|z l IH]; simpl.
  - intros ?%list_elem_of_singleton. by left.
  - destruct (String.leb y z).
    + intros [->|Hin]%elem_of_cons; [by left | by right].
    + intros [->|Hin]%elem_of_cons; [right; left|].
      destruct (IH Hin) as [->|?]; [by left | right; by right].
Qed.

Lemma elem_of_sorted x l : x ∈ PyStr.sorted l → x ∈ l.
Proof.
  induction l as [|y l IH]; simpl; [done|].
  intros [->|Hin]%elem_of_insert_sorted; [left | right; by apply IH].
Qed.

Lemma observes_log_entry (args : namespace) entry :
  is_Some (args !! entry) → observes (log_entry args entry).
Proof.
  intros [v Hv]. unfold log_entry. rewrite Hv.
  destruct (py_eq_str _ "none"); [apply observes_log_record|].
  destruct (negb _) eqn:E; [apply observes_log_record|].
  apply negb_false_iff in E. rewrite E. apply observes_log_record.
Qed.

Lemma lift_bind_Ok {A B} (r : result A) (a : A) (f : A → M B) (st : state) :
  r = Ok a → (lift r ≫= f) st = f a st.
Proof. by intros ->. Qed.

Lemma observes_log_section (args : namespace) sn :
  sn ∈ zip (SECTIONS.*1) NICE_NAMES → observes (log_section args sn).
Proof.
  intros Hsn.
  assert (∀ (fields : list (string * opts)) name,
    observes
      (match PyStr.sorted (filter (λ k, PyStr.replace_char "_" "-" k ∈ fields.*1)
                                  (map_to_list args).*1) with
       | [] => mret tt
       | _ => _ ← log_info name;
              for_each
                (PyStr.sorted (filter (λ k, PyStr.replace_char "_" "-" k ∈ fields.*1)
                                      (map_to_list args).*1))
                (log_entry args)
       end)) as Hbody.
  { intros fields name.
    pose proof (λ x, elem_of_sorted x
      (filter (λ k, PyStr.replace_char "_" "-" k ∈ fields.*1) (map_to_list args).*1))
      as Hsub.
    destruct (PyStr.sorted _) as [|e entries]; [apply observes_mret|].
    apply observes_bind; [apply observes_log_record|].
    apply observes_for_each. intros x Hx. apply observes_log_entry.
    apply Hsub, list_elem_of_filter in Hx as [_ Hx].
    apply list_elem_of_fmap in Hx as ([k v] & -> & Hkv).
    apply elem_of_map_to_list in Hkv. by exists v. }
  unfold SECTIONS, NICE_NAMES in Hsn. simpl in Hsn. set_unfold in Hsn.
  destruct_or!; subst sn; unfold log_section; intros st;
    erewrite lift_bind_Ok by reflexivity; apply Hbody.
Qed.

(** C10: on every parameter set [log_values] returns [None] without
    raising and leaves every attribute of the parameter set as it was; it
    only appends to the log. *)
Theorem log_values_observes (st : state) :
  ∃ log',
    log_values st = (Ok tt, {| st_dict := st_dict st; st_log := log' |}).
Proof.
  unfold log_values, mbind at 1, M_bind, get_dict.
  apply (observes_bind _ (λ _, _ ≫= _)); [apply observes_log_record|].
  apply (observes_bind _ (λ _, _)); [|apply observes_log_record].
  apply observes_for_each. intros sn Hsn. by apply observes_log_section.
Qed.

End Reporter.

(** ** The parsers [Params] builds *)

Section ParserProfiles.
Context `{Runtime}.

Lemma option_string_action_None p s :
  ArgParse.option_string_action p s = None ↔ ¬ registered p s.
Proof.
  unfold ArgParse.option_string_action, registered. rewrite fmap_None, list_find_None.
  rewrite Forall_forall. split.
  - intros Hall (a & Ha & Hs). exact (Hall a Ha Hs).
  - intros Hno a Ha Hs. apply Hno. eauto.
Qed.

Lemma add_argument_registered p flag o p' :
  ArgParse.add_argument p flag o = Ok p' →
  ¬ registered p flag ∧ registered p' flag ∧ ∀ s, registered p s → registered p' s.
Proof.
  unfold ArgParse.add_argument.
  destruct (ArgParse.option_string_action p flag) eqn:E; [done|].
  apply option_string_action_None in E. intros Hrun.
  assert (∃ a, p' = p ++ [a] ∧ ArgParse.option_strings a = [flag]) as (a & -> & Ha).
  { repeat case_match; simplify_eq; eexists; split; reflexivity. }
  split; [done|]. split.
  - exists a. rewrite Ha. set_solver.
  - intros s (b & Hb & Hs). exists b. set_solver.
Qed.

Lemma add_names_registered fields names p p' :
  add_names fields names p = Ok p' →
  (∀ s, registered p s → registered p' s)
  ∧ ∀ n, n ∈ names → ¬ registered p ("--" +:+ n) ∧ registered p' ("--" +:+ n).
Proof.
  revert p. induction names as [|n names IH]; simpl; intros p Hrun.
  - injection Hrun as <-. split; [done|]. intros n Hn. by apply elem_of_nil in Hn.
  - destruct (list_find _ fields) as [[i [n' o]]|]; [|done].
    apply bind_Ok in Hrun as (p1 & Hadd & Hrun).
    apply add_argument_registered in Hadd as (Hfresh & Hflag & Hmono).
    apply IH in Hrun as [Hmono' Hnames].
    split; [by auto|].
    intros m [->|Hm]%elem_of_cons; [by split; auto|].
    destruct (Hnames m Hm) as [Hno ?].
    split; [intros Hr; apply Hno, Hmono, Hr | done].
Qed.

Lemma add_sections_registered l p p' :
  add_sections l p = Ok p' →
  (∀ s, registered p s → registered p' s)
  ∧ NoDup l
  ∧ ∀ section, section ∈ l →
      section ∈ ["general"; "energy"; "energyioc"]
      ∧ ¬ registered p (section_flag section)
      ∧ registered p' (section_flag section).
Proof.
  revert p. induction l as [|section l IH]; simpl; intros p Hrun.
  - injection Hrun as <-. split; [done|]. split; [constructor|].
    intros s Hs. by apply elem_of_nil in Hs.
  - apply bind_Ok in Hrun as (fields & Hget & Hrun).
    apply bind_Ok in Hrun as (p1 & Hnames & Hrun).
    apply add_names_registered in Hnames as [Hmono Hnames].
    apply IH in Hrun as (Hmono' & Hnd & Hl).
    assert (section ∈ ["general"; "energy"; "energyioc"]
            ∧ ¬ registered p (section_flag section)
            ∧ registered p1 (section_flag section)) as (Hin & Hfresh & Hreg).
    { destruct (SECTIONS_get_cases section) as [->|[->|[->|E]]];
        [| | |congruence]; injection Hget as <-;
        (split; [vm_compute; repeat constructor|]).
      - apply (Hnames "config"). vm_compute. repeat constructor.
      - apply (Hnames "energy"). vm_compute. repeat constructor.
      - apply (Hnames "energyioc-prefix"). vm_compute. repeat constructor. }
    split; [by auto|]. split.
    + constructor; [|done]. intros Hdup. destruct (Hl _ Hdup) as (_ & Hno & _). done.
    + intros s [->|Hs]%elem_of_cons; [by split_and!; auto|].
      destruct (Hl s Hs) as (? & Hno & ?).
      split_and!; [done | intros Hr; apply Hno, Hmono, Hr | done].
Qed.

Lemma valid_profiles (secs : list string) (p : ArgParse.parser) :
  profile_parser secs = Ok p →
  secs ∈ [ []; ["energy"]; ["energyioc"];
           ["energy"; "energyioc"]; ["energyioc"; "energy"] ].
Proof.
  unfold profile_parser, add_arguments, add_parser_args, Params_init. simpl.
  intros (_ & Hnd & Hin)%add_sections_registered.
  apply NoDup_app in Hnd as (Hnd & Hgen & _).
  assert (∀ s, s ∈ secs → s = "energy" ∨ s = "energyioc") as Hsecs.
  { intros s Hs. destruct (Hin s) as (Hs3 & _); [set_solver|].
    set_unfold in Hs3. destruct Hs3 as [->|[->|[->|[]]]]; [|auto..].
    destruct (Hgen _ Hs). set_solver. }
  clear Hin Hgen.
  destruct secs as [|a [|b [|c rest]]].
  - set_solver.
  - destruct (Hsecs a) as [->| ->]; set_solver.
  - apply NoDup_cons in Hnd as [Hab _].
    destruct (Hsecs a) as [->| ->], (Hsecs b) as [->| ->]; set_solver.
  - apply NoDup_cons in Hnd as [Ha Hnd]. apply NoDup_cons in Hnd as [Hb _].
    destruct (Hsecs a) as [->| ->], (Hsecs b) as [->| ->], (Hsecs c) as [->| ->];
      set_solver.
Qed.

End ParserProfiles.

Section NoArguments.
Context `{Runtime}.

Lemma convert_defaults_plain p ns :
  plain_defaults p → ArgParse.convert_defaults p ns = Ok ns.
Proof.
  intros Hp. revert ns. induction Hp as [|a p Ha Hp IH]; intros ns; simpl; [done|].
  destruct (ArgParse.act_kind a) as [ty| |] eqn:Ek; try apply IH.
  destruct (ArgParse.act_default a) as [[| | | |d|]|] eqn:Ed; try apply IH.
  destruct (ns !! ArgParse.dest a) as [[| | | |s|]|] eqn:En; try apply IH.
  destruct (String.eqb_spec d s) as [->|]; [|apply IH].
  specialize (Ha _ eq_refl).
  assert (ArgParse.get_value ty s = Ok (PyStr s)) as ->
    by (destruct ty as [[]|]; done).
  rewrite insert_id by done. apply IH.
Qed.

(** The parser of a profile, computed. *)
Ltac profile_cases Hp :=
  let Hsecs := fresh in
  pose proof (valid_profiles _ _ Hp) as Hsecs;
  set_unfold in Hsecs;
  destruct Hsecs as [->|[->|[->|[->|[->|[]]]]]];
  cbv -[CONFIG_FILE_NAME LOGS_HOME] in Hp; injection Hp as <-.

Lemma profile_plain_defaults secs p : profile_parser secs = Ok p → plain_defaults p.
Proof.
  intros Hp. profile_cases Hp; repeat constructor; intros d [=]; done.
Qed.

Lemma profile_defaults secs p section fields name o :
  profile_parser secs = Ok p →
  section ∈ secs ++ ["general"] → SECTIONS_get section = Ok fields →
  (name, o) ∈ fields →
  ArgParse.defaults p !! PyStr.replace_char "-" "_" name = Some (opt_default o).
Proof.
  intros Hp Hsec Hget Hfield.
  profile_cases Hp; set_unfold in Hsec; destruct_or!; subst section;
    injection Hget as <-; set_unfold in Hfield; destruct_or!; simplify_eq;
    reflexivity.
Qed.

(** C7 (as amended): when the process is started with no argument the
    module reads no config file and hands the parser an empty token
    sequence; the parser then returns its compiled-in defaults, so the
    resolved parameter set holds the default of every field of the
    profile. *)
Theorem parse_known_args_no_arguments (secs : list string) (p : ArgParse.parser)
    (subparser : bool) (argv : list string) (fs : filesystem) :
  profile_parser secs = Ok p → (List.length argv ≤ 1)%nat →
  merged_values subparser argv fs = Ok []
  ∧ parse_known_args p subparser argv fs = Ok (ArgParse.defaults p)
  ∧ ∀ section fields name o,
      section ∈ secs ++ ["general"] → SECTIONS_get section = Ok fields →
      (name, o) ∈ fields →
      ArgParse.defaults p !! PyStr.replace_char "-" "_" name = Some (opt_default o).
Proof.
  intros Hp Hlen.
  assert (merged_values subparser argv fs = Ok []) as Hvalues.
  { unfold merged_values. destruct (Nat.ltb_spec 1 (List.length argv)); [lia|done]. }
  split; [done|]. split.
  - unfold parse_known_args. rewrite Hvalues. simpl.
    unfold ArgParse.parse_known_args. simpl.
    apply convert_defaults_plain. by eapply profile_plain_defaults.
  - intros section fields name o. by apply profile_defaults.
Qed.

End NoArguments.

(** The parameter set resolved from an argument vector of length one is
    not empty: it holds the defaults. *)
Lemma parse_known_args_no_arguments_not_empty :
  profile_parser MONO_PARAMS = Ok mono_parser
  ∧ (ns ← parse_known_args mono_parser false ["dmm"] ∅; Ok (ns !! "energy"))
    = Ok (Some (PyInt (-1)))
  ∧ parse_known_args mono_parser false ["dmm"] ∅ ≠ Ok ∅.
Proof.
  split; [reflexivity|]. split; [reflexivity|].
  intros Hempty.
  apply (f_equal (λ r, ns ← r; Ok (ns !! "energy"))) in Hempty.
  discriminate.
Qed.

Lemma parse_known_args_no_arguments_witness :
  parse_known_args mono_parser false ["dmm"] ∅ = Ok (ArgParse.defaults mono_parser).
Proof.
  apply (parse_known_args_no_arguments MONO_PARAMS mono_parser false ["dmm"] ∅);
    [reflexivity | simpl; lia].
Defined.

(** ** The parsing loop *)

Section ParsingLoop.
Context `{Runtime}.

Lemma setattrs_lookup l ns dest :
  ArgParse.setattrs l ns !! dest
  = match last_store dest l with
    | Some v => Some v
    | None => ns !! dest
    end.
Proof.
  revert ns. induction l as [|[k v] l IH]; intros ns; simpl; [done|].
  fold (ArgParse.setattrs l (<[k:=v]> ns)). rewrite IH.
  destruct (last_store dest l); [done|].
  case_decide as Hk; [subst; apply lookup_insert_eq | by apply lookup_insert_ne].
Qed.

Lemma setattrs_app l1 l2 ns :
  ArgParse.setattrs (l1 ++ l2) ns = ArgParse.setattrs l2 (ArgParse.setattrs l1 ns).
Proof. unfold ArgParse.setattrs. apply foldl_app. Qed.

Lemma last_store_app dest l1 l2 :
  last_store dest (l1 ++ l2)
  = match last_store dest l2 with
    | Some v => Some v
    | None => last_store dest l1
    end.
Proof.
  induction l1 as [|[k v] l1 IH]; simpl; [by destruct (last_store dest l2)|].
  rewrite IH. by destruct (last_store dest l2).
Qed.

Lemma stores_cons p t rest :
  self_contained p t = true →
  ArgParse.stores p (t :: rest)
  = (l ← ArgParse.stores p [t]; r ← ArgParse.stores p rest; Ok (l ++ r)).
Proof.
  unfold self_contained. intros [Hsep Hopt]%andb_true_iff. simpl.
  apply negb_true_iff in Hsep. rewrite Hsep.
  destruct (ArgParse.parse_optional p t) as [[[[a|] explicit]|]|e]; simpl;
    try by destruct (ArgParse.stores p rest).
  destruct (ArgParse.act_kind a), explicit; simpl; try done.
  destruct (ArgParse.get_values _ _); simpl; [|done].
  by destruct (ArgParse.stores p rest).
Qed.

Lemma stores_app p A B :
  Forall (λ t, self_contained p t = true) A →
  ArgParse.stores p (A ++ B)
  = (la ← ArgParse.stores p A; lb ← ArgParse.stores p B; Ok (la ++ lb)).
Proof.
  induction 1 as [|t A Ht HA IH].
  - simpl. by destruct (ArgParse.stores p B).
  - rewrite <- app_comm_cons, (stores_cons p t (A ++ B)), (stores_cons p t A), IH by done.
    destruct (ArgParse.stores p [t]) as [l|]; simpl; [|done].
    destruct (ArgParse.stores p A) as [la|]; simpl; [|done].
    destruct (ArgParse.stores p B) as [lb|]; simpl; [|done].
    by rewrite app_assoc.
Qed.

Lemma extend_each_Forall {A} (P : string → Prop) (body : A → result (list string))
    (l : list A) (ts : list string) :
  (∀ x ts, x ∈ l → body x = Ok ts → Forall P ts) →
  extend_each body l = Ok ts → Forall P ts.
Proof.
  revert ts. induction l as [|x l IH]; simpl; intros ts Hbody Hrun.
  - injection Hrun as <-. constructor.
  - apply bind_Ok in Hrun as (t1 & H1 & Hrun).
    apply bind_Ok in Hrun as (t2 & H2 & Hrun). injection Hrun as <-.
    apply Forall_app. split.
    + eapply Hbody; [left|done].
    + apply IH; [|done]. intros y ts Hy. apply Hbody. by right.
Qed.

(** *** Tokens of the form [--name=value] *)
Lemma split_once_contains c s a b :
  PyStr.split_once c s = Some (a, b) → PyStr.contains c s = true.
Proof.
  revert a b. induction s as [|c' s IH]; simpl; intros a b; [done|].
  destruct (Ascii.eqb c c'); [done|]. simpl.
  destruct (PyStr.split_once c s) as [[a' b']|]; [|done]. intros _. by eapply IH.
Qed.

Lemma contains_split_once c s :
  PyStr.contains c s = true → ∃ a b, PyStr.split_once c s = Some (a, b).
Proof.
  induction s as [|c' s IH]; simpl; [done|].
  destruct (Ascii.eqb c c'); simpl; [eauto|].
  intros (a & b & ->)%IH. eauto.
Qed.

Lemma dashed_token t :
  PyStr.startswith t "--" = true → ∃ t', t = String "-" (String "-" t').
Proof.
  unfold PyStr.startswith.
  destruct t as [|c1 [|c2 t']]; cbn [String.prefix]; [done| |].
  - by destruct (ascii_dec "-" c1).
  - destruct (ascii_dec "-" c1) as [<-|]; [|done].
    destruct (ascii_dec "-" c2) as [<-|]; [|done]. eauto.
Qed.

Lemma plain_options_not_exact p t :
  plain_options p = true → PyStr.contains "=" t = true →
  ArgParse.option_string_action p t = None.
Proof.
  intros Hp Ht. apply option_string_action_None. intros (a & Ha & Hin).
  unfold plain_options in Hp. rewrite forallb_forall in Hp.
  specialize (Hp a). rewrite forallb_forall in Hp.
  apply list_elem_of_In in Ha, Hin. specialize (Hp Ha t Hin). by rewrite Ht in Hp.
Qed.

Lemma parse_optional_equals p t :
  plain_options p = true → PyStr.startswith t "--" = true →
  PyStr.contains "=" t = true →
  match ArgParse.parse_optional p t with
  | Ok (Some (Some a, None)) => False
  | _ => True
  end.
Proof.
  intros Hp Hdash Heq. unfold ArgParse.parse_optional.
  rewrite (plain_options_not_exact _ _ Hp Heq).
  destruct (contains_split_once _ _ Heq) as (o & e & Hsplit).
  assert (Forall (λ x : ArgParse.action * option string, x.2 = Some e)
            (ArgParse.get_option_tuples p t)) as Hall.
  { unfold ArgParse.get_option_tuples. rewrite Hdash, Hsplit.
    apply Forall_forall. intros [a x] Hin.
    apply list_elem_of_bind in Hin as (a' & Hin & _).
    apply list_elem_of_bind in Hin as (s & Hin & _).
    destruct (PyStr.startswith s _); [|by apply elem_of_nil in Hin].
    by apply list_elem_of_singleton in Hin as [= -> ->]. }
  rewrite Hsplit.
  destruct (dashed_token _ Hdash) as [t' ->].
  change (String "-" (String "-" t') =? "") with false.
  change (PyStr.startswith (String "-" (String "-" t')) "-") with true.
  cbn [negb].
  destruct (String.length _ =? 1)%nat; [done|].
  destruct (ArgParse.option_string_action p o); [done|].
  destruct (ArgParse.get_option_tuples p _) as [|[a x] [|? ?]].
  - by repeat case_match.
  - apply Forall_inv in Hall. simpl in Hall. by subst x.
  - done.
Qed.

Lemma equals_self_contained p t :
  plain_options p = true → PyStr.startswith t "--" = true →
  PyStr.contains "=" t = true → self_contained p t = true.
Proof.
  intros Hp Hdash Heq. unfold self_contained.
  pose proof (parse_optional_equals p t Hp Hdash Heq) as Hopt.
  apply andb_true_iff. split.
  - apply negb_true_iff, String.eqb_neq. intros ->. done.
  - by repeat case_match.
Qed.

Lemma parse_optional_explicit p t o e a :
  plain_options p = true → PyStr.startswith t "--" = true →
  PyStr.split_once "=" t = Some (o, e) →
  ArgParse.option_string_action p o = Some a →
  ArgParse.parse_optional p t = Ok (Some (Some a, Some e)).
Proof.
  intros Hp Hdash Hsplit Ha. unfold ArgParse.parse_optional.
  rewrite (plain_options_not_exact p t Hp (split_once_contains _ _ _ _ Hsplit)).
  rewrite Hsplit, Ha.
  destruct (dashed_token _ Hdash) as [t' ->]. done.
Qed.

Ltac profile_cases Hp :=
  let Hsecs := fresh in
  pose proof (valid_profiles _ _ Hp) as Hsecs;
  set_unfold in Hsecs;
  destruct Hsecs as [->|[->|[->|[->|[->|[]]]]]];
  cbv -[CONFIG_FILE_NAME LOGS_HOME] in Hp; injection Hp as <-.

Lemma config_tokens_self_contained secs p fs config_name tokens :
  profile_parser secs = Ok p → config_to_list fs config_name = Ok tokens →
  Forall (λ t, self_contained p t = true) tokens.
Proof.
  intros Hp. unfold config_to_list.
  destruct (ConfigParser_read fs config_name) as [[read_ok config]|];
    cbn -[extend_each]; [|done].
  destruct read_ok; [by intros [= <-]|].
  apply extend_each_Forall. intros [section fields] ts Hsec.
  apply extend_each_Forall. intros [name o] ts' Hfield.
  unfold field_tokens.
  destruct (ConfigParser.has_option config section name); [|by intros [= <-]].
  destruct (ConfigParser.get config section name) as [v|]; simpl; [|done].
  intros [= <-].
  assert (plain_options p = true
          ∧ Forall (λ t, self_contained p t = true) ["--verbose"; "--testing"; "--force"])
    as [Hplain Hflags].
  { clear Hsec Hfield. profile_cases Hp; (split; [reflexivity|]);
      repeat constructor. }
  clear Hp.
  unfold SECTIONS in Hsec. set_unfold in Hsec.
  destruct_or!; simplify_eq; set_unfold in Hfield; destruct_or!; simplify_eq;
    unfold option_tokens; simpl;
    (destruct (negb (String.eqb v "") && negb (String.eqb v "None")); [|by constructor]);
    simpl; try (destruct (String.eqb v "True"); simpl); try by constructor.
  all: apply Forall_cons in Hflags as [Hverbose Hflags].
  all: apply Forall_cons in Hflags as [Htesting Hflags].
  all: apply Forall_cons in Hflags as [Hforce _].
  all: apply Forall_cons; split; [|by constructor].
  all: first [ exact Hverbose | exact Htesting | exact Hforce
             | apply equals_self_contained; [done|reflexivity|reflexivity] ].
Qed.

(** C2: with more than one process argument the token sequence handed to
    the parser is the tokens of the config file followed by the literal
    command-line tokens (after the sub-command, when there is one), and
    in the resolved parameter set every field holds the last value the
    command-line tokens store into it, else the last value the
    config-file tokens store into it, else its compiled-in default. *)
Theorem parse_known_args_precedence (secs : list string) (p : ArgParse.parser)
    (subparser : bool) (argv : list string) (fs : filesystem)
    (config_name : string) (config_values : list string) :
  profile_parser secs = Ok p → (1 < List.length argv)%nat →
  get_config_name argv = Ok config_name →
  config_to_list fs config_name = Ok config_values →
  merged_values subparser argv fs
  = Ok ((if subparser then take 1 (tail argv) else []) ++ config_values ++ tail argv)
  ∧ ∀ ns, parse_known_args p false argv fs = Ok ns →
      ∃ from_file from_argv,
        ArgParse.stores p config_values = Ok from_file
        ∧ ArgParse.stores p (tail argv) = Ok from_argv
        ∧ ∀ dest,
            ns !! dest
            = match last_store dest from_argv with
              | Some v => Some v
              | None =>
                  match last_store dest from_file with
                  | Some v => Some v
                  | None => ArgParse.defaults p !! dest
                  end
              end.
Proof.
  intros Hp Hlen Hname Hconfig.
  assert (∀ sub, merged_values sub argv fs
            = Ok ((if sub then take 1 (tail argv) else []) ++ config_values ++ tail argv))
    as Hvalues.
  { intros sub. unfold merged_values.
    destruct (Nat.ltb_spec 1 (List.length argv)); [|lia].
    rewrite Hname. cbn [mbind result_bind]. by rewrite Hconfig. }
  split; [apply Hvalues|].
  intros ns. unfold parse_known_args. rewrite Hvalues. cbn [mbind result_bind app].
  unfold ArgParse.parse_known_args, ArgParse.consume.
  pose proof (config_tokens_self_contained _ _ _ _ _ Hp Hconfig) as Hsc.
  rewrite (stores_app p config_values (tail argv) Hsc).
  destruct (ArgParse.stores p config_values) as [from_file|]; [|done].
  destruct (ArgParse.stores p (tail argv)) as [from_argv|]; [|done].
  cbn [mbind result_bind].
  rewrite (convert_defaults_plain p) by (by eapply profile_plain_defaults).
  intros [= <-]. exists from_file, from_argv. split; [done|]. split; [done|].
  intros dest. rewrite setattrs_lookup, last_store_app.
  by destruct (last_store dest from_argv), (last_store dest from_file).
Qed.

End ParsingLoop.

Lemma parse_known_args_precedence_witness :
  merged_values false ["dmm"; "--energy"; "30"] energy_file
  = Ok ([] ++ ["--energy=20"] ++ ["--energy"; "30"]).
Proof.
  apply (parse_known_args_precedence MONO_PARAMS mono_parser false
           ["dmm"; "--energy"; "30"] energy_file "/home/user/logs/dmm.conf" ["--energy=20"]);
    [reflexivity | simpl; lia | reflexivity | reflexivity].
Defined.

Example command_line_overrides_file :
  (ns ← parse_known_args mono_parser false ["dmm"; "--energy"; "30"] energy_file;
   Ok (ns !! "energy")) = Ok (Some (PyFloat 30%Z))
  ∧ (ns ← parse_known_args mono_parser false ["dmm"; "--verbose"] energy_file;
     Ok (ns !! "energy")) = Ok (Some (PyFloat 20%Z))
  ∧ (ns ← parse_known_args mono_parser false ["dmm"; "--verbose"] ∅;
     Ok (ns !! "energy")) = Ok (Some (PyInt (-1))).
Proof. split_and!; reflexivity. Qed.

(** ** The round trip from a config file to a parameter set *)

Section RoundTrip.
Context `{Runtime}.

Lemma field_tokens_stored config section name o :
  (ConfigParser.has_option config section name = true →
   is_ok (ConfigParser.get config section name) = true) →
  field_tokens config section (name, o) = Ok (stored_tokens config (section, (name, o))).
Proof.
  intros Hget. unfold field_tokens, stored_tokens, stored. simpl.
  destruct (ConfigParser.has_option config section name); [|done].
  specialize (Hget eq_refl). by destruct (ConfigParser.get config section name).
Qed.

Lemma field_tokens_got config section name o ts :
  field_tokens config section (name, o) = Ok ts →
  ConfigParser.has_option config section name = true →
  is_ok (ConfigParser.get config section name) = true.
Proof.
  unfold field_tokens. intros Hts Hhas. rewrite Hhas in Hts.
  by destruct (ConfigParser.get config section name).
Qed.

Lemma extend_each_Ok {A} (body : A → result (list string)) (f : A → list string)
    (l : list A) :
  (∀ x, x ∈ l → body x = Ok (f x)) → extend_each body l = Ok (l ≫= f).
Proof.
  induction l as [|x l IH]; intros Hbody; simpl; [done|].
  rewrite (Hbody x) by left. simpl. rewrite IH by (intros; apply Hbody; by right).
  done.
Qed.

Lemma extend_each_turns {A} (body : A → result (list string)) (l : list A) ts :
  extend_each body l = Ok ts → ∀ x, x ∈ l → ∃ t, body x = Ok t.
Proof.
  revert ts. induction l as [|y l IH]; intros ts Hts x Hx; [by apply elem_of_nil in Hx|].
  simpl in Hts. destruct (body y) as [t|] eqn:Hy; [|done]. simpl in Hts.
  destruct (extend_each body l) as [rest|] eqn:Hl; [|done].
  apply elem_of_cons in Hx as [->|Hx]; [eauto|]. by eapply IH.
Qed.

Lemma elem_of_schema_fields section name o :
  (section, (name, o)) ∈ schema_fields
  ↔ ∃ fields, (section, fields) ∈ SECTIONS ∧ (name, o) ∈ fields.
Proof.
  unfold schema_fields. rewrite list_elem_of_bind. split.
  - intros ([section' fields] & Hin & Hsf). apply list_elem_of_fmap in Hin as (field & [= -> ->] & Hin).
    eauto.
  - intros (fields & Hsf & Hin). exists (section, fields). split; [|done].
    apply list_elem_of_fmap. eauto.
Qed.

(** On a file that was read and whose stored schema options can all be
    got, [config_to_list] returns the tokens of the stored schema fields,
    in schema order. *)
Lemma config_to_list_read fs config_name f files config :
  ConfigParser_read fs config_name = Ok (f :: files, config) →
  interpolates config →
  config_to_list fs config_name = Ok (schema_fields ≫= stored_tokens config).
Proof.
  intros Hread Hget. unfold config_to_list. rewrite Hread. cbn -[extend_each SECTIONS].
  erewrite (extend_each_Ok _ (λ sf, sf.2 ≫= (λ field, stored_tokens config (sf.1, field)))).
  - unfold schema_fields, SECTIONS. simpl. by rewrite !app_nil_r, <- !app_assoc.
  - intros [section fields] Hsf. apply extend_each_Ok. intros [name o] Hfield.
    apply field_tokens_stored. apply (Hget section name o).
    apply elem_of_schema_fields. eauto.
Qed.

(** When [config_to_list] returns on a file that was read, every stored
    schema option was got. *)
Lemma config_to_list_got fs config_name f files config tokens :
  ConfigParser_read fs config_name = Ok (f :: files, config) →
  config_to_list fs config_name = Ok tokens →
  interpolates config.
Proof.
  intros Hread Htokens. unfold config_to_list in Htokens. rewrite Hread in Htokens.
  cbn -[extend_each SECTIONS] in Htokens.
  intros section name o (fields & Hsf & Hfield)%elem_of_schema_fields.
  destruct (extend_each_turns _ _ _ Htokens _ Hsf) as [ts Hts]. cbn beta iota in Hts.
  destruct (extend_each_turns _ _ _ Hts _ Hfield) as [t Ht].
  by eapply field_tokens_got.
Qed.

Lemma schema_fields_plain sf : sf ∈ schema_fields → plain_field sf.
Proof.
  unfold schema_fields, SECTIONS. simpl. intros Hsf. set_unfold in Hsf.
  destruct_or!; subst sf; (split_and!; [done|reflexivity|reflexivity|]);
    simpl; first [done | by intros [=]].
Qed.

Lemma split_once_app c a b :
  PyStr.contains c a = false → PyStr.split_once c (a +:+ String c b) = Some (a, b).
Proof.
  induction a as [|c' a IH]; simpl.
  - by rewrite Ascii.eqb_refl.
  - intros [Hc Ha]%orb_false_iff. rewrite Hc, IH by done. done.
Qed.

Lemma contains_app c a b :
  PyStr.contains c (a +:+ String c b) = true.
Proof.
  induction a as [|c' a IH]; simpl; [by rewrite Ascii.eqb_refl|].
  rewrite IH. apply orb_true_r.
Qed.

Lemma stored_tokens_stores p config section name o rest :
  plain_options p = true →
  ArgParse.option_string_action p ("--" +:+ name) = Some (schema_action name o) →
  plain_field (section, (name, o)) →
  (∀ value, stored config section name = Some value → skipped value = false →
            opt_action o ≠ Some "store_true" →
            is_ok (ArgParse.get_values (opt_type o) value) = true) →
  ArgParse.stores p (stored_tokens config (section, (name, o)) ++ rest)
  = (r ← ArgParse.stores p rest; Ok (field_stores config (section, (name, o)) ++ r)).
Proof.
  intros Hplain Haction (Hname & Hequals & Hnargs & _) Hvalid.
  cbn [fst snd] in Hname, Hequals, Hnargs.
  unfold stored_tokens, field_stores. simpl.
  destruct (stored config section name) as [value|];
    [|simpl; by destruct (ArgParse.stores p rest)].
  specialize (Hvalid value eq_refl).
  unfold option_tokens, skipped in *. rewrite <- negb_orb.
  destruct (String.eqb value "" || String.eqb value "None");
    [simpl; by destruct (ArgParse.stores p rest)|].
  specialize (Hvalid eq_refl). cbn [negb].
  rewrite Hnargs. case_bool_decide as Hflag; cbn [andb negb app].
  - destruct (String.eqb value "True");
      [|simpl; by destruct (ArgParse.stores p rest)].
    cbn [app ArgParse.stores].
    assert (String.eqb ("--" +:+ name) "--" = false) as ->
      by (destruct name; [done|reflexivity]).
    assert (ArgParse.parse_optional p ("--" +:+ name)
            = Ok (Some (Some (schema_action name o), None))) as ->.
    { unfold ArgParse.parse_optional. rewrite Haction. reflexivity. }
    simpl. rewrite bool_decide_true by done.
    by destruct (ArgParse.stores p rest).
  - rewrite bool_decide_false by done. cbn [app ArgParse.stores].
    assert (String.eqb ("--" +:+ name +:+ "=" +:+ value) "--" = false) as ->
      by (by destruct name).
    rewrite (parse_optional_explicit p _ ("--" +:+ name) value (schema_action name o));
      [|done|by destruct name| |done].
    2:{ change (PyStr.split_once "=" (String "-" (String "-" (name +:+ String "=" value)))
                = Some (String "-" (String "-" name), value)).
        cbn [PyStr.split_once]. rewrite split_once_app by done. reflexivity. }
    simpl. rewrite bool_decide_false by done.
    specialize (Hvalid Hflag).
    destruct (ArgParse.get_values (opt_type o) value) as [v|]; [|done].
    simpl. by destruct (ArgParse.stores p rest).
Qed.

Lemma schema_tokens_stores p config (l : list (string * (string * opts))) :
  plain_options p = true →
  (∀ section name o, (section, (name, o)) ∈ l →
     ArgParse.option_string_action p ("--" +:+ name) = Some (schema_action name o)
     ∧ plain_field (section, (name, o))
     ∧ ∀ value, stored config section name = Some value → skipped value = false →
                opt_action o ≠ Some "store_true" →
                is_ok (ArgParse.get_values (opt_type o) value) = true) →
  ArgParse.stores p (l ≫= stored_tokens config) = Ok (l ≫= field_stores config).
Proof.
  intros Hplain. induction l as [|[section [name o]] l IH]; intros Hl; [done|].
  rewrite !bind_cons.
  destruct (Hl section name o) as (Haction & Hfield & Hvalid); [left|].
  rewrite stored_tokens_stores by done.
  rewrite IH by (intros; apply Hl; by right). done.
Qed.

Lemma field_stores_dest config sf dest :
  PyStr.replace_char "-" "_" sf.2.1 ≠ dest → last_store dest (field_stores config sf) = None.
Proof.
  destruct sf as [section [name o]]. simpl. intros Hne.
  destruct (stored config section name) as [value|]; [|done].
  destruct (skipped value); [done|].
  repeat case_match; simpl; try done; by rewrite decide_False.
Qed.

Lemma last_store_fields config (l : list (string * (string * opts))) sf :
  NoDup ((λ sf, PyStr.replace_char "-" "_" sf.2.1) <$> l) → sf ∈ l →
  last_store (PyStr.replace_char "-" "_" sf.2.1) (l ≫= field_stores config)
  = last_store (PyStr.replace_char "-" "_" sf.2.1) (field_stores config sf).
Proof.
  induction l as [|x l IH]; intros Hnd Hin; [by apply elem_of_nil in Hin|].
  rewrite fmap_cons in Hnd. apply NoDup_cons in Hnd as [Hx Hnd].
  rewrite bind_cons, last_store_app.
  apply elem_of_cons in Hin as [->|Hin].
  - assert (last_store (PyStr.replace_char "-" "_" x.2.1) (l ≫= field_stores config) = None)
      as ->; [|done].
    clear IH Hnd. induction l as [|y l IH]; [done|].
    rewrite bind_cons, last_store_app, IH by set_solver.
    apply field_stores_dest. set_solver.
  - rewrite IH by done.
    destruct (last_store _ (field_stores config sf)) eqn:E; [done|].
    apply field_stores_dest. intros Heq. apply Hx. rewrite Heq.
    by apply (list_elem_of_fmap_2 (λ sf, PyStr.replace_char "-" "_" sf.2.1)).
Qed.

Lemma valid_config_interpolates config : valid_config config → interpolates config.
Proof.
  intros Hvalid section name o Hsf Hhas.
  by destruct (Hvalid section name o Hsf Hhas) as (value & -> & _).
Qed.


Ltac profile_cases Hp :=
  let Hsecs := fresh in
  pose proof (valid_profiles _ _ Hp) as Hsecs;
  set_unfold in Hsecs;
  destruct Hsecs as [->|[->|[->|[->|[->|[]]]]]];
  cbv -[CONFIG_FILE_NAME LOGS_HOME] in Hp; injection Hp as <-.

(** What a profile with both sections registers. *)
Lemma full_profile secs p :
  profile_parser secs = Ok p → "energy" ∈ secs → "energyioc" ∈ secs →
  plain_options p = true
  ∧ ∀ section name o, (section, (name, o)) ∈ schema_fields →
      ArgParse.option_string_action p ("--" +:+ name) = Some (schema_action name o)
      ∧ ArgParse.defaults p !! PyStr.replace_char "-" "_" name = Some (opt_default o).
Proof.
  intros Hp He Hi.
  profile_cases Hp; try (by set_unfold in He; destruct_or!);
    try (by set_unfold in Hi; destruct_or!).
  all: split; [reflexivity|]; intros section name o Hsf;
    unfold schema_fields, SECTIONS in Hsf; simpl in Hsf; set_unfold in Hsf;
    destruct_or!; simplify_eq; split; reflexivity.
Qed.


End RoundTrip.

Ltac valid_config_cases :=
  let Hsf := fresh in
  let Hhas := fresh in
  let Hskipped := fresh in
  intros ? ? ? Hsf;
  unfold schema_fields, SECTIONS in Hsf; simpl in Hsf; set_unfold in Hsf;
  destruct_or!; try done; injection Hsf as -> -> ->;
  intros Hhas; vm_compute in Hhas; try discriminate Hhas; clear Hhas;
  eexists; (split; [reflexivity|]);
  intros Hskipped; vm_compute in Hskipped; try discriminate Hskipped;
  (split; [discriminate|eexists; reflexivity]).

Lemma sample_config_valid : valid_config sample_config.
Proof. valid_config_cases. Qed.


Example sample_file_round_trip :
  config_to_list sample_file "/home/user/logs/dmm.conf"
  = Ok ["--logs-home=/data/logs"; "--verbose"; "--energy=20"]
  ∧ (ns ← ArgParse.parse_known_args mono_parser
             ["--logs-home=/data/logs"; "--verbose"; "--energy=20"];
     Ok (ns !! "logs_home", ns !! "verbose", ns !! "testing", ns !! "energy",
         ns !! "energyioc_prefix"))
    = Ok (Some (PyStr "/data/logs"), Some (PyBool true), Some (PyBool false),
          Some (PyFloat 20%Z), Some (PyStr "2bm:MCTOptics:")).
Proof. split; reflexivity. Qed.


(** ** The config file name on the command line *)

Section ConfigName.
Context `{Runtime}.

Lemma get_config_name_skip pre rest :
  Forall not_config pre →
  get_config_name (pre ++ rest) = get_config_name rest.
Proof.
  unfold get_config_name. induction 1 as [|arg pre Harg _ IH]; [done|].
  simpl app. cbn [get_config_name_loop]. unfold not_config in Harg. by rewrite Harg.
Qed.

Lemma before_sub_absent sep s : occurs sep s = false → PyStr.before_sub sep s = s.
Proof.
  induction s as [|c s IH]; [done|].
  cbn [PyStr.before_sub occurs]. intros [-> Hs]%orb_false_elim. by rewrite IH.
Qed.

(** X1: when no argument of the command line starts with [--config],
    [get_config_name] returns the default path [CONFIG_FILE_NAME]. *)
Theorem get_config_name_absent (argv : list string) :
  Forall not_config argv → get_config_name argv = Ok CONFIG_FILE_NAME.
Proof.
  intros Hargv. rewrite <- (app_nil_r argv). by rewrite get_config_name_skip.
Qed.

(** X2: the first argument that starts with [--config] decides.  When it
    is [--config] itself, [get_config_name] returns the argument after it,
    and raises [IndexError] when there is none. *)
Theorem get_config_name_separate (pre rest : list string) :
  Forall not_config pre →
  get_config_name (pre ++ "--config" :: rest)
  = match rest with
    | next :: _ => Ok next
    | [] => Raise IndexError
    end.
Proof.
  intros Hpre. by rewrite get_config_name_skip.
Qed.

(** X3: when the first argument that starts with [--config] goes on after
    it (as [--config=FILE] does) and has no second [--config] in it,
    [get_config_name] returns what follows [--config], less one leading
    equals sign; so [--config=FILE] names [FILE], and an argument such as
    [--configuration] is taken for a file name as well. *)
Theorem get_config_name_joined (pre rest : list string) (suffix : string) :
  Forall not_config pre → suffix ≠ "" → occurs "--config" suffix = false →
  get_config_name (pre ++ ("--config" +:+ suffix) :: rest)
  = Ok (match suffix with
        | String "=" name => name
        | _ => suffix
        end).
Proof.
  intros Hpre Hne Hno. rewrite get_config_name_skip by done.
  unfold get_config_name. cbn [get_config_name_loop].
  destruct suffix as [|c name]; [done|].
  change (PyStr.startswith ("--config" +:+ String c name) "--config") with true.
  cbn match.
  change (String.eqb ("--config" +:+ String c name) "--config") with false.
  change (PyStr.drop 8 ("--config" +:+ String c name)) with (String c name).
  rewrite before_sub_absent by done.
  destruct (Ascii.eqb_spec c "=") as [->|Hc]; [done|].
  destruct c as [[] [] [] [] [] [] [] []]; try done.
Qed.

(** X4: with [--config] as the last argument, and no earlier argument
    starting with [--config], [parse_known_args] raises [IndexError],
    whatever the parser and the files are: it fails before the parser could
    report the missing value. *)
Theorem parse_known_args_config_last (p : ArgParse.parser) (subparser : bool)
    (prog : string) (pre : list string) (fs : filesystem) :
  Forall not_config (prog :: pre) →
  parse_known_args p subparser (prog :: pre ++ ["--config"]) fs = Raise IndexError.
Proof.
  intros Hpre. unfold parse_known_args, merged_values.
  assert ((1 <? length (prog :: pre ++ ["--config"]))%nat = true) as ->.
  { apply Nat.ltb_lt. rewrite !length_cons, length_app. simpl. lia. }
  change (prog :: pre ++ ["--config"]) with ((prog :: pre) ++ ["--config"]).
  by rewrite (get_config_name_separate (prog :: pre) []).
Qed.

(** X5: when the command line has more than one argument and the config
    file it names does not parse, [parse_known_args] fails with the error
    of the reader, whatever the command line sets. *)
Theorem parse_known_args_garbled (p : ArgParse.parser) (subparser : bool)
    (argv : list string) (fs : filesystem) (config_name : string) :
  (1 < length argv)%nat → get_config_name argv = Ok config_name →
  fs !! config_name = Some Garbled →
  parse_known_args p subparser argv fs = Raise ParsingError.
Proof.
  intros Hlen Hname Hfile. unfold parse_known_args, merged_values.
  apply Nat.ltb_lt in Hlen. rewrite Hlen, Hname. cbn [mbind result_bind].
  unfold config_to_list, ConfigParser_read. by rewrite Hfile.
Qed.

End ConfigName.

Lemma get_config_name_absent_witness :
  get_config_name ["dmm"; "--energy"; "20"] = Ok CONFIG_FILE_NAME.
Proof.
  apply (get_config_name_absent ["dmm"; "--energy"; "20"]).
  repeat constructor.
Defined.

Lemma get_config_name_separate_witness :
  get_config_name (["dmm"; "--energy"; "20"] ++ ["--config"]) = Raise IndexError.
Proof.
  apply (get_config_name_separate ["dmm"; "--energy"; "20"] []).
  repeat constructor.
Defined.

Lemma get_config_name_joined_witness :
  get_config_name (["dmm"] ++ ["--config" +:+ "=my.conf"; "--energy"; "20"])
  = Ok "my.conf".
Proof.
  apply (get_config_name_joined ["dmm"] ["--energy"; "20"] "=my.conf");
    [repeat constructor | discriminate | reflexivity].
Defined.

Lemma parse_known_args_config_last_witness :
  parse_known_args mono_parser false ("dmm" :: ["--energy"; "20"] ++ ["--config"]) ∅
  = Raise IndexError.
Proof.
  apply (parse_known_args_config_last mono_parser false "dmm" ["--energy"; "20"] ∅).
  repeat constructor.
Defined.

Lemma parse_known_args_garbled_witness :
  parse_known_args mono_parser false ["dmm"; "--config"; "bad.conf"]
    {[ "bad.conf" := Garbled ]} = Raise ParsingError.
Proof.
  apply (parse_known_args_garbled mono_parser false ["dmm"; "--config"; "bad.conf"]
           {[ "bad.conf" := Garbled ]} "bad.conf");
    [simpl; lia | reflexivity | reflexivity].
Defined.

(** ** An abbreviated [--config] *)

Section Abbreviation.
Context `{Runtime}.

Lemma not_dashed_not_config f : PyStr.startswith f "-" = false → not_config f.
Proof.
  unfold not_config, PyStr.startswith. destruct f as [|c f]; [done|].
  cbn [String.prefix]. destruct (ascii_dec "-" c); [by destruct f|done].
Qed.

Lemma parse_optional_positional p f :
  PyStr.startswith f "-" = false → ArgParse.parse_optional p f = Ok None.
Proof.
  intros Hf. unfold ArgParse.parse_optional. destruct (String.eqb f ""); [done|].
  by rewrite Hf.
Qed.

(** A [store] option followed by its argument. *)
Lemma stores_store_next p t a type next rest :
  String.eqb t "--" = false →
  ArgParse.parse_optional p t = Ok (Some (Some a, None)) →
  ArgParse.act_kind a = ArgParse.Store type →
  PyStr.startswith next "-" = false →
  ArgParse.stores p (t :: next :: rest)
  = (v ← ArgParse.get_value type next; l ← ArgParse.stores p rest;
     Ok ((ArgParse.dest a, v) :: l)).
Proof.
  intros Ht Hopt Hkind Hnext. cbn [ArgParse.stores]. rewrite Ht, Hopt, Hkind.
  assert (String.eqb next "--" = false) as ->.
  { destruct next as [|c next]; [done|]. unfold PyStr.startswith in Hnext.
    cbn [String.prefix] in Hnext.
    destruct (ascii_dec "-" c) as [<-|Hc]; [by destruct next|].
    destruct c as [[] [] [] [] [] [] [] []]; try done. }
  by rewrite parse_optional_positional.
Qed.

Ltac profile_cases Hp :=
  let Hsecs := fresh in
  pose proof (valid_profiles _ _ Hp) as Hsecs;
  set_unfold in Hsecs;
  destruct Hsecs as [->|[->|[->|[->|[->|[]]]]]];
  cbv -[CONFIG_FILE_NAME LOGS_HOME] in Hp; injection Hp as <-.

Lemma profile_abbreviation secs p :
  profile_parser secs = Ok p →
  ∃ a, ArgParse.parse_optional p "--conf" = Ok (Some (Some a, None))
       ∧ ArgParse.act_kind a = ArgParse.Store (Some Tstr)
       ∧ ArgParse.dest a = "config".
Proof.
  intros Hp. profile_cases Hp; eexists; split_and!; reflexivity.
Qed.

(** X6: the parser takes [--conf] for [--config], [get_config_name] does
    not.  With no file at the default path, [prog --conf f] returns the
    defaults with [config] set to [f], and the file [f] is not read,
    whatever it holds. *)
Theorem abbreviated_config_not_read (secs : list string) (p : ArgParse.parser)
    (prog f : string) (fs : filesystem) :
  profile_parser secs = Ok p →
  not_config prog → PyStr.startswith f "-" = false →
  fs !! CONFIG_FILE_NAME = None →
  get_config_name [prog; "--conf"; f] = Ok CONFIG_FILE_NAME
  ∧ parse_known_args p false [prog; "--conf"; f] fs
    = Ok (<["config" := PyStr f]> (ArgParse.defaults p)).
Proof.
  intros Hp Hprog Hf Hfile.
  assert (get_config_name [prog; "--conf"; f] = Ok CONFIG_FILE_NAME) as Hname.
  { apply get_config_name_absent. repeat constructor; [done|by apply not_dashed_not_config]. }
  split; [done|].
  unfold parse_known_args, merged_values. cbn [length Nat.ltb Nat.leb].
  rewrite Hname. cbn [mbind result_bind].
  unfold config_to_list, ConfigParser_read. rewrite Hfile. cbn [mbind result_bind tail app].
  destruct (profile_abbreviation _ _ Hp) as (a & Hopt & Hkind & Hdest).
  unfold ArgParse.parse_known_args, ArgParse.consume.
  rewrite (stores_store_next p "--conf" a (Some Tstr) f []) by done.
  cbn [ArgParse.get_value ArgParse.stores mbind result_bind ArgParse.setattrs foldl fst snd].
  rewrite Hdest. apply convert_defaults_plain. by eapply profile_plain_defaults.
Qed.

End Abbreviation.

Lemma abbreviated_config_not_read_witness :
  get_config_name ["dmm"; "--conf"; "my.conf"] = Ok CONFIG_FILE_NAME
  ∧ parse_known_args mono_parser false ["dmm"; "--conf"; "my.conf"]
      {[ "my.conf" := Garbled ]}
    = Ok (<["config" := PyStr "my.conf"]> (ArgParse.defaults mono_parser)).
Proof.
  apply (abbreviated_config_not_read MONO_PARAMS mono_parser "dmm" "my.conf"
           {[ "my.conf" := Garbled ]});
    reflexivity.
Defined.

(** ** The tokens of a config file *)

Section LoaderTokens.
Context `{Runtime}.

Lemma option_tokens_plain name o value :
  opt_nargs o = None →
  option_tokens name o value
  = if skipped value then []
    else if bool_decide (opt_action o = Some "store_true")
         then (if String.eqb value "True" then ["--" +:+ name] else [])
         else ["--" +:+ name +:+ "=" +:+ value].
Proof.
  intros Hn. unfold option_tokens, skipped. rewrite Hn.
  destruct (String.eqb value ""); [done|]. destruct (String.eqb value "None"); [done|].
  cbn [negb andb orb]. case_bool_decide; cbn [negb andb]; [|done].
  destruct (String.eqb value "True"); done.
Qed.

Lemma read_cases fs config_name files config :
  ConfigParser_read fs config_name = Ok (files, config) →
  (files = [] ∧ config = ConfigParser.empty) ∨ files = [config_name].
Proof.
  unfold ConfigParser_read. destruct (fs !! config_name) as [[|lines]|]; [done| |].
  - case_decide; [|done]. intros [= <- <-]; auto.
  - intros [= <- <-]; auto.
Qed.

(** With every stored schema option got, [config_to_list] returns the
    tokens of the stored schema fields. *)
Lemma config_to_list_stored fs config_name files config :
  ConfigParser_read fs config_name = Ok (files, config) →
  interpolates config →
  config_to_list fs config_name = Ok (schema_fields ≫= stored_tokens config).
Proof.
  intros Hread Hget. destruct (read_cases _ _ _ _ Hread) as [[-> ->]| ->].
  - unfold config_to_list. rewrite Hread. reflexivity.
  - by eapply config_to_list_read.
Qed.

(** What [config_to_list] returns, when it returns. *)
Lemma config_to_list_returned fs config_name files config tokens :
  ConfigParser_read fs config_name = Ok (files, config) →
  config_to_list fs config_name = Ok tokens →
  tokens = schema_fields ≫= stored_tokens config.
Proof.
  intros Hread Htokens. destruct (read_cases _ _ _ _ Hread) as [[-> ->]| ->].
  - unfold config_to_list in Htokens. rewrite Hread in Htokens.
    injection Htokens as <-. reflexivity.
  - pose proof (config_to_list_got _ _ _ _ _ _ Hread Htokens) as Hget.
    rewrite (config_to_list_read _ _ _ _ _ Hread Hget) in Htokens. congruence.
Qed.




(** X7: once the file has been read and every schema option it stores
    can be got (its value expands without an interpolation error),
    [config_to_list] returns without raising, with at most one token for
    each of the seven schema fields. *)
Theorem config_to_list_returns (fs : filesystem) (config_name : string)
    (files : list string) (config : ConfigParser.t) :
  ConfigParser_read fs config_name = Ok (files, config) →
  interpolates config →
  ∃ tokens, config_to_list fs config_name = Ok tokens ∧ (length tokens ≤ 7)%nat.
Proof.
  intros Hread Hget. eexists. split; [by eapply config_to_list_stored|].
  assert (∀ l : list (string * (string * opts)),
            Forall plain_field l →
            (length (l ≫= stored_tokens config) ≤ length l)%nat) as Hlen.
  { induction 1 as [|[section [name o]] l (_ & _ & Hn & _) _ IH]; [done|].
    rewrite bind_cons, length_app, length_cons.
    unfold stored_tokens at 1. cbn [fst snd] in *.
    destruct (stored config section name) as [value|]; [|simpl; lia].
    rewrite option_tokens_plain by done. repeat case_match; simpl; lia. }
  etrans; [apply Hlen|done].
  apply Forall_forall. intros sf Hsf. by apply schema_fields_plain.
Qed.

(** X8: the tokens [config_to_list] returns are exactly those of the
    schema fields the file stores with a value, as [config.get] expands
    it, other than the empty string and [None]: [--name] for a flag whose
    value is [True], [--name=value] for a field that is no flag.  Options
    the schema does not know give no token. *)
Theorem config_to_list_tokens (fs : filesystem) (config_name : string)
    (files : list string) (config : ConfigParser.t) (tokens : list string)
    (t : string) :
  ConfigParser_read fs config_name = Ok (files, config) →
  config_to_list fs config_name = Ok tokens →
  t ∈ tokens ↔
  ∃ section name o value,
    (section, (name, o)) ∈ schema_fields
    ∧ stored config section name = Some value ∧ skipped value = false
    ∧ if bool_decide (opt_action o = Some "store_true")
      then value = "True" ∧ t = "--" +:+ name
      else t = "--" +:+ name +:+ "=" +:+ value.
Proof.
  intros Hread Htokens. rewrite (config_to_list_returned _ _ _ _ _ Hread Htokens).
  clear Htokens. rewrite list_elem_of_bind. split.
  - intros ([section [name o]] & Ht & Hsf). exists section, name, o.
    destruct (schema_fields_plain _ Hsf) as (_ & _ & Hn & _). cbn [fst snd] in Hn.
    unfold stored_tokens in Ht. cbn [fst snd] in Ht.
    destruct (stored config section name) as [value|]; [|by apply elem_of_nil in Ht].
    exists value. rewrite option_tokens_plain in Ht by done.
    destruct (skipped value); [by apply elem_of_nil in Ht|].
    split_and!; [done..|]. case_bool_decide.
    + destruct (String.eqb value "True") eqn:E; [|by apply elem_of_nil in Ht].
      apply String.eqb_eq in E. by apply list_elem_of_singleton in Ht.
    + by apply list_elem_of_singleton in Ht.
  - intros (section & name & o & value & Hsf & Hstored & Hskip & Ht).
    exists (section, (name, o)). split; [|done].
    destruct (schema_fields_plain _ Hsf) as (_ & _ & Hn & _). cbn [fst snd] in Hn.
    unfold stored_tokens. cbn [fst snd]. rewrite Hstored, option_tokens_plain, Hskip by done.
    case_bool_decide.
    + destruct Ht as [-> ->]. by apply list_elem_of_singleton.
    + by apply list_elem_of_singleton.
Qed.



End LoaderTokens.

Lemma sample_config_interpolates : interpolates sample_config.
Proof. apply valid_config_interpolates, sample_config_valid. Qed.

Lemma config_to_list_returns_witness :
  ∃ tokens,
    config_to_list sample_file "/home/user/logs/dmm.conf" = Ok tokens
    ∧ (length tokens ≤ 7)%nat.
Proof.
  apply (config_to_list_returns sample_file "/home/user/logs/dmm.conf"
           ["/home/user/logs/dmm.conf"] sample_config);
    [reflexivity | exact sample_config_interpolates].
Defined.

Lemma config_to_list_tokens_witness :
  "--energy=20" ∈ ["--logs-home=/data/logs"; "--verbose"; "--energy=20"] ↔
  ∃ section name o value,
    (section, (name, o)) ∈ schema_fields
    ∧ stored sample_config section name = Some value ∧ skipped value = false
    ∧ if bool_decide (opt_action o = Some "store_true")
      then value = "True" ∧ "--energy=20" = "--" +:+ name
      else "--energy=20" = "--" +:+ name +:+ "=" +:+ value.
Proof.
  apply (config_to_list_tokens sample_file "/home/user/logs/dmm.conf"
           ["/home/user/logs/dmm.conf"] sample_config
           ["--logs-home=/data/logs"; "--verbose"; "--energy=20"] "--energy=20");
    reflexivity.
Defined.


Example sample_file_flags :
  config_to_list sample_file "/home/user/logs/dmm.conf"
  = Ok ["--logs-home=/data/logs"; "--verbose"; "--energy=20"]
  ∧ stored sample_config "general" "verbose" = Some "True"
  ∧ stored sample_config "general" "testing" = Some "False"
  ∧ stored sample_config "general" "force" = None.
Proof. repeat split; reflexivity. Qed.


Example percent_file_raises :
  config_to_list percent_file "/home/user/logs/dmm.conf" = Raise InterpolationSyntaxError
  ∧ config_to_list reference_file "/home/user/logs/dmm.conf"
    = Ok ["--logs-home=/data/logs"].
Proof. split; reflexivity. Qed.

(** ** The profiles and their defaults *)

Section ProfileDefaults.
Context `{Runtime}.

Ltac profile_cases Hp :=
  let Hsecs := fresh in
  pose proof (valid_profiles _ _ Hp) as Hsecs;
  set_unfold in Hsecs;
  destruct Hsecs as [->|[->|[->|[->|[->|[]]]]]];
  cbv -[CONFIG_FILE_NAME LOGS_HOME] in Hp; injection Hp as <-.

(** X9: [Params(sections).add_arguments(parser)] on a fresh parser
    succeeds for the sections [energy] and [energyioc], each at most once,
    in any order, and for nothing else: [general] is always added, so
    naming it registers [--config] twice, and an unknown name is a
    [KeyError]. *)
Theorem add_arguments_profiles (secs : list string) :
  is_ok (add_arguments (Params_init secs) ArgParse.ArgumentParser) = true
  ↔ secs ∈ [ []; ["energy"]; ["energyioc"];
             ["energy"; "energyioc"]; ["energyioc"; "energy"] ].
Proof.
  split.
  - destruct (add_arguments _ _) as [p|] eqn:Hp; [|done]. intros _.
    by apply (valid_profiles secs p).
  - intros Hsecs. set_unfold in Hsecs. destruct_or!; subst secs; reflexivity.
Qed.

(** X10: for a profile [add_arguments] accepts, [get_defaults] returns the
    namespace that holds, for every field of [general] and of the sections
    of the profile, the schema default under the attribute name (dashes
    turned into underscores), and nothing else. *)
Theorem get_defaults_profile (secs : list string) (p : ArgParse.parser) :
  profile_parser secs = Ok p →
  get_defaults (Params_init secs)
  = Ok (list_to_map (section_defaults (secs ++ ["general"]))).
Proof.
  intros Hp. unfold get_defaults. fold (profile_parser secs). rewrite Hp.
  cbn [mbind result_bind]. unfold ArgParse.parse_known_args, ArgParse.consume.
  cbn [ArgParse.stores mbind result_bind ArgParse.setattrs foldl].
  rewrite convert_defaults_plain by (by eapply profile_plain_defaults).
  f_equal. profile_cases Hp; reflexivity.
Qed.

End ProfileDefaults.

Lemma get_defaults_profile_witness :
  get_defaults (Params_init PINK_PARAMS)
  = Ok (list_to_map (section_defaults (PINK_PARAMS ++ ["general"]))).
Proof.
  apply (get_defaults_profile PINK_PARAMS
           (match profile_parser PINK_PARAMS with Ok p => p | Raise _ => [] end)).
  reflexivity.
Defined.

Example get_defaults_pink :
  (ns ← get_defaults (Params_init PINK_PARAMS);
   Ok (ns !! "energyioc_prefix", ns !! "logs_home", ns !! "verbose", ns !! "energy"))
  = Ok (Some (PyStr "2bm:MCTOptics:"), Some (PyStr "/home/user/logs"),
        Some (PyBool false), None).
Proof. reflexivity. Qed.

(** ** Writing a file and reading it again *)

Section SaveAndLoad.
Context `{Runtime}.

Lemma contains_cons c c' s :
  PyStr.contains c (String c' s) = false →
  Ascii.eqb c c' = false ∧ PyStr.contains c s = false.
Proof. simpl. apply orb_false_elim. Qed.

Ltac not_percent c Hc :=
  destruct c as [[|] [|] [|] [|] [|] [|] [|] [|]]; try (by vm_compute in Hc).

Lemma drop_escaped_plain v :
  PyStr.contains "%" v = false → ConfigParser.drop_escaped v = v.
Proof.
  induction v as [|c v IH]; [done|]. intros [Hc Hv]%contains_cons.
  specialize (IH Hv). not_percent c Hc; cbn [ConfigParser.drop_escaped]; by rewrite IH.
Qed.

Lemma key_reference_plain c rest :
  Ascii.eqb "%" c = false → ConfigParser.key_reference (String c rest) = None.
Proof. intros Hc. not_percent c Hc; reflexivity. Qed.

Lemma drop_references_plain turns v :
  PyStr.contains "%" v = false → ConfigParser.drop_references turns v = v.
Proof.
  revert v. induction turns as [|turns IH]; intros v Hv; [by destruct v|].
  destruct v as [|c v]; [done|]. apply contains_cons in Hv as [Hc Hv].
  cbn [ConfigParser.drop_references]. rewrite key_reference_plain by done.
  by rewrite IH.
Qed.

(** A text without a percent sign passes the check of [config.set]. *)
Lemma valid_syntax_plain v :
  PyStr.contains "%" v = false → ConfigParser.valid_syntax v = true.
Proof.
  intros Hv. unfold ConfigParser.valid_syntax.
  rewrite drop_escaped_plain, drop_references_plain by done. by rewrite Hv.
Qed.

(** A text without a percent sign expands to itself. *)
Lemma interpolate_some_plain depth_left lookup v :
  PyStr.contains "%" v = false →
  ConfigParser.interpolate_some (S depth_left) lookup v = Ok v.
Proof.
  intros Hv. cbn [ConfigParser.interpolate_some].
  set (turns := String.length v).
  assert (String.length v ≤ turns)%nat as Hturns by done. clearbody turns.
  revert turns Hturns. induction v as [|c v IH]; intros turns Hturns; [by destruct turns|].
  destruct turns as [|turns]; [simpl in Hturns; lia|].
  apply contains_cons in Hv as [Hc Hv].
  specialize (IH Hv turns ltac:(simpl in Hturns; lia)).
  not_percent c Hc; by rewrite IH.
Qed.

Lemma lower_char_idemp c : PyStr.lower_char (PyStr.lower_char c) = PyStr.lower_char c.
Proof. destruct c as [[|] [|] [|] [|] [|] [|] [|] [|]]; reflexivity. Qed.

Lemma optionxform_idemp s :
  ConfigParser.optionxform (ConfigParser.optionxform s) = ConfigParser.optionxform s.
Proof.
  unfold ConfigParser.optionxform, PyStr.lower.
  induction s as [|c s IH]; [done|]. cbn [PyStr.map_chars].
  by rewrite lower_char_idemp, IH.
Qed.

Lemma drop_comments_lookup lines k :
  drop_comments lines !! k = if is_comment k then None else lines !! k.
Proof.
  unfold drop_comments. rewrite map_lookup_filter.
  destruct (lines !! k) as [v|]; cbn; [|by destruct (is_comment k)].
  destruct (is_comment k) eqn:E.
  - by rewrite option_guard_False by (cbn; congruence).
  - by rewrite option_guard_True.
Qed.

(** Lines whose names are in lower case are read as they are. *)
Lemma read_lines_lower lines :
  (∀ k v, lines !! k = Some v → ConfigParser.optionxform k = k) →
  read_lines lines = map_to_list (drop_comments lines).
Proof.
  intros Hk. unfold read_lines.
  rewrite <- (list_fmap_id (map_to_list (drop_comments lines))) at 2.
  apply list_fmap_ext. intros i [k v] Hi. cbn [fst snd id]. f_equal.
  apply list_elem_of_lookup_2, elem_of_map_to_list in Hi.
  rewrite drop_comments_lookup in Hi. destruct (is_comment k); [done|]. by eapply Hk.
Qed.

Lemma distinct_lower lines :
  (∀ k v, lines !! k = Some v → ConfigParser.optionxform k = k) →
  distinct_options lines.
Proof.
  intros Hk. unfold distinct_options. rewrite read_lines_lower by done.
  apply NoDup_fst_map_to_list.
Qed.

Lemma read_options_lower lines :
  (∀ k v, lines !! k = Some v → ConfigParser.optionxform k = k) →
  read_options lines = drop_comments lines.
Proof.
  intros Hk. unfold read_options. rewrite read_lines_lower by done.
  apply list_to_map_to_list.
Qed.

Lemma section_lines_lower args sections sf k v :
  section_lines args sections sf !! k = Some v → ConfigParser.optionxform k = k.
Proof.
  unfold section_lines. intros Hk.
  destruct (decide (k ∈ (written_lines args sections sf.1 sf.2).*1)) as [Hin|Hout];
    [|by rewrite set_lines_not_in in Hk].
  apply list_elem_of_fmap in Hin as ([k' v'] & -> & Hin). cbn [fst].
  unfold written_lines in Hin. apply list_elem_of_fmap in Hin as (field & [= -> _] & _).
  apply optionxform_idemp.
Qed.

(** Reading the file [write] has produced. *)
Lemma read_written args sections config fs config_file :
  written_config args sections = Ok config →
  ConfigParser_read (<[config_file := Ini config]> fs) config_file
  = Ok ([config_file], read_back config)
  ∧ ConfigParser.defaults (read_back config) = ∅
  ∧ ∀ sf, sf ∈ SECTIONS →
      ConfigParser.sections (read_back config) !! sf.1
      = Some (drop_comments (section_lines args sections sf)).
Proof.
  intros Hrun. destruct (written_config_inv _ _ _ Hrun) as (_ & Hd & Hin & Hout).
  split; [|split].
  - unfold ConfigParser_read. rewrite lookup_insert_eq. rewrite decide_True; [done|].
    split.
    + apply distinct_lower. intros k v. by rewrite Hd.
    + intros s lines Hs.
      destruct (decide (s ∈ SECTIONS.*1)) as [Hsec|Hsec];
        [|by rewrite (Hout _ Hsec) in Hs].
      apply list_elem_of_fmap in Hsec as (sf & -> & Hsf).
      rewrite (Hin _ Hsf) in Hs. injection Hs as <-.
      apply distinct_lower. apply section_lines_lower.
  - unfold read_back. cbn [ConfigParser.defaults]. rewrite read_options_lower.
    + rewrite Hd. apply map_eq. intros k. by rewrite drop_comments_lookup, lookup_empty, Tauto.if_same.
    + intros k v. by rewrite Hd.
  - intros sf Hsf. unfold read_back. cbn [ConfigParser.sections].
    rewrite lookup_fmap, (Hin _ Hsf). cbn [fmap option_fmap option_map]. f_equal.
    apply read_options_lower, section_lines_lower.
Qed.

Lemma plain_values_percent_free args sections :
  plain_values args sections → percent_free args sections.
Proof.
  intros Hplain section name o Hsf _. specialize (Hplain section name o Hsf).
  unfold plain_text in Hplain.
  apply andb_true_iff in Hplain as [Hplain _]. apply andb_true_iff in Hplain as [Hplain _].
  apply andb_true_iff in Hplain as [Hplain _]. by apply negb_true_iff in Hplain.
Qed.

(** Values without a percent sign pass the check of [config.set]. *)
Lemma percent_free_writable args sections :
  percent_free args sections → writable args sections = true.
Proof.
  intros Hfree. unfold writable. apply forallb_forall. intros [section fields] Hsf.
  apply list_elem_of_In in Hsf.
  unfold writable_fields. cbn [fst snd]. apply forallb_forall. intros [k v] Hkv.
  apply list_elem_of_In in Hkv. unfold written_lines in Hkv.
  apply list_elem_of_fmap in Hkv as ([name o] & [= -> ->] & Hfield).
  apply list_elem_of_filter in Hfield as [Hne Hfield]. cbn [fst snd] in *.
  apply valid_syntax_plain, Hfree; [|done].
  apply elem_of_schema_fields. eauto.
Qed.

(** The line of a schema field in the table [write] builds. *)
Lemma section_lines_lookup args sections section fields name o :
  (section, fields) ∈ SECTIONS → (name, o) ∈ fields →
  section_lines args sections (section, fields) !! name
  = if String.eqb name "config"
       || py_eq_str (written_value args sections section name o) ""
    then None
    else Some (py_str (written_value args sections section name o)).
Proof.
  intros Hsf Hfield. unfold section_lines. cbn [fst snd].
  destruct (String.eqb_spec name "config") as [->|Hne]; cbn [orb].
  - rewrite set_lines_not_in; [done|].
    unfold SECTIONS in Hsf; set_unfold in Hsf.
    destruct_or!; simplify_eq; unfold written_lines, written_line; simpl.
    all: repeat (match goal with |- context [py_eq_str ?v ""] => destruct (py_eq_str v "") end).
    all: apply (bool_decide_unpack _); by vm_compute.
  - pose proof (written_lines_NoDup args sections _ Hsf) as Hnd.
    pose proof (written_line_in args sections section _ _ _ Hfield Hne) as Hline.
    unfold written_line in Hline. simpl in Hline, Hnd.
    rewrite (schema_names_lower _ _ _ _ _ Hsf Hfield) in Hline.
    destruct (py_eq_str _ "") eqn:Hempty.
    + rewrite set_lines_not_in; [done|]. clear Hline Hnd.
      unfold SECTIONS in Hsf. set_unfold in Hsf.
      destruct_or!; simplify_eq; set_unfold in Hfield; destruct_or!; simplify_eq.
      all: unfold written_lines, written_line; simpl; rewrite ?Hempty.
      all: repeat (match goal with |- context [py_eq_str ?v ""] => destruct (py_eq_str v "") end).
      all: apply (bool_decide_unpack _); by vm_compute.
    + erewrite set_lines_in; [done|done|exact Hline].
Qed.

Lemma schema_field_names section name o :
  (section, (name, o)) ∈ schema_fields →
  section ≠ "" ∧ section ≠ "DEFAULT" ∧ ConfigParser.optionxform name = name
  ∧ is_comment name = false.
Proof.
  intros Hsf. unfold schema_fields, SECTIONS in Hsf. simpl in Hsf. set_unfold in Hsf.
  destruct_or!; try done; injection Hsf as -> -> ->; done.
Qed.

(** What the file [write] produces stores for a schema field when it is
    read again. *)
Lemma written_stored args sections config section name o :
  written_config args sections = Ok config →
  (section, (name, o)) ∈ schema_fields →
  (name ≠ "config" →
   PyStr.contains "%" (py_str (written_value args sections section name o)) = false) →
  stored (read_back config) section name
  = if String.eqb name "config"
       || py_eq_str (written_value args sections section name o) ""
    then None
    else Some (py_str (written_value args sections section name o)).
Proof.
  intros Hrun Hsf Hfree.
  destruct (read_written args sections config ∅ "" Hrun) as (_ & Hd & Hin).
  destruct (schema_field_names _ _ _ Hsf) as (Hs1 & Hs2 & Hlower & Hcomment).
  apply elem_of_schema_fields in Hsf as (fields & Hsf & Hfield).
  pose proof (section_lines_lookup args sections _ _ _ _ Hsf Hfield) as Hline.
  specialize (Hin _ Hsf). cbn [fst] in Hin.
  unfold stored, ConfigParser.has_option, ConfigParser.get, ConfigParser.unify_values.
  apply String.eqb_neq in Hs1, Hs2. rewrite Hs1, Hs2. cbn [orb].
  rewrite Hin, Hd, Hlower. cbn [mbind result_bind].
  rewrite !drop_comments_lookup, Hcomment, Hline, lookup_empty.
  destruct (String.eqb_spec name "config") as [->|Hne]; cbn [orb].
  - by rewrite bool_decide_false by (by intros [? ?]).
  - destruct (py_eq_str _ "").
    + by rewrite bool_decide_false by (by intros [? ?]).
    + rewrite bool_decide_true by eauto. cbn [orb].
      unfold ConfigParser.MAX_INTERPOLATION_DEPTH.
      by rewrite interpolate_some_plain by auto.
Qed.

Lemma written_interpolates args sections config :
  written_config args sections = Ok config → percent_free args sections →
  interpolates (read_back config).
Proof.
  intros Hrun Hfree section name o Hsf Hhas.
  pose proof (written_stored args sections config section name o Hrun Hsf
                (Hfree section name o Hsf)) as Hstored.
  unfold stored in Hstored. rewrite Hhas in Hstored.
  destruct (ConfigParser.get _ _ _); [done|].
  destruct (_ || _) eqn:E; [|done].
  exfalso. revert Hhas.
  destruct (read_written args sections config ∅ "" Hrun) as (_ & Hd & Hin).
  destruct (schema_field_names _ _ _ Hsf) as (Hs1 & Hs2 & Hlower & Hcomment).
  apply elem_of_schema_fields in Hsf as (fields & Hsf & Hfield).
  pose proof (section_lines_lookup args sections _ _ _ _ Hsf Hfield) as Hline.
  specialize (Hin _ Hsf). cbn [fst] in Hin.
  unfold ConfigParser.has_option.
  apply String.eqb_neq in Hs1, Hs2. rewrite Hs1, Hs2. cbn [orb].
  rewrite Hin, Hd, Hlower, !drop_comments_lookup, Hcomment, Hline, E, lookup_empty.
  by rewrite bool_decide_false by (by intros [? ?]).
Qed.

Lemma written_tokens args sections config :
  written_config args sections = Ok config → percent_free args sections →
  schema_fields ≫= stored_tokens (read_back config) = saved_tokens args sections.
Proof.
  intros Hrun Hfree. unfold saved_tokens.
  assert (∀ l : list (string * (string * opts)),
            (∀ sf, sf ∈ l → sf ∈ schema_fields) →
            l ≫= stored_tokens (read_back config)
            = l ≫= (λ '(section, (name, o)),
                     if String.eqb name "config" then []
                     else option_tokens name o
                            (py_str (written_value args sections section name o))))
    as Hl; [|by apply Hl].
  induction l as [|[section [name o]] l IH]; intros Hin; [done|].
  rewrite !bind_cons, IH by (intros; apply Hin; by right). f_equal.
  unfold stored_tokens. cbn [fst snd].
  rewrite (written_stored args sections config section name o)
    by (done || (apply Hin; left) || (apply Hfree, Hin; left)).
  destruct (String.eqb name "config"); [done|]. cbn [orb].
  destruct (py_eq_str _ "") eqn:Hempty; [|done].
  destruct (written_value _ _ _ _ _) as [| | | |s|]; try done.
  apply String.eqb_eq in Hempty as ->. done.
Qed.

Lemma write_read config_file args sections fs :
  percent_free args sections →
  ∃ config,
    written_config args sections = Ok config
    ∧ write config_file args sections fs = Ok (<[config_file := Ini config]> fs)
    ∧ ConfigParser_read (<[config_file := Ini config]> fs) config_file
      = Ok ([config_file], read_back config)
    ∧ config_to_list (<[config_file := Ini config]> fs) config_file
      = Ok (saved_tokens args sections).
Proof.
  intros Hfree.
  destruct (written_config_Ok args sections (percent_free_writable _ _ Hfree))
    as (config & Hrun & _).
  exists config. split; [done|].
  split; [unfold write; by rewrite Hrun|].
  destruct (read_written args sections config fs config_file Hrun) as (Hread & _).
  split; [done|].
  rewrite (config_to_list_read _ _ config_file [] (read_back config))
    by (done || by eapply written_interpolates).
  f_equal. by apply written_tokens.
Qed.


Lemma string_length_app a b :
  String.length (a +:+ b) = (String.length a + String.length b)%nat.
Proof. induction a as [|c a IH]; simpl; [done|]. by rewrite IH. Qed.

Lemma LOGS_HOME_not_skipped : skipped LOGS_HOME = false.
Proof.
  assert (LOGS_HOME = "logs" ∨ (4 < String.length LOGS_HOME)%nat) as [->|Hlen]; [|done|].
  - unfold LOGS_HOME, PyStr.path_join. cbn [PyStr.startswith String.prefix].
    change (if ascii_dec "/" "l" then _ else false) with false. cbn match.
    destruct home as [|c h]; [by left|]. right.
    change (String.eqb (String c h) "") with false. cbn match.
    destruct (String.eqb _ "/"); rewrite ?string_length_app; simpl; lia.
  - unfold skipped.
    destruct (String.eqb_spec LOGS_HOME "") as [E|_]; [rewrite E in Hlen; simpl in Hlen; lia|].
    destruct (String.eqb_spec LOGS_HOME "None") as [E|_]; [rewrite E in Hlen; simpl in Hlen; lia|].
    done.
Qed.

(** X12: a file of defaults, written by [write] without a parameter set,
    gives three tokens when [config_to_list] reads it: the log directory,
    the energy [-1] and the IOC prefix; the flags, all [False], give
    none. *)
Theorem default_file_tokens (config_file : string) (sections : option (list string))
    (fs : filesystem) :
  plain_text LOGS_HOME = true →
  ∃ fs', write config_file None sections fs = Ok fs'
         ∧ config_to_list fs' config_file
           = Ok [ "--logs-home=" +:+ LOGS_HOME; "--energy=-1";
                  "--energyioc-prefix=2bm:MCTOptics:" ].
Proof.
  intros Hplain.
  assert (percent_free None sections) as Hfree.
  { intros section name o Hsf Hne. apply andb_true_iff in Hplain as [Hplain _].
    apply andb_true_iff in Hplain as [Hplain _]. apply andb_true_iff in Hplain as [Hplain _].
    apply negb_true_iff in Hplain.
    unfold schema_fields, SECTIONS in Hsf. simpl in Hsf. set_unfold in Hsf.
    destruct_or!; try done; injection Hsf as -> -> ->; done. }
  destruct (write_read config_file None sections fs Hfree) as (config & _ & Hw & _ & Hc).
  eexists. split; [exact Hw|]. rewrite Hc. f_equal.
  unfold saved_tokens, schema_fields, SECTIONS. cbn [mbind list_bind fmap list_fmap app].
  cbn [String.eqb Ascii.eqb Bool.eqb]. cbn [written_value opt_default py_str].
  unfold option_tokens at 1. fold (skipped LOGS_HOME). 
  pose proof LOGS_HOME_not_skipped as Hs. unfold skipped in Hs.
  apply orb_false_elim in Hs as [-> ->]. reflexivity.
Qed.

End SaveAndLoad.

(** ** Saving the parameter set *)

Section SavedParams.
Context `{Runtime}.

Ltac profile_cases Hp :=
  let Hsecs := fresh in
  pose proof (valid_profiles _ _ Hp) as Hsecs;
  set_unfold in Hsecs;
  destruct Hsecs as [->|[->|[->|[->|[->|[]]]]]];
  cbv -[CONFIG_FILE_NAME LOGS_HOME] in Hp; injection Hp as <-.

(** X13: [save_params_to_config] writes the default config file, logs one
    record and leaves the parameter set alone; whatever the parameter set
    holds, the [general] section of the file has the compiled-in defaults:
    the log directory and the three flags are not saved. *)
Theorem save_params_to_config_general (fs : filesystem) (st : state) :
  plain_values (Some (st_dict st)) (Some MONO_PARAMS) →
  ∃ config,
    save_params_to_config fs st
    = (Ok (<[CONFIG_FILE_NAME := Ini config]> fs),
       {| st_dict := st_dict st;
          st_log := st_log st
                    ++ [(INFO, "  *** saved to " +:+ CONFIG_FILE_NAME +:+ " ")] |})
    ∧ ConfigParser.sections config !! "general"
      = Some {[ "logs-home" := LOGS_HOME; "verbose" := "False";
                "testing" := "False"; "force" := "False" ]}.
Proof.
  intros Hplain.
  destruct (written_config_Ok (Some (st_dict st)) (Some MONO_PARAMS)
              (percent_free_writable _ _ (plain_values_percent_free _ _ Hplain)))
    as (config & Hrun & _ & Hin & _).
  exists config. split.
  - unfold save_params_to_config, write, mbind at 1, M_bind, get_dict.
    rewrite Hrun. reflexivity.
  - specialize (Hin ("general", _) ltac:(left)). cbn [fst] in Hin. rewrite Hin. f_equal.
    unfold section_lines, written_lines, written_line. cbn [fst snd].
    pose proof LOGS_HOME_not_skipped as Hs. unfold skipped in Hs.
    apply orb_false_elim in Hs as [Hs _].
    clear Hin Hrun. revert Hs. generalize LOGS_HOME. intros [|c L] Hs; [done|].
    by vm_compute.
Qed.

Lemma written_value_default args sections section name o :
  (∀ secs, sections = Some secs → section ∉ secs) →
  written_value args sections section name o
  = match opt_default o with
    | PyNone => PyStr ""
    | d => d
    end.
Proof.
  intros Hs. unfold written_value. destruct args as [a|]; [|done].
  destruct sections as [[|s secs]|]; [done| |done].
  rewrite bool_decide_false; [done|]. by apply (Hs (s :: secs)).
Qed.

Lemma written_value_selected a secs section name o v :
  section ∈ secs → a !! PyStr.replace_char "-" "_" name = Some v →
  written_value (Some a) (Some secs) section name o
  = match v with
    | PyList l => PyStr (PyStr.join ", " l)
    | _ => v
    end.
Proof.
  intros Hs Ha. unfold written_value. destruct secs as [|s secs]; [by apply elem_of_nil in Hs|].
  rewrite bool_decide_true by done. rewrite Ha. by destruct v.
Qed.

Lemma general_not_saved secs : Some MONO_PARAMS = Some secs → "general" ∉ secs.
Proof. intros [= <-]. unfold MONO_PARAMS. set_solver. Qed.

(** [float] does not read the separator. *)
Lemma float_text_not_separator (x : pyfloat) :
  float_of_str (str_of_float x) = Some x → String.eqb (str_of_float x) "--" = false.
Proof.
  intros Hx. apply String.eqb_neq. intros Heq. rewrite Heq, float_of_separator in Hx.
  discriminate Hx.
Qed.

(** The parser reads every value of the saved file that is no flag. *)
Lemma saved_config_read (a : namespace) (x : pyfloat) config section name o value :
  a !! "energy" = Some (PyFloat x) →
  float_of_str (str_of_float x) = Some x →
  written_config (Some a) (Some MONO_PARAMS) = Ok config →
  percent_free (Some a) (Some MONO_PARAMS) →
  (section, (name, o)) ∈ schema_fields →
  stored (read_back config) section name = Some value →
  opt_action o ≠ Some "store_true" →
  is_ok (ArgParse.get_values (opt_type o) value) = true.
Proof.
  intros Ha Hx Hrun Hfree Hsf.
  rewrite (written_stored _ _ _ _ _ _ Hrun Hsf (Hfree _ _ _ Hsf)). clear Hrun Hfree.
  unfold ArgParse.get_values.
  unfold schema_fields, SECTIONS in Hsf. simpl in Hsf. set_unfold in Hsf.
  destruct_or!; try (exfalso; exact Hsf); injection Hsf as -> -> ->;
    try (by intros _ []).
  all: cbn [String.eqb Ascii.eqb Bool.eqb orb opt_type].
  - intros _ _. by destruct (String.eqb value "--").
  - rewrite (written_value_selected _ _ _ _ _ (PyFloat x));
      [|unfold MONO_PARAMS; left|exact Ha].
    destruct (py_eq_str _ ""); intros [= <-] _.
    cbn [opt_type py_str ArgParse.get_value].
    rewrite float_text_not_separator, Hx by done. done.
  - intros _ _. by destruct (String.eqb value "--").
Qed.

(** X14: the energy [save_params_to_config] saves is the energy the next
    run starts from: [parse_known_args], on a command line that names no
    config file and sets no energy, then returns a parameter set with the
    energy of the one that was saved, provided [float] reads back what
    [str] prints for it. *)
Theorem saved_energy_is_loaded (secs : list string) (p : ArgParse.parser)
    (fs : filesystem) (st : state) (x : pyfloat) (prog : string)
    (rest : list string) (from_argv : list (string * pyvalue)) :
  profile_parser secs = Ok p → "energy" ∈ secs → "energyioc" ∈ secs →
  st_dict st !! "energy" = Some (PyFloat x) →
  float_of_str (str_of_float x) = Some x → skipped (str_of_float x) = false →
  plain_values (Some (st_dict st)) (Some MONO_PARAMS) →
  Forall not_config (prog :: rest) → rest ≠ [] →
  ArgParse.stores p rest = Ok from_argv → last_store "energy" from_argv = None →
  ∃ fs' st' ns,
    save_params_to_config fs st = (Ok fs', st')
    ∧ parse_known_args p false (prog :: rest) fs' = Ok ns
    ∧ ns !! "energy" = Some (PyFloat x).
Proof.
  intros Hp He Hi Ha Hx Hskip Hfree%plain_values_percent_free Hargv Hrest Hstores Hlast.
  destruct (write_read CONFIG_FILE_NAME (Some (st_dict st)) (Some MONO_PARAMS) fs Hfree)
    as (config & Hrun & Hw & Hread & Hc).
  destruct (full_profile _ _ Hp He Hi) as [Hplain Hfields].
  exists (<[CONFIG_FILE_NAME := Ini config]> fs). eexists. eexists.
  split.
  { unfold save_params_to_config, mbind at 1, M_bind, get_dict. rewrite Hw. reflexivity. }
  assert (parse_known_args p false (prog :: rest) (<[CONFIG_FILE_NAME := Ini config]> fs)
          = Ok (ArgParse.setattrs
                  ((schema_fields ≫= field_stores (read_back config)) ++ from_argv)
                  (ArgParse.defaults p))) as ->.
  { unfold parse_known_args, merged_values.
    assert ((1 <? length (prog :: rest))%nat = true) as ->
      by (destruct rest; [done|reflexivity]).
    rewrite (get_config_name_absent _ Hargv). cbn [mbind result_bind].
    pose proof (config_tokens_self_contained _ _ _ _ _ Hp Hc) as Hsc.
    rewrite Hc. cbn [mbind result_bind app tail].
    unfold ArgParse.parse_known_args, ArgParse.consume.
    rewrite (stores_app p _ rest Hsc), Hstores.
    rewrite <- (written_tokens _ _ _ Hrun Hfree).
    rewrite schema_tokens_stores; [|done|].
    - cbn [mbind result_bind]. apply convert_defaults_plain.
      by eapply profile_plain_defaults.
    - intros section name o Hsf. split; [by apply (Hfields section)|].
      split; [by apply schema_fields_plain|]. intros value Hstored _.
      by eapply saved_config_read. }
  split; [done|].
  rewrite setattrs_lookup, last_store_app, Hlast.
  assert (∃ o, ("energy", ("energy", o)) ∈ schema_fields
               ∧ opt_action o = None ∧ opt_type o = Some Tfloat)
    as (o & Hsf & Hact & Hty).
  { eexists. split.
    - apply list_elem_of_In. unfold schema_fields, SECTIONS.
      cbn [mbind list_bind fmap list_fmap app In]. do 5 right. left. reflexivity.
    - split; reflexivity. }
  pose proof (last_store_fields (read_back config) schema_fields
                ("energy", ("energy", o))) as Hl.
  cbn [fst snd] in Hl.
  change (PyStr.replace_char "-" "_" "energy") with "energy" in Hl.
  rewrite Hl; [|apply (bool_decide_unpack _); by vm_compute|done].
  unfold field_stores.
  rewrite (written_stored _ _ _ _ _ _ Hrun Hsf (Hfree _ _ _ Hsf)).
  rewrite (written_value_selected _ _ _ _ _ (PyFloat x));
    [|unfold MONO_PARAMS; left|exact Ha].
  cbn [String.eqb Ascii.eqb Bool.eqb orb py_eq_str py_str].
  rewrite Hact, Hty. rewrite bool_decide_false by discriminate.
  rewrite Hskip. unfold ArgParse.get_values.
  rewrite float_text_not_separator by done.
  cbn [ArgParse.get_value]. rewrite Hx. cbn. by rewrite decide_True.
Qed.

End SavedParams.

(** ** Save and load on the decimal runtime *)

Section DecimalRuntime.
#[local] Existing Instance decimal_runtime | 0.

Lemma saved_request_plain :
  plain_values (Some (st_dict saved_request)) (Some MONO_PARAMS).
Proof.
  intros section name o Hsf.
  unfold schema_fields, SECTIONS in Hsf. simpl in Hsf. set_unfold in Hsf.
  destruct_or!; try (exfalso; exact Hsf); injection Hsf as -> -> ->; reflexivity.
Qed.

Lemma defaults_plain : plain_values None None.
Proof.
  intros section name o Hsf.
  unfold schema_fields, SECTIONS in Hsf. simpl in Hsf. set_unfold in Hsf.
  destruct_or!; try (exfalso; exact Hsf); injection Hsf as -> -> ->; reflexivity.
Qed.


Example saved_request_tokens :
  saved_tokens (Some (st_dict saved_request)) (Some MONO_PARAMS)
  = ["--logs-home=/home/user/logs"; "--energy=30.0"; "--energyioc-prefix=2bm:MCTOptics:"].
Proof. reflexivity. Qed.

Lemma default_file_tokens_witness :
  ∃ fs', write "new.conf" None None ∅ = Ok fs'
         ∧ config_to_list fs' "new.conf"
           = Ok [ "--logs-home=" +:+ LOGS_HOME; "--energy=-1";
                  "--energyioc-prefix=2bm:MCTOptics:" ].
Proof.
  apply (default_file_tokens "new.conf" None ∅). reflexivity.
Defined.

Lemma save_params_to_config_general_witness :
  ∃ config,
    save_params_to_config ∅ saved_request
    = (Ok (<[CONFIG_FILE_NAME := Ini config]> ∅),
       {| st_dict := st_dict saved_request;
          st_log := st_log saved_request
                    ++ [(INFO, "  *** saved to " +:+ CONFIG_FILE_NAME +:+ " ")] |})
    ∧ ConfigParser.sections config !! "general"
      = Some {[ "logs-home" := LOGS_HOME; "verbose" := "False";
                "testing" := "False"; "force" := "False" ]}.
Proof.
  apply (save_params_to_config_general ∅ saved_request).
  exact saved_request_plain.
Defined.

Lemma saved_energy_is_loaded_witness :
  ∃ fs' st' ns,
    save_params_to_config ∅ saved_request = (Ok fs', st')
    ∧ parse_known_args decimal_parser false ("dmm" :: ["--verbose"]) fs' = Ok ns
    ∧ ns !! "energy" = Some (PyFloat 30%Z).
Proof.
  apply (saved_energy_is_loaded MONO_PARAMS decimal_parser ∅ saved_request 30%Z "dmm"
           ["--verbose"] [("verbose", PyBool true)]);
    [reflexivity | by left | by right; left | reflexivity | reflexivity | reflexivity
    | exact saved_request_plain | repeat constructor | discriminate | reflexivity
    | reflexivity].
Defined.

End DecimalRuntime.

(** ** Saving the beamline positions *)

Section OsPathProperties.

Lemma substring_drop n p : String.substring 0 n p +:+ PyStr.drop n p = p.
Proof.
  revert p. induction n as [|n IH]; intros [|c p]; try done.
  change (String c (String.substring 0 n p +:+ PyStr.drop n p) = String c p).
  f_equal. apply IH.
Qed.

Lemma append_empty p : p +:+ "" = p.
Proof.
  induction p as [|c p IH]; [done|].
  change (String c (p +:+ "") = String c p). by rewrite IH.
Qed.

Lemma append_assoc a b c : (a +:+ b) +:+ c = a +:+ (b +:+ c).
Proof.
  induction a as [|x a IH]; [done|].
  change (String x ((a +:+ b) +:+ c) = String x (a +:+ (b +:+ c))). by rewrite IH.
Qed.

Lemma splitext_loop_app p dotIndex filenameIndex turns :
  (OsPath.splitext_loop p dotIndex filenameIndex turns).1
  +:+ (OsPath.splitext_loop p dotIndex filenameIndex turns).2 = p.
Proof.
  revert filenameIndex. induction turns as [|turns IH]; intros filenameIndex; simpl.
  - apply append_empty.
  - destruct (String.get filenameIndex p) as [c|]; [|apply substring_drop].
    destruct (Ascii.eqb_spec c ".") as [->|Hc]; [apply IH|].
    assert ((match c with "."%char => OsPath.splitext_loop p dotIndex (S filenameIndex) turns
             | _ => (String.substring 0 dotIndex p, PyStr.drop dotIndex p) end)
            = (String.substring 0 dotIndex p, PyStr.drop dotIndex p)) as ->.
    { destruct c as [[] [] [] [] [] [] [] []]; try done. }
    apply substring_drop.
Qed.

(** The two parts [os.path.splitext] returns make up the path. *)
Lemma splitext_app p : (OsPath.splitext p).1 +:+ (OsPath.splitext p).2 = p.
Proof.
  unfold OsPath.splitext. destruct (_ <? _)%Z; [apply splitext_loop_app|].
  apply append_empty.
Qed.

End OsPathProperties.

Section SavedPositions.
Context `{Runtime}.
Variable PV : Type.
Variable init_energy_change_PVs : M (list (string * PV)).
Variable PV_get : PV → result pyvalue.
Variable now : string.

Lemma bind_run {A B} (m : M A) (f : A → M B) (st st1 : state) (a : A) :
  m st = (Ok a, st1) → (m ≫= f) st = f a st1.
Proof. intros Hm. unfold mbind, M_bind. by rewrite Hm. Qed.

Lemma bind_raise {A B} (m : M A) (f : A → M B) (st st1 : state) (e : exn) :
  m st = (Raise e, st1) → (m ≫= f) st = (Raise e, st1).
Proof. intros Hm. unfold mbind, M_bind. by rewrite Hm. Qed.

Lemma read_position_run pvs name st :
  read_position PV PV_get pvs name st
  = match pv_value PV_get pvs name with
    | Ok v => (Ok tt, {| st_dict := <[name := v]> (st_dict st); st_log := st_log st |})
    | Raise e => (Raise e, st)
    end.
Proof.
  unfold read_position, pv_value, getitem, mbind, M_bind.
  destruct (list_find _ pvs) as [[i [k pv]]|]; [|done]. cbn.
  by destruct (PV_get pv).
Qed.

Lemma bind_read_position {B} pvs name st (f : unit → M B) v :
  pv_value PV_get pvs name = Ok v →
  (read_position PV PV_get pvs name ≫= f) st
  = f tt {| st_dict := <[name := v]> (st_dict st); st_log := st_log st |}.
Proof.
  intros Hv. apply bind_run. by rewrite read_position_run, Hv.
Qed.

Lemma read_position_frame pvs name st st' :
  read_position PV PV_get pvs name st = (Ok tt, st') →
  st_log st' = st_log st
  ∧ ∀ k, k ≠ name → st_dict st' !! k = st_dict st !! k.
Proof.
  rewrite read_position_run. destruct (pv_value _ _ _); [|done].
  intros [= <-]. split; [done|]. intros k Hk. cbn. by rewrite lookup_insert_ne.
Qed.

Lemma write_fields_ext args1 args2 sections section config fields :
  (∀ name o, (name, o) ∈ fields →
     written_value args1 sections section name o
     = written_value args2 sections section name o) →
  write_fields args1 sections section config fields
  = write_fields args2 sections section config fields.
Proof.
  revert config. induction fields as [|[name o] fields IH]; intros config Hv; [done|].
  cbn [write_fields]. unfold write_field. rewrite (Hv name o) by left.
  destruct (if negb _ then _ else _) as [config'|]; [|done]. cbn [mbind result_bind].
  apply IH. intros. apply Hv. by right.
Qed.

Lemma write_sections_ext args1 args2 sections config schema :
  (∀ section fields name o, (section, fields) ∈ schema → (name, o) ∈ fields →
     written_value args1 sections section name o
     = written_value args2 sections section name o) →
  write_sections args1 sections config schema
  = write_sections args2 sections config schema.
Proof.
  revert config. induction schema as [|[section fields] schema IH]; intros config Hv; [done|].
  cbn [write_sections]. destruct (ConfigParser.add_section config section) as [c1|]; [|done].
  cbn [mbind result_bind].
  rewrite (write_fields_ext args1 args2) by (intros; eapply Hv; [left|done]).
  destruct (write_fields args2 sections section c1 fields) as [c2|]; [|done].
  cbn [mbind result_bind]. apply IH. intros. eapply Hv; [by right|done].
Qed.

(** [write] looks at the attributes of the schema fields only. *)
Lemma written_config_agree (a a' : namespace) sections :
  (∀ section name o, (section, (name, o)) ∈ schema_fields →
     a' !! PyStr.replace_char "-" "_" name = a !! PyStr.replace_char "-" "_" name) →
  written_config (Some a') sections = written_config (Some a) sections.
Proof.
  intros Ha. unfold written_config. apply write_sections_ext.
  intros section fields name o Hsf Hfield. unfold written_value.
  rewrite (Ha section name o); [done|]. apply elem_of_schema_fields. eauto.
Qed.

Lemma schema_attribute_not_position section name o :
  (section, (name, o)) ∈ schema_fields →
  PyStr.replace_char "-" "_" name ∉ saved_positions.
Proof.
  intros Hsf. unfold schema_fields, SECTIONS in Hsf. simpl in Hsf. set_unfold in Hsf.
  destruct_or!; try (exfalso; exact Hsf); injection Hsf as -> -> ->;
    apply (bool_decide_unpack _); by vm_compute.
Qed.

Lemma set_positions_lookup values a k :
  k ∉ saved_positions → set_positions values a !! k = a !! k.
Proof.
  unfold set_positions. generalize saved_positions. intros names. revert a.
  induction names as [|name names IH]; intros a Hk; [done|].
  apply not_elem_of_cons in Hk as [Hne Hk]. cbn [foldl].
  rewrite IH by done. by rewrite lookup_insert_ne.
Qed.

(** X15: the positions read from the beamline do not reach the file: what
    a call of [save_current_positions_to_config] that returns has written
    is one file, holding what [write] sets for the parameter set as
    [init_energy_change_PVs] left it, for the sections of [MONO_PARAMS]. *)
Theorem positions_not_saved (fs fs' : filesystem) (st st1 st' : state)
    (energy_change_PVs : list (string * PV)) :
  init_energy_change_PVs st = (Ok energy_change_PVs, st1) →
  save_current_positions_to_config PV init_energy_change_PVs PV_get now fs st
  = (Ok fs', st') →
  ∃ config_name config,
    fs' = <[config_name := Ini config]> fs
    ∧ written_config (Some (st_dict st1)) (Some MONO_PARAMS) = Ok config.
Proof.
  intros Hinit Hrun. unfold save_current_positions_to_config in Hrun.
  rewrite (bind_run _ _ _ _ _ Hinit) in Hrun.
  apply M_bind_Ok in Hrun as (? & s0 & E0 & Hrun). apply pure_log_record in E0.
  apply M_bind_Ok in Hrun as ([] & s1 & [_ F1]%read_position_frame & Hrun).
  apply M_bind_Ok in Hrun as ([] & s2 & [_ F2]%read_position_frame & Hrun).
  apply M_bind_Ok in Hrun as ([] & s3 & [_ F3]%read_position_frame & Hrun).
  apply M_bind_Ok in Hrun as ([] & s4 & [_ F4]%read_position_frame & Hrun).
  apply M_bind_Ok in Hrun as ([] & s5 & [_ F5]%read_position_frame & Hrun).
  apply M_bind_Ok in Hrun as ([] & s6 & [_ F6]%read_position_frame & Hrun).
  apply M_bind_Ok in Hrun as ([] & s7 & [_ F7]%read_position_frame & Hrun).
  apply M_bind_Ok in Hrun as ([] & s8 & [_ F8]%read_position_frame & Hrun).
  apply M_bind_Ok in Hrun as ([] & s9 & [_ F9]%read_position_frame & Hrun).
  apply M_bind_Ok in Hrun as ([] & s10 & [_ F10]%read_position_frame & Hrun).
  apply M_bind_Ok in Hrun as ([] & s11 & [_ F11]%read_position_frame & Hrun).
  apply M_bind_Ok in Hrun as ([] & s12 & [_ F12]%read_position_frame & Hrun).
  apply M_bind_Ok in Hrun as ([] & s13 & [_ F13]%read_position_frame & Hrun).
  apply M_bind_Ok in Hrun as (config & t1 & [-> _]%getattr_Ok & Hrun).
  apply M_bind_Ok in Hrun as ([head tail] & t2 & E1 & Hrun).
  assert (t2 = s13) as ->
    by (destruct config; try discriminate E1; by injection E1 as _ <-).
  clear E1.
  apply M_bind_Ok in Hrun as (mode & t3 & [-> _]%getattr_Ok & Hrun).
  apply M_bind_Ok in Hrun as (prefix & t4 & E2 & Hrun).
  assert (t4 = s13) as ->
    by (destruct mode; try discriminate E2; by injection E2 as _ <-).
  clear E2.
  apply M_bind_Ok in Hrun as (energy_value & t5 & [-> _]%getattr_Ok & Hrun).
  apply M_bind_Ok in Hrun as (args & t6 & E3 & Hrun). injection E3 as <- <-.
  apply M_bind_Ok in Hrun as (fs1 & t7 & E4 & Hrun).
  unfold lift in E4. injection E4 as E4 <-.
  apply M_bind_Ok in Hrun as (? & t8 & _ & Hrun). injection Hrun as <- _.
  unfold write in E4.
  destruct (written_config (Some (st_dict s13)) (Some MONO_PARAMS)) as [config'|] eqn:Hw;
    [|discriminate].
  cbn [mbind result_bind] in E4. unfold ConfigParser_write in E4. injection E4 as <-.
  eexists _, config'. split; [reflexivity|].
  rewrite <- Hw, <- E0. symmetry. apply written_config_agree.
  intros section name o Hsf. apply schema_attribute_not_position in Hsf.
  unfold saved_positions in Hsf.
  rewrite F13, F12, F11, F10, F9, F8, F7, F6, F5, F4, F3, F2, F1;
    [done|intros E; apply Hsf; rewrite E; apply (bool_decide_unpack _); by vm_compute..].
Qed.

(** The thirteen assignments, when every position can be read. *)
Lemma read_positions_run {B} pvs (values : string → pyvalue) (k : M B) st :
  (∀ name, name ∈ saved_positions → pv_value PV_get pvs name = Ok (values name)) →
  (_ ← read_position PV PV_get pvs "mirror_angle";
   _ ← read_position PV PV_get pvs "mirror_vertical_position";
   _ ← read_position PV PV_get pvs "dmm_usy_ob";
   _ ← read_position PV PV_get pvs "dmm_usy_ib";
   _ ← read_position PV PV_get pvs "dmm_dsy";
   _ ← read_position PV PV_get pvs "dmm_us_arm";
   _ ← read_position PV PV_get pvs "dmm_ds_arm";
   _ ← read_position PV PV_get pvs "dmm_m2y";
   _ ← read_position PV PV_get pvs "dmm_usx";
   _ ← read_position PV PV_get pvs "dmm_dsx";
   _ ← read_position PV PV_get pvs "filter";
   _ ← read_position PV PV_get pvs "table_y";
   _ ← read_position PV PV_get pvs "flag";
   k) st
  = k {| st_dict := set_positions values (st_dict st); st_log := st_log st |}.
Proof.
  intros Hv.
  do 13 (etrans;
         [apply bind_read_position, Hv; apply (bool_decide_unpack _); by vm_compute|];
         cbv beta).
  reflexivity.
Qed.

Lemma getattr_run name st v :
  st_dict st !! name = Some v → getattr name st = (Ok v, st).
Proof. intros Hv. unfold getattr. by rewrite Hv. Qed.

Lemma positions_file_fresh config mode energy_value :
  positions_file config mode energy_value now ≠ config.
Proof.
  unfold positions_file. intros E. apply (f_equal String.length) in E.
  rewrite <- (splitext_app config) in E at 3.
  rewrite !string_length_app in E. simpl in E. lia.
Qed.

(** X16: when every position can be read and the parameter set has a
    [config] and a [mode] that are strings and an [energy_value],
    [save_current_positions_to_config] returns: the thirteen positions are
    assigned, two records are logged, and the file written is named after
    [config], with the mode, the energy and the time stamp put before the
    extension; that file is never [config] itself. *)
Theorem save_current_positions_file (fs : filesystem) (st st1 : state)
    (energy_change_PVs : list (string * PV)) (values : string → pyvalue)
    (config mode : string) (energy_value : pyvalue) :
  init_energy_change_PVs st = (Ok energy_change_PVs, st1) →
  (∀ name, name ∈ saved_positions →
     pv_value PV_get energy_change_PVs name = Ok (values name)) →
  st_dict st1 !! "config" = Some (PyStr config) →
  st_dict st1 !! "mode" = Some (PyStr mode) →
  st_dict st1 !! "energy_value" = Some energy_value →
  plain_values (Some (st_dict st1)) (Some MONO_PARAMS) →
  ∃ written,
    save_current_positions_to_config PV init_energy_change_PVs PV_get now fs st
    = (Ok (<[positions_file config mode energy_value now := Ini written]> fs),
       {| st_dict := set_positions values (st_dict st1);
          st_log :=
            st_log st1
            ++ [ (WARNING, "save current beamline positions to config");
                 (INFO, "  *** saved to "
                        +:+ positions_file config mode energy_value now +:+ " ") ] |})
    ∧ positions_file config mode energy_value now ≠ config.
Proof.
  intros Hinit Hv Hconfig Hmode Henergy Hplain.
  assert (written_config (Some (set_positions values (st_dict st1))) (Some MONO_PARAMS)
          = written_config (Some (st_dict st1)) (Some MONO_PARAMS)) as Hagree.
  { apply written_config_agree. intros section name o Hsf.
    apply set_positions_lookup. by eapply schema_attribute_not_position. }
  destruct (written_config_Ok (Some (st_dict st1)) (Some MONO_PARAMS)
              (percent_free_writable _ _ (plain_values_percent_free _ _ Hplain)))
    as (written & Hw & _).
  rewrite <- Hagree in Hw.
  exists written. split; [|apply positions_file_fresh].
  unfold save_current_positions_to_config.
  rewrite (bind_run _ _ _ _ _ Hinit).
  unfold mbind at 1, M_bind at 1, log_warning, log_record.
  rewrite (read_positions_run _ values) by done. cbn [st_dict st_log].
  set (s13 := {| st_dict := set_positions values (st_dict st1); st_log := _ |}).
  assert (∀ k, k ∉ saved_positions → st_dict s13 !! k = st_dict st1 !! k) as Hs13
    by (intros; by apply set_positions_lookup).
  assert (∀ k v, k ∉ saved_positions → st_dict st1 !! k = Some v →
                 getattr k s13 = (Ok v, s13)) as Hget
    by (intros k v Hk Hkv; apply getattr_run; by rewrite Hs13).
  etrans; [apply bind_run,
             (Hget "config" _ ltac:(apply (bool_decide_unpack _); by vm_compute) Hconfig)|].
  cbv beta. unfold mbind at 1, M_bind at 1. cbn [mret M_ret].
  destruct (OsPath.splitext config) as [head tail] eqn:Hsplit.
  etrans; [apply bind_run,
             (Hget "mode" _ ltac:(apply (bool_decide_unpack _); by vm_compute) Hmode)|].
  cbv beta. unfold mbind at 1, M_bind at 1. cbn [mret M_ret].
  etrans; [apply bind_run,
             (Hget "energy_value" _ ltac:(apply (bool_decide_unpack _); by vm_compute) Henergy)|].
  cbv beta. unfold mbind at 1, M_bind at 1, get_dict.
  unfold mbind at 1, M_bind at 1, lift, write. subst s13. cbn [st_dict].
  rewrite Hw. cbn [mbind result_bind].
  unfold positions_file. rewrite Hsplit. cbn [fst snd].
  unfold mbind, M_bind, log_info, log_record, ConfigParser_write.
  cbn [mret M_ret st_dict st_log].
  rewrite <- !app_assoc, !append_assoc. reflexivity.
Qed.

(** X17: on a parameter set without a [mode],
    [save_current_positions_to_config] raises [AttributeError] after the
    thirteen positions have been assigned to the parameter set; no file is
    written and nothing is logged as saved. *)
Theorem save_current_positions_without_mode (fs : filesystem) (st st1 : state)
    (energy_change_PVs : list (string * PV)) (values : string → pyvalue)
    (config : string) :
  init_energy_change_PVs st = (Ok energy_change_PVs, st1) →
  (∀ name, name ∈ saved_positions →
     pv_value PV_get energy_change_PVs name = Ok (values name)) →
  st_dict st1 !! "config" = Some (PyStr config) →
  st_dict st1 !! "mode" = None →
  save_current_positions_to_config PV init_energy_change_PVs PV_get now fs st
  = (Raise AttributeError,
     {| st_dict := set_positions values (st_dict st1);
        st_log := st_log st1
                  ++ [(WARNING, "save current beamline positions to config")] |}).
Proof.
  intros Hinit Hv Hconfig Hmode.
  unfold save_current_positions_to_config.
  rewrite (bind_run _ _ _ _ _ Hinit).
  unfold mbind at 1, M_bind at 1, log_warning, log_record.
  rewrite (read_positions_run _ values) by done. cbn [st_dict st_log].
  set (s13 := {| st_dict := set_positions values (st_dict st1); st_log := _ |}).
  assert (∀ k, k ∉ saved_positions → st_dict s13 !! k = st_dict st1 !! k) as Hs13
    by (intros; by apply set_positions_lookup).
  etrans; [apply bind_run, getattr_run; rewrite Hs13, Hconfig;
           [reflexivity|apply (bool_decide_unpack _); by vm_compute]|].
  cbv beta. unfold mbind at 1, M_bind at 1. cbn [mret M_ret].
  destruct (OsPath.splitext config) as [head tail] eqn:Hsplit.
  apply bind_raise. unfold getattr.
  rewrite Hs13, Hmode by (apply (bool_decide_unpack _); by vm_compute). done.
Qed.

End SavedPositions.

Example splitext_samples :
  OsPath.splitext "/home/user/logs/dmm.conf" = ("/home/user/logs/dmm", ".conf")
  ∧ OsPath.splitext "/home/user.d/dmm" = ("/home/user.d/dmm", "")
  ∧ OsPath.splitext ".bashrc" = (".bashrc", "")
  ∧ OsPath.splitext "a.tar.gz" = ("a.tar", ".gz").
Proof. repeat split. Qed.

Lemma mono_args_plain : plain_values (Some (st_dict mono_args)) (Some MONO_PARAMS).
Proof.
  intros section name o Hsf.
  unfold schema_fields, SECTIONS in Hsf. simpl in Hsf. set_unfold in Hsf.
  destruct_or!; try (exfalso; exact Hsf); injection Hsf as -> -> ->; reflexivity.
Qed.

Lemma beamline_values name :
  name ∈ saved_positions → pv_value Ok beamline name = Ok (PyFloat 1%Z).
Proof.
  intros Hname. unfold saved_positions in Hname. set_unfold in Hname.
  destruct_or!; subst name; reflexivity.
Qed.

Lemma positions_not_saved_witness :
  ∃ config_name config,
    match (save_current_positions_to_config pyvalue connect Ok "2024-01-01_00_00_00"
             ∅ mono_args).1 with
    | Ok fs' => fs'
    | Raise _ => ∅
    end = <[config_name := Ini config]> ∅
    ∧ written_config (Some (st_dict mono_args)) (Some MONO_PARAMS) = Ok config.
Proof.
  apply (positions_not_saved pyvalue connect Ok "2024-01-01_00_00_00" ∅ _
           mono_args mono_args
           (save_current_positions_to_config pyvalue connect Ok "2024-01-01_00_00_00"
              ∅ mono_args).2
           beamline);
    reflexivity.
Defined.

Lemma save_current_positions_file_witness :
  ∃ written,
    save_current_positions_to_config pyvalue connect Ok "2024-01-01_00_00_00" ∅ mono_args
    = (Ok (<[positions_file "/home/user/logs/dmm.conf" "Mono" mono_energy
               "2024-01-01_00_00_00" := Ini written]> ∅),
       {| st_dict := set_positions all_ones (st_dict mono_args);
          st_log :=
            st_log mono_args
            ++ [ (WARNING, "save current beamline positions to config");
                 (INFO, "  *** saved to "
                        +:+ positions_file "/home/user/logs/dmm.conf" "Mono"
                              mono_energy "2024-01-01_00_00_00" +:+ " ") ] |})
    ∧ positions_file "/home/user/logs/dmm.conf" "Mono" mono_energy
        "2024-01-01_00_00_00" ≠ "/home/user/logs/dmm.conf".
Proof.
  apply (save_current_positions_file pyvalue connect Ok "2024-01-01_00_00_00" ∅
           mono_args mono_args beamline all_ones
           "/home/user/logs/dmm.conf" "Mono" mono_energy);
    [reflexivity | exact beamline_values | reflexivity | reflexivity | reflexivity
    | exact mono_args_plain].
Defined.

Example positions_file_sample :
  positions_file "/home/user/logs/dmm.conf" "Mono" mono_energy "2024-01-01_00_00_00"
  = "/home/user/logs/dmm_Mono_20.0_2024-01-01_00_00_00.conf".
Proof. reflexivity. Qed.

Lemma save_current_positions_without_mode_witness :
  save_current_positions_to_config pyvalue connect Ok "2024-01-01_00_00_00" ∅ pink_args
  = (Raise AttributeError,
     {| st_dict := set_positions all_ones (st_dict pink_args);
        st_log := st_log pink_args
                  ++ [(WARNING, "save current beamline positions to config")] |}).
Proof.
  apply (save_current_positions_without_mode pyvalue connect Ok "2024-01-01_00_00_00" ∅
           pink_args pink_args beamline all_ones "/home/user/logs/dmm.conf");
    [reflexivity | exact beamline_values | reflexivity | reflexivity].
Defined.

(** ** What the status report holds *)

Section Report.
Context `{Runtime}.

Lemma logs_mret P : logs P (mret tt).
Proof. intros st. exists []. rewrite app_nil_r. split; [by destruct st|done]. Qed.

Lemma logs_log_record P lvl msg : P (lvl, msg) → logs P (log_record lvl msg).
Proof. intros HP st. exists [(lvl, msg)]. split; [done|by constructor]. Qed.

Lemma logs_bind P (m : M unit) (f : unit → M unit) :
  logs P m → logs P (f tt) → logs P (m ≫= f).
Proof.
  intros Hm Hf st. destruct (Hm st) as (l1 & E1 & H1).
  unfold mbind, M_bind. rewrite E1.
  destruct (Hf {| st_dict := st_dict st; st_log := st_log st ++ l1 |}) as (l2 & E2 & H2).
  exists (l1 ++ l2). rewrite E2. cbn [st_dict st_log]. rewrite app_assoc.
  split; [done|by apply Forall_app].
Qed.

Lemma logs_for_each {A} P (l : list A) (body : A → M unit) :
  (∀ x, x ∈ l → logs P (body x)) → logs P (for_each l body).
Proof.
  induction l as [|x l IH]; intros Hbody; simpl.
  - apply logs_mret.
  - apply logs_bind; [apply Hbody; left|].
    apply IH. intros y Hy. apply Hbody. by right.
Qed.

Lemma logs_log_entry (args : namespace) entry v :
  args !! entry = Some v →
  PyStr.replace_char "_" "-" entry ∈ schema_fields.*2.*1 →
  logs (status_record args) (log_entry args entry).
Proof.
  intros Hv Hschema. unfold log_entry. rewrite Hv.
  assert (status_record args (entry_record entry v)) as Hr
    by (do 3 right; by exists entry, v).
  unfold entry_record in Hr.
  destruct v as [|[]| | |s|]; cbn in *; try (by apply logs_log_record).
  destruct (String.eqb s "none"); by apply logs_log_record.
Qed.

Lemma logs_log_section (args : namespace) sn :
  sn ∈ zip (SECTIONS.*1) NICE_NAMES → logs (status_record args) (log_section args sn).
Proof.
  intros Hsn.
  assert (∀ (fields : list (string * opts)) name,
    name ∈ NICE_NAMES →
    (∀ k, k ∈ fields.*1 → k ∈ schema_fields.*2.*1) →
    logs (status_record args)
      (match PyStr.sorted (filter (λ k, PyStr.replace_char "_" "-" k ∈ fields.*1)
                                  (map_to_list args).*1) with
       | [] => mret tt
       | _ => _ ← log_info name;
              for_each
                (PyStr.sorted (filter (λ k, PyStr.replace_char "_" "-" k ∈ fields.*1)
                                      (map_to_list args).*1))
                (log_entry args)
       end)) as Hbody.
  { intros fields name Hname Hfields.
    pose proof (λ x, elem_of_sorted x
      (filter (λ k, PyStr.replace_char "_" "-" k ∈ fields.*1) (map_to_list args).*1))
      as Hsub.
    destruct (PyStr.sorted _) as [|e entries]; [apply logs_mret|].
    apply logs_bind; [apply logs_log_record; right; right; by left|].
    apply logs_for_each. intros x Hx.
    apply Hsub, list_elem_of_filter in Hx as [Hschema Hx].
    apply list_elem_of_fmap in Hx as ([k v] & -> & Hkv).
    apply elem_of_map_to_list in Hkv. eapply logs_log_entry; [done|]. by apply Hfields. }
  unfold SECTIONS, NICE_NAMES in Hsn. simpl in Hsn. set_unfold in Hsn.
  destruct_or!; subst sn; unfold log_section; intros st;
    erewrite lift_bind_Ok by reflexivity; apply Hbody.
  all: try (apply (bool_decide_unpack _); by vm_compute).
  all: intros k Hk; unfold schema_fields, SECTIONS; cbn in Hk |- *; set_solver.
Qed.

(** X18: [log_values] appends to the log, between its two marks, nothing
    but section titles and the lines of attributes that are schema fields:
    an attribute that is no schema field is not reported; a line is a
    warning exactly when the value is [False] or the string [none], and
    [None] is shown as a dash. *)
Theorem log_values_records (st : state) :
  ∃ records,
    log_values st
    = (Ok tt, {| st_dict := st_dict st; st_log := st_log st ++ records |})
    ∧ Forall (status_record (st_dict st)) records.
Proof.
  unfold log_values, mbind at 1, M_bind, get_dict.
  apply (logs_bind _ _ (λ _, _ ≫= _)); [apply logs_log_record; by left|].
  apply (logs_bind _ _ (λ _, _)); [|apply logs_log_record; right; by left].
  apply logs_for_each. intros sn Hsn. by apply logs_log_section.
Qed.

Lemma filter_none {A} (P : A → Prop) `{∀ x, Decision (P x)} (l : list A) :
  (∀ x, x ∈ l → ¬ P x) → filter P l = [].
Proof.
  induction l as [|x l IH]; intros Hl; [done|].
  rewrite filter_cons_False by (apply Hl; left). apply IH. intros y Hy. apply Hl. by right.
Qed.

(** X19: on a parameter set none of whose attributes is a schema field,
    the report of [log_values] is the two marks, with no section title
    between them. *)
Theorem log_values_nothing_to_report (st : state) :
  (∀ k, is_Some (st_dict st !! k) →
        PyStr.replace_char "_" "-" k ∉ schema_fields.*2.*1) →
  log_values st
  = (Ok tt, {| st_dict := st_dict st;
               st_log := st_log st ++ [ (WARNING, "energy status start");
                                        (WARNING, "energy status end") ] |}).
Proof.
  intros Hnone.
  assert (∀ sn st', sn ∈ zip (SECTIONS.*1) NICE_NAMES →
            log_section (st_dict st) sn st' = (Ok tt, st')) as Hsection.
  { intros sn st' Hsn.
    assert (∀ fields : list (string * opts),
              (∀ k, k ∈ fields.*1 → k ∈ schema_fields.*2.*1) →
              filter (λ k, PyStr.replace_char "_" "-" k ∈ fields.*1)
                     (map_to_list (st_dict st)).*1 = []) as Hfilter.
    { intros fields Hfields. apply filter_none. intros k Hk Hin.
      apply list_elem_of_fmap in Hk as ([k' v] & -> & Hkv).
      apply elem_of_map_to_list in Hkv. apply (Hnone k'); [by exists v|].
      by apply Hfields. }
    unfold SECTIONS, NICE_NAMES in Hsn. simpl in Hsn. set_unfold in Hsn.
    destruct_or!; subst sn; unfold log_section;
      erewrite lift_bind_Ok by reflexivity; rewrite Hfilter; try done.
    all: intros k Hk; unfold schema_fields, SECTIONS; cbn in Hk |- *; set_solver. }
  unfold log_values, mbind, M_bind, get_dict, log_warning, log_record.
  cbn [st_dict st_log for_each zip zip_with fmap list_fmap SECTIONS NICE_NAMES fst].
  unfold mbind, M_bind.
  rewrite !Hsection by (apply (bool_decide_unpack _); by vm_compute).
  cbn [mret M_ret st_dict st_log]. by rewrite <- app_assoc.
Qed.

End Report.

Lemma log_values_nothing_to_report_witness :
  log_values mono_request
  = (Ok tt, {| st_dict := st_dict mono_request;
               st_log := st_log mono_request
                         ++ [ (WARNING, "energy status start");
                              (WARNING, "energy status end") ] |}).
Proof.
  apply (log_values_nothing_to_report mono_request).
  intros k [v Hk].
  destruct (decide (k = "mode")) as [->|]; [apply (bool_decide_unpack _); by vm_compute|].
  destruct (decide (k = "energy_value")) as [->|];
    [apply (bool_decide_unpack _); by vm_compute|].
  unfold mono_request in Hk. cbn [st_dict] in Hk.
  rewrite lookup_insert_ne in Hk by done. rewrite lookup_singleton_ne in Hk by done.
  done.
Defined.
